(** * budgetApp: aggregation, saving goals and monthly plan

  A shallow embedding of the computational core of [budgetApp.py]:
  the dashboard metrics, the saving-goal arithmetic, the monthly-plan
  reconciliation and the form handlers that write to the spreadsheet.

  Conventions of the embedding.
  - Money is a Python [float] in the source; here it is a rational [Q]
    and results are compared with [Qeq] ([==]).  Rounding, infinities
    and NaN arithmetic are outside the model; a missing cell (pandas
    NaN / None) is an [option].
  - [datetime.today()] and [datetime.now()] are read from the
    environment; here the current instant is an explicit argument.
  - The worksheets behind gspread are lists of rows of cells; a remote
    call that raises is an explicit input of the handler: a boolean, or
    the number of the first call that fails.  An [append_row] whose
    values hold a NaN raises as well. *)

From Stdlib Require Import ZArith QArith Qminmax List String Ascii Bool Lia Lqa.
Import ListNotations.

Local Open Scope string_scope.
Local Open Scope list_scope.
Local Open Scope Z_scope.

(** ** Rational comparisons as the source's boolean tests *)

Definition Qlt_bool (x y : Q) : bool := negb (Qle_bool y x).
Definition Qgt_bool (x y : Q) : bool := Qlt_bool y x.

(** ** Python's [datetime]: proleptic Gregorian calendar *)

Module Calendar.

(** A [datetime]; a [date] is a [datetime] at midnight. *)
Record datetime : Type := mk_datetime {
  year : Z; month : Z; day : Z;
  hour : Z; minute : Z; second : Z; microsecond : Z
}.

Definition mk_date (y m d : Z) : datetime := mk_datetime y m d 0 0 0 0.

(** [dt.date()] *)
Definition date (dt : datetime) : datetime :=
  mk_date (year dt) (month dt) (day dt).

Definition is_leap (y : Z) : bool :=
  (y mod 4 =? 0) && (negb (y mod 100 =? 0) || (y mod 400 =? 0)).

Definition days_before_year (y : Z) : Z :=
  let p := y - 1 in p * 365 + p / 4 - p / 100 + p / 400.

Definition days_in_month (y m : Z) : Z :=
  if m =? 2 then (if is_leap y then 29 else 28)
  else if (m =? 4) || (m =? 6) || (m =? 9) || (m =? 11) then 30
  else 31.

Fixpoint days_before_month_aux (y : Z) (n : nat) : Z :=
  match n with
  | O => 0
  | S k => days_before_month_aux y k + days_in_month y (Z.of_nat (S k))
  end.

Definition days_before_month (y m : Z) : Z :=
  days_before_month_aux y (Z.to_nat (m - 1)).

(** [dt.toordinal()]: 1 for 0001-01-01. *)
Definition toordinal (dt : datetime) : Z :=
  days_before_year (year dt) + days_before_month (year dt) (month dt) + day dt.

Definition us_per_day : Z := 86400000000.

Definition time_us (dt : datetime) : Z :=
  ((hour dt * 60 + minute dt) * 60 + second dt) * 1000000 + microsecond dt.

(** A [timedelta], as a signed number of microseconds; [a - b]. *)
Definition sub (a b : datetime) : Z :=
  (toordinal a - toordinal b) * us_per_day + (time_us a - time_us b).

(** [td.days]: timedeltas are normalised with [0 <= seconds < 86400],
    so [days] is the floor of the quotient. *)
Definition days (td : Z) : Z := td / us_per_day.

Definition valid (dt : datetime) : Prop :=
  1 <= month dt <= 12 /\ 1 <= day dt <= days_in_month (year dt) (month dt) /\
  0 <= time_us dt < us_per_day.

(** Order on instants, [a <= b]. *)
Definition leb (a b : datetime) : bool := 0 <=? sub b a.

Definition digit (n : Z) : ascii := ascii_of_nat (48 + Z.to_nat (n mod 10)).
Definition pad2 (n : Z) : string := String (digit (n / 10)) (String (digit n) "").
Definition pad4 (n : Z) : string :=
  String (digit (n / 1000)) (String (digit (n / 100)) (pad2 n)).

(** [str(d)] for a date: YYYY-MM-DD. *)
Definition isoformat (d : datetime) : string :=
  pad4 (year d) ++ "-" ++ pad2 (month d) ++ "-" ++ pad2 (day d).

End Calendar.

(** ** Aggregation engine: [calculate_dashboard_metrics] *)

Module Aggregation.
Import Calendar.
Local Open Scope Q_scope.

(** A row of the main sheet, columns [Date, Type, Category, Amount, Note].
    [tx_Date = None] is pandas' NaT. *)
Record Transaction : Type := mk_transaction {
  tx_Date : option datetime;
  tx_Type : string;
  tx_Category : string;
  tx_Amount : Q;
  tx_Note : string
}.

(** A row of the FixedExpenses sheet, columns [Name, Amount]. *)
Record FixedExpense : Type := mk_fixed {
  fx_Name : string;
  fx_Amount : Q
}.

(** [Series.sum()]: 0 on an empty column. *)
Definition column_sum (col : list Q) : Q := fold_left Qplus col 0.

(** The rows of [df_fixed_expenses_for_calc]: every fixed expense as an
    Expense dated to the first day of the current month. *)
Definition materialize_fixed (today : datetime) (fixed : list FixedExpense)
  : list Transaction :=
  map (fun row =>
         {| tx_Date := Some (mk_date (year today) (month today) 1);
            tx_Type := "Expense";
            tx_Category := "Fixed Expense";
            tx_Amount := fx_Amount row;
            tx_Note := "Fixed Monthly Expense: " ++ fx_Name row |}) fixed.

(** [sort_values(by='Date')]: ascending, NaT last. *)
Definition date_leb (a b : option datetime) : bool :=
  match a, b with
  | Some x, Some y => leb x y
  | Some _, None => true
  | None, Some _ => false
  | None, None => true
  end.

Fixpoint insert_by_date (r : Transaction) (l : list Transaction)
  : list Transaction :=
  match l with
  | [] => [r]
  | x :: l' =>
      if date_leb (tx_Date r) (tx_Date x) then r :: l
      else x :: insert_by_date r l'
  end.

Definition sort_by_date (l : list Transaction) : list Transaction :=
  fold_right insert_by_date [] l.

(** The unified ledger [df_combined]. *)
Definition df_combined (today : datetime) (df : list Transaction)
           (fixed : list FixedExpense) : list Transaction :=
  sort_by_date (df ++ materialize_fixed today fixed).

Record Metrics : Type := mk_metrics {
  income : Q;
  expense : Q;
  balance : Q;
  suggested_daily : Q;
  total_fixed_expenses : Q;
  remaining_after_fixed : Q
}.

(** The 25th the daily allowance is counted towards. *)
Definition target_date_for_daily_spend (today : datetime) : datetime :=
  if (25 <? day today)%Z then
    if (month today =? 12)%Z then mk_date (year today + 1) 1 25
    else mk_date (year today) (month today + 1) 25
  else mk_date (year today) (month today) 25.

(** [(target_date_for_daily_spend - today).days], before the safeguard. *)
Definition days_until_25th (today : datetime) : Z :=
  days (sub (target_date_for_daily_spend today) today).

(** [if days_until_25th <= 0: days_until_25th = 1] *)
Definition safeguard (d : Z) : Z := if (d <=? 0)%Z then 1%Z else d.

Definition calculate_dashboard_metrics (today : datetime)
           (df_combined_data : list Transaction)
           (df_fixed_expenses_data : list FixedExpense) : Metrics :=
  let '(income, expense, balance) :=
    match df_combined_data with
    | [] => (0, 0, 0)
    | _ =>
        let income :=
          column_sum (map tx_Amount
            (filter (fun r => String.eqb (tx_Type r) "Income") df_combined_data)) in
        let expense :=
          column_sum (map tx_Amount
            (filter (fun r => String.eqb (tx_Type r) "Expense") df_combined_data)) in
        (income, expense, income - expense)
    end in
  let total_fixed_expenses :=
    match df_fixed_expenses_data with
    | [] => 0
    | _ => column_sum (map fx_Amount df_fixed_expenses_data)
    end in
  let days_until_25th := safeguard (days_until_25th today) in
  let suggested_daily := balance / inject_Z days_until_25th in
  let suggested_daily :=
    if Qlt_bool suggested_daily 0 then 0 else suggested_daily in
  let remaining_after_fixed := balance - total_fixed_expenses in
  mk_metrics income expense balance suggested_daily
             total_fixed_expenses remaining_after_fixed.

(** *** The sums the contract speaks of *)

Fixpoint sum_of_kind (kind : string) (ledger : list Transaction) : Q :=
  match ledger with
  | [] => 0
  | r :: rest =>
      (if String.eqb (tx_Type r) kind then tx_Amount r else 0)
      + sum_of_kind kind rest
  end.

Fixpoint sum_fixed (fixed : list FixedExpense) : Q :=
  match fixed with
  | [] => 0
  | f :: rest => fx_Amount f + sum_fixed rest
  end.

End Aggregation.

(** ** Worksheets, messages and the category table *)

Module Sheets.

(** A value handed to gspread's [append_row]. *)
Inductive cell : Type :=
| CStr (s : string)
| CNum (q : Q)
| CBool (b : bool)
| CNaN.

(** A worksheet: its rows, the header row first. *)
Definition worksheet : Type := list (list cell).

Definition clear (ws : worksheet) : worksheet := [].

Definition append_row (ws : worksheet) (values : list cell) : worksheet :=
  ws ++ [values].

(** [float(x)] of a possibly missing number. *)
Definition float_cell (x : option Q) : cell :=
  match x with Some q => CNum q | None => CNaN end.

(** [append_row] as the remote call performs it: a NaN among the values
    cannot be serialised, and the call raises instead of writing. *)
Definition is_nan (c : cell) : bool :=
  match c with CNaN => true | _ => false end.

Definition try_append_row (ws : worksheet) (values : list cell)
  : option worksheet :=
  if existsb is_nan values then None else Some (append_row ws values).

Definition STANDARD_COLS_MAIN : list string :=
  ["Date"; "Type"; "Category"; "Amount"; "Note"].
Definition STANDARD_COLS_FIXED : list string := ["Name"; "Amount"].
Definition STANDARD_COLS_SAVING_GOALS : list string :=
  ["GoalName"; "GoalAmount"; "Emoji"; "CurrentSaved"; "TargetDate";
   "SavingFrequency"; "SavingAmountPerFreq"].
Definition STANDARD_COLS_MONTHLY_PLAN : list string :=
  ["MonthYear"; "ItemType"; "ItemName"; "Amount"; "Category"; "IsPaid";
   "DatePaid"].

Definition header (cols : list string) : list cell := map CStr cols.

(** The four tables of the spreadsheet. *)
Record Store : Type := mk_store {
  sheet : worksheet;
  fixed_expenses_sheet : worksheet;
  goals_sheet : worksheet;
  monthly_plans_sheet : worksheet
}.

(** What a handler shows: [st.success], [st.warning], [st.error], [st.info]. *)
Inductive message : Type :=
| st_success (text : string)
| st_warning (text : string)
| st_error (text : string)
| st_info (text : string)
| st_info_required (amount : Q) (per : string).

Definition is_warning (m : message) : bool :=
  match m with st_warning _ => true | _ => false end.

Definition is_success (m : message) : bool :=
  match m with st_success _ => true | _ => false end.

Definition is_error (m : message) : bool :=
  match m with st_error _ => true | _ => false end.

Inductive language : Type := Thai | English.

Definition t (lang : language) (thai eng : string) : string :=
  match lang with Thai => thai | English => eng end.

Definition CATEGORY_MAP : list (string * string) :=
  [("Food", "อาหาร");
   ("Travel", "เดินทาง");
   ("Utilities", "ของใช้");
   ("Income", "รายได้");
   ("Others", "อื่นๆ");
   ("Fixed Expense", "ค่าใช้จ่ายประจำ")].

(** [CATEGORY_MAP.get(x, x)] *)
Definition display_category (x : string) : string :=
  match find (fun kv => String.eqb (fst kv) x) CATEGORY_MAP with
  | Some kv => snd kv
  | None => x
  end.

(** [next((k for k, v in CATEGORY_MAP.items() if v == c), str(c))] *)
Definition canonical_category (c : option string) : string :=
  match c with
  | Some s =>
      match find (fun kv => String.eqb (snd kv) s) CATEGORY_MAP with
      | Some kv => fst kv
      | None => s
      end
  | None => "None"
  end.

(** Truthiness of a Python string. *)
Definition nonempty (s : string) : bool :=
  match s with EmptyString => false | _ => true end.

End Sheets.

(** ** Saving goals *)

Module Goals.
Import Calendar Sheets.
Local Open Scope Q_scope.

(** A row of [df_saving_goals] as the data editor hands it back; [None]
    is an empty cell. *)
Record SavingGoal : Type := mk_goal {
  GoalName : option string;
  GoalAmount : option Q;
  Emoji : string;
  CurrentSaved : option Q;
  TargetDate : option datetime;
  SavingFrequency : string;
  SavingAmountPerFreq : option Q
}.

(** [float(x) if pd.notna(x) else 0.0] *)
Definition or_zero (x : option Q) : Q :=
  match x with Some q => q | None => 0 end.

(** Python's [max(a, b)] and [min(a, b)]: the first argument wins a tie. *)
Definition py_max (a b : Q) : Q := if Qgt_bool b a then b else a.
Definition py_min (a b : Q) : Q := if Qlt_bool b a then b else a.

(** [clamp(x, lo, hi)] as the contract writes it. *)
Definition clamp (x lo hi : Q) : Q := Qmin hi (Qmax lo x).

(** [display_saving_goals]: the progress bar of one goal. *)
Definition progress_percent_of (current_saved goal_amount : Q) : Q :=
  let progress_percent :=
    if Qgt_bool goal_amount 0 then (current_saved / goal_amount) * 100 else 0 in
  py_min 100 (py_max 0 progress_percent).

Definition progress_percent (goal : SavingGoal) : Q :=
  progress_percent_of (or_zero (CurrentSaved goal)) (or_zero (GoalAmount goal)).

(** [(target.date() - today.date()).days] *)
Definition days_to_target (today target : datetime) : Z :=
  days (sub (date target) (date today)).

(** Average month length used by the source. *)
Definition month_length : Q := 3044 # 100.

(** [edit_delete_goals_section]: the amount recomputed for an edited row. *)
Definition edited_saving_amount_per_freq (today target : datetime)
           (goal_amount current_saved : Q) (saving_frequency : string) : Q :=
  let edited_days_to_target := days_to_target today target in
  if (0 <? edited_days_to_target)%Z && Qgt_bool goal_amount current_saved then
    let edited_remaining_to_save := goal_amount - current_saved in
    if String.eqb saving_frequency "Daily" then
      edited_remaining_to_save / inject_Z edited_days_to_target
    else if String.eqb saving_frequency "Weekly" then
      let edited_weeks_to_target := inject_Z edited_days_to_target / 7 in
      if Qgt_bool edited_weeks_to_target 0
      then edited_remaining_to_save / edited_weeks_to_target
      else edited_remaining_to_save
    else if String.eqb saving_frequency "Monthly" then
      let edited_months_to_target :=
        inject_Z edited_days_to_target / month_length in
      if Qgt_bool edited_months_to_target 0
      then edited_remaining_to_save / edited_months_to_target
      else edited_remaining_to_save
    else 0
  else 0.

(** [add_new_goal_form]: the amount shown and stored for a new goal,
    which has nothing saved yet. *)
Definition saving_amount_per_freq (today : datetime)
           (target_date : option datetime) (goal_amount : Q)
           (saving_frequency : string) : Q :=
  let days_to_target :=
    match target_date with
    | Some d => days_to_target today d
    | None => 0%Z
    end in
  if (0 <? days_to_target)%Z && Qgt_bool goal_amount 0 then
    let remaining_to_save := goal_amount in
    if String.eqb saving_frequency "Daily" then
      remaining_to_save / inject_Z days_to_target
    else if String.eqb saving_frequency "Weekly" then
      let weeks_to_target := inject_Z days_to_target / 7 in
      if Qgt_bool weeks_to_target 0
      then remaining_to_save / weeks_to_target
      else remaining_to_save
    else if String.eqb saving_frequency "Monthly" then
      let months_to_target := inject_Z days_to_target / month_length in
      if Qgt_bool months_to_target 0
      then remaining_to_save / months_to_target
      else 0
    else 0
  else 0.

(** One iteration of the save loop of [edit_delete_goals_section]: a row
    with an empty GoalName, GoalAmount or TargetDate writes nothing.  A
    comparison with a missing CurrentSaved (NaN) is false, and its
    [float(nan)] among the values makes [append_row] raise: [None]. *)
Definition save_goal_row (today : datetime) (ws : worksheet)
           (row : SavingGoal) : option worksheet :=
  match GoalName row, GoalAmount row, TargetDate row with
  | Some name, Some amount, Some target =>
      let edited_target_date_dt := date target in
      let edited_saving_amount_per_freq :=
        match CurrentSaved row with
        | Some saved =>
            edited_saving_amount_per_freq today target amount saved
                                          (SavingFrequency row)
        | None => 0
        end in
      try_append_row ws
        [CStr name; CNum amount; CStr (Emoji row);
         float_cell (CurrentSaved row);
         CStr (isoformat edited_target_date_dt);
         CStr (SavingFrequency row);
         CNum edited_saving_amount_per_freq]
  | _, _, _ => Some ws
  end.

(** The loop over the edited rows: the sheet it leaves, and whether it
    ran to its end ([false]: a call raised and the rows after are not
    reached). *)
Fixpoint save_goal_rows (today : datetime) (rows : list SavingGoal)
         (ws : worksheet) : worksheet * bool :=
  match rows with
  | [] => (ws, true)
  | row :: rest =>
      match save_goal_row today ws row with
      | Some ws' => save_goal_rows today rest ws'
      | None => (ws, false)
      end
  end.

(** The "Save Goal Edits" button, the network being up: the SavingGoals
    worksheet it leaves and the messages shown.  The sheet is cleared
    before the loop, so a raised exception leaves the header and the rows
    written so far, with an error message (the two [except] branches
    differ in its text only; the text of the second stands for both). *)
Definition save_goal_edits (today : datetime) (goals_sheet : worksheet)
           (edited_goals_df : list SavingGoal) : worksheet * list message :=
  let ws := append_row (clear goals_sheet) (header STANDARD_COLS_SAVING_GOALS) in
  match save_goal_rows today edited_goals_df ws with
  | (ws', true) => (ws', [st_success "Goals updated successfully"])
  | (ws', false) =>
      (ws', [st_error "An unexpected error occurred while saving goal:"])
  end.

(** *** What the contract calls a complete row *)

Definition has_required_fields (row : SavingGoal) : bool :=
  match GoalName row, GoalAmount row, TargetDate row with
  | Some _, Some _, Some _ => true
  | _, _, _ => false
  end.

(** The cells written for a complete row. *)
Definition goal_values (today : datetime) (row : SavingGoal) : list cell :=
  [CStr (match GoalName row with Some n => n | None => "" end);
   CNum (or_zero (GoalAmount row));
   CStr (Emoji row);
   float_cell (CurrentSaved row);
   CStr (match TargetDate row with
         | Some d => isoformat (date d)
         | None => ""
         end);
   CStr (SavingFrequency row);
   CNum (match CurrentSaved row, TargetDate row with
         | Some saved, Some d =>
             edited_saving_amount_per_freq today d (or_zero (GoalAmount row))
                                           saved (SavingFrequency row)
         | _, _ => 0
         end)].

End Goals.

(** ** Monthly plan *)

Module Plan.
Import Calendar Sheets Aggregation.
Local Open Scope Q_scope.

(** A row of [df_monthly_plans]; [DatePaid = None] is NaT. *)
Record MonthlyPlanItem : Type := mk_plan_item {
  MonthYear : datetime;
  ItemType : string;
  ItemName : string;
  Amount : Q;
  Category : string;
  IsPaid : bool;
  DatePaid : option datetime
}.

(** A row of the planned-expenses data editor, columns
    [ItemName, Amount, Category, IsPaid]; [None] is an empty cell. *)
Record EditorRow : Type := mk_editor_row {
  ed_ItemName : option string;
  ed_Amount : option Q;
  ed_Category : option string;
  ed_IsPaid : bool
}.

(** The MonthYear of the row falls in the month of [m]. *)
Definition in_month (m : datetime) (it : MonthlyPlanItem) : bool :=
  (year (MonthYear it) =? year m)%Z && (month (MonthYear it) =? month m)%Z.

Definition is_expense (it : MonthlyPlanItem) : bool :=
  String.eqb (ItemType it) "Expense".

Definition current_month_plan_df (selected_plan_month : datetime)
           (df_monthly_plans : list MonthlyPlanItem) : list MonthlyPlanItem :=
  filter (in_month selected_plan_month) df_monthly_plans.

Definition existing_planned_expenses (selected_plan_month : datetime)
           (df_monthly_plans : list MonthlyPlanItem) : list MonthlyPlanItem :=
  filter is_expense (current_month_plan_df selected_plan_month df_monthly_plans).

(** [(existing['ItemName'] == fixed_name) & (existing['Category'] == "Fixed Expense")] *)
Definition matches_fixed (fixed_name : string) (it : MonthlyPlanItem) : bool :=
  String.eqb (ItemName it) fixed_name && String.eqb (Category it) "Fixed Expense".

(** The projection of the fixed expenses into a month: one unpaid Expense
    row for every fixed expense that no existing planned expense matches. *)
Definition fixed_expenses_to_add (selected_plan_month : datetime)
           (df_fixed_expenses : list FixedExpense)
           (existing : list MonthlyPlanItem) : list MonthlyPlanItem :=
  flat_map (fun row =>
    let fixed_name := fx_Name row in
    if existsb (matches_fixed fixed_name) existing then []
    else [ {| MonthYear := selected_plan_month;
              ItemType := "Expense";
              ItemName := fixed_name;
              Amount := fx_Amount row;
              Category := "Fixed Expense";
              IsPaid := false;
              DatePaid := None |} ]) df_fixed_expenses.

(** The planned expenses of the month with the projected fixed expenses
    after them: the rows of [initial_planned_expenses_for_editor], before
    they are cut down to the editor's columns. *)
Definition initial_planned_expenses (selected_plan_month : datetime)
           (df_fixed_expenses : list FixedExpense)
           (existing : list MonthlyPlanItem) : list MonthlyPlanItem :=
  existing ++ fixed_expenses_to_add selected_plan_month df_fixed_expenses existing.

Definition editor_row_of (it : MonthlyPlanItem) : EditorRow :=
  {| ed_ItemName := Some (ItemName it);
     ed_Amount := Some (Amount it);
     ed_Category := Some (display_category (Category it));
     ed_IsPaid := IsPaid it |}.

Definition initial_planned_expenses_for_editor
           (selected_plan_month : datetime)
           (df_fixed_expenses : list FixedExpense)
           (df_monthly_plans : list MonthlyPlanItem) : list EditorRow :=
  map editor_row_of
      (initial_planned_expenses selected_plan_month df_fixed_expenses
         (existing_planned_expenses selected_plan_month df_monthly_plans)).

(** *** Save Planned Expenses *)

(** [(current['ItemName'] == name) & (current['Category'] == category)] *)
Definition same_name_category (name category : string)
           (it : MonthlyPlanItem) : bool :=
  String.eqb (ItemName it) name && String.eqb (Category it) category.

(** [existing_item]: the rows of the month's snapshot with the name and
    category of the edited row; the status is read off the first one. *)
Definition existing_item (current : list MonthlyPlanItem)
           (name category : string) : list MonthlyPlanItem :=
  filter (same_name_category name category) current.

Definition status_of (existing_item : list MonthlyPlanItem)
  : bool * option datetime :=
  match existing_item with
  | [] => (false, None)
  | first :: _ => (IsPaid first, DatePaid first)
  end.

(** One iteration of the loop over the edited rows: a row without a name,
    without an amount or with an amount that is not positive adds nothing. *)
Definition updated_expense_plan_row (selected_plan_month : datetime)
           (current : list MonthlyPlanItem) (row : EditorRow)
  : list MonthlyPlanItem :=
  match ed_ItemName row, ed_Amount row with
  | Some name, Some amount =>
      if Qgt_bool amount 0 then
        let category_to_save := canonical_category (ed_Category row) in
        let '(is_paid_status, date_paid_status) :=
          status_of (existing_item current name category_to_save) in
        [ {| MonthYear := selected_plan_month;
             ItemType := "Expense";
             ItemName := name;
             Amount := amount;
             Category := category_to_save;
             IsPaid := is_paid_status;
             DatePaid := date_paid_status |} ]
      else []
  | _, _ => []
  end.

Definition updated_expense_plan_rows (selected_plan_month : datetime)
           (current : list MonthlyPlanItem) (edited : list EditorRow)
  : list MonthlyPlanItem :=
  flat_map (updated_expense_plan_row selected_plan_month current) edited.

(** The new [df_monthly_plans]: every row that is not an Expense of the
    selected month, then the rows rebuilt from the editor. *)
Definition save_planned_expenses (selected_plan_month : datetime)
           (df_monthly_plans : list MonthlyPlanItem)
           (edited : list EditorRow) : list MonthlyPlanItem :=
  let current := current_month_plan_df selected_plan_month df_monthly_plans in
  let df_monthly_plans_updated :=
    filter (fun it => negb (in_month selected_plan_month it && is_expense it))
           df_monthly_plans in
  df_monthly_plans_updated
    ++ updated_expense_plan_rows selected_plan_month current edited.

(** *** Update Payment Status *)

(** A row of the actionable-expenses editor after [str()], [float()] and
    [bool()]. *)
Record ActionableRow : Type := mk_actionable_row {
  act_ItemName : string;
  act_Amount : Q;
  act_Category : string;
  act_IsPaid : bool
}.

Definition payment_section_shown (today selected_plan_month : datetime) : bool :=
  (25 <=? day today)%Z && (year selected_plan_month =? year today)%Z
  && (month selected_plan_month =? month today)%Z.

Definition current_month_actionable_expenses (today : datetime)
           (df_monthly_plans : list MonthlyPlanItem) : list MonthlyPlanItem :=
  filter (fun it => in_month today it && is_expense it && negb (IsPaid it))
         df_monthly_plans.

Definition actionable_display_df (today : datetime)
           (df_monthly_plans : list MonthlyPlanItem) : list ActionableRow :=
  map (fun it => {| act_ItemName := ItemName it;
                    act_Amount := Amount it;
                    act_Category := display_category (Category it);
                    act_IsPaid := IsPaid it |})
      (current_month_actionable_expenses today df_monthly_plans).

Definition mask (today : datetime) (name category : string) (amount : Q)
           (it : MonthlyPlanItem) : bool :=
  in_month today it && is_expense it && String.eqb (ItemName it) name
  && String.eqb (Category it) category && Qeq_bool (Amount it) amount.

Definition mark_paid (now : datetime) (it : MonthlyPlanItem) : MonthlyPlanItem :=
  {| MonthYear := MonthYear it; ItemType := ItemType it;
     ItemName := ItemName it; Amount := Amount it; Category := Category it;
     IsPaid := true; DatePaid := Some now |}.

(** The session state the handler works on. *)
Record PayState : Type := mk_pay_state {
  ps_plans : list MonthlyPlanItem;
  ps_sheet : worksheet;
  ps_messages : list message
}.

(** The loop either runs to its end or stops at an [IndexError], raised by
    [.iloc[0]] on an empty selection; what was changed before stays.  The
    remote [append_row] is taken to succeed. *)
Inductive outcome : Type :=
| Completed (st : PayState)
| Raised (st : PayState).

Definition state_of (o : outcome) : PayState :=
  match o with Completed st => st | Raised st => st end.

Definition pay_row (today now : datetime) (st : PayState) (row : ActionableRow)
  : outcome :=
  let original_item_name := act_ItemName row in
  let original_category_canonical :=
    canonical_category (Some (act_Category row)) in
  let original_amount := act_Amount row in
  let m := mask today original_item_name original_category_canonical
                original_amount in
  if act_IsPaid row then
    match filter m (ps_plans st) with
    | [] => Raised st
    | first :: _ =>
        if negb (IsPaid first) then
          Completed
            {| ps_plans :=
                 map (fun it => if m it then mark_paid now it else it)
                     (ps_plans st);
               ps_sheet :=
                 append_row (ps_sheet st)
                   [CStr (isoformat (date now)); CStr "Expense";
                    CStr original_category_canonical; CNum original_amount;
                    CStr ("Paid planned expense: " ++ original_item_name)];
               ps_messages :=
                 ps_messages st
                 ++ [st_success ("Expense '" ++ original_item_name ++ "' paid!")] |}
        else Completed st
    end
  else Completed st.

Fixpoint update_payment_status (today now : datetime)
         (rows : list ActionableRow) (st : PayState) : outcome :=
  match rows with
  | [] => Completed st
  | row :: rest =>
      match pay_row today now st row with
      | Completed st' => update_payment_status today now rest st'
      | Raised st' => Raised st'
      end
  end.

(** What one run of the handler may do to a row: leave it, or mark it
    paid now. *)
Definition paid_or_same (now : datetime) (before after : MonthlyPlanItem)
  : Prop :=
  after = before \/ after = mark_paid now before.

(** *** The lookup as the specification words it *)

(** The specification's key: item name, category and amount. *)
Definition same_name_category_amount (name category : string) (amount : Q)
           (it : MonthlyPlanItem) : bool :=
  same_name_category name category it && Qeq_bool (Amount it) amount.

Definition status_by_triple (current : list MonthlyPlanItem)
           (name category : string) (amount : Q) : bool * option datetime :=
  status_of (filter (same_name_category_amount name category amount) current).

End Plan.

(** ** The add forms *)

Module Forms.
Import Calendar Sheets Goals.
Local Open Scope Q_scope.

(** Tab 1, [entry_form]. *)
Definition entry_form_submit (lang : language) (api_ok : bool) (st : Store)
           (submitted : bool) (date : datetime)
           (entry_type_selected category_to_save : string)
           (amount : Q) (note : string) : Store * list message :=
  if submitted then
    let type_to_save :=
      if String.eqb entry_type_selected (t lang "รายรับ" "Income")
      then "Income" else "Expense" in
    if api_ok then
      ({| sheet := append_row (sheet st)
                     [CStr (isoformat date); CStr type_to_save;
                      CStr category_to_save; CNum amount; CStr note];
          fixed_expenses_sheet := fixed_expenses_sheet st;
          goals_sheet := goals_sheet st;
          monthly_plans_sheet := monthly_plans_sheet st |},
       [st_success (t lang "บันทึกเรียบร้อยแล้ว!" "Entry saved!")])
    else
      (st, [st_error (t lang "เกิดข้อผิดพลาดในการบันทึกรายการ:"
                         "Error saving entry:")])
  else (st, []).

(** Tab 2, [add_fixed_expense_form]. *)
Definition add_fixed_expense_submit (lang : language) (api_ok : bool)
           (st : Store) (add_fixed_submitted : bool) (fixed_name : string)
           (fixed_amount : Q) : Store * list message :=
  if add_fixed_submitted && nonempty fixed_name && Qgt_bool fixed_amount 0 then
    if api_ok then
      ({| sheet := sheet st;
          fixed_expenses_sheet :=
            append_row (fixed_expenses_sheet st)
                       [CStr fixed_name; CNum fixed_amount];
          goals_sheet := goals_sheet st;
          monthly_plans_sheet := monthly_plans_sheet st |},
       [st_success (t lang "เพิ่มค่าใช้จ่าย Fix เรียบร้อยแล้ว!"
                           "Fixed expense added successfully!")])
    else
      (st, [st_error (t lang "เกิดข้อผิดพลาดในการเพิ่มค่าใช้จ่าย Fix:"
                         "Error adding fixed expense:")])
  else if add_fixed_submitted then
    (st, [st_warning (t lang "กรุณากรอกชื่อและจำนวนเงินสำหรับค่าใช้จ่าย Fix"
                         "Please enter a name and amount for the fixed expense.")])
  else (st, []).

(** Truthiness and [str()] of the value of the date input. *)
Definition is_some (d : option datetime) : bool :=
  match d with Some _ => true | None => false end.

Definition str_of_date (d : option datetime) : string :=
  match d with Some x => isoformat x | None => "None" end.

(** Sidebar, [add_new_goal_form]; the required saving is shown on every
    render of the form. *)
Definition add_goal_submit (lang : language) (api_ok : bool) (st : Store)
           (today : datetime) (add_goal_submitted : bool) (goal_name : string)
           (goal_amount : Q) (goal_emoji : string)
           (target_date : option datetime) (saving_frequency : string)
  : Store * list message :=
  let saving_amount_per_freq :=
    saving_amount_per_freq today target_date goal_amount saving_frequency in
  let shown := [st_info_required saving_amount_per_freq saving_frequency] in
  if add_goal_submitted && nonempty goal_name && Qgt_bool goal_amount 0
     && is_some target_date then
    if api_ok then
      ({| sheet := sheet st;
          fixed_expenses_sheet := fixed_expenses_sheet st;
          goals_sheet :=
            append_row (goals_sheet st)
              [CStr goal_name; CNum goal_amount; CStr goal_emoji; CNum 0;
               CStr (str_of_date target_date); CStr saving_frequency;
               CNum saving_amount_per_freq];
          monthly_plans_sheet := monthly_plans_sheet st |},
       shown ++ [st_success (t lang "เพิ่มเป้าหมายสำเร็จแล้ว!"
                                    "Goal added successfully!")])
    else
      (st, shown ++ [st_error (t lang "เกิดข้อผิดพลาดในการบันทึกเป้าหมาย"
                                  "Error saving goal")])
  else (st, shown).

(** The number of rows in the whole store. *)
Definition rows_in_store (st : Store) : nat :=
  (List.length (sheet st) + List.length (fixed_expenses_sheet st)
   + List.length (goals_sheet st) + List.length (monthly_plans_sheet st))%nat.

End Forms.

(** ** The dashboard's views of the ledger *)

Module Views.
Import Calendar Sheets Aggregation.
Local Open Scope Q_scope.

(** An instant as microseconds since the start of day 0, the order pandas
    compares timestamps by. *)
Definition instant (dt : datetime) : Z :=
  (toordinal dt * us_per_day + time_us dt)%Z.

Definition in_current_month (today : datetime) (r : Transaction) : bool :=
  match tx_Date r with
  | Some d => (year d =? year today)%Z && (month d =? month today)%Z
  | None => false
  end.

(** [Date >= today - timedelta(days=90)] *)
Definition in_last_3_months (today : datetime) (r : Transaction) : bool :=
  match tx_Date r with
  | Some d => (instant today - 90 * us_per_day <=? instant d)%Z
  | None => false
  end.

Definition in_current_year (today : datetime) (r : Transaction) : bool :=
  match tx_Date r with
  | Some d => (year d =? year today)%Z
  | None => false
  end.

(** The ledger behind the charts for the period chosen in the select box. *)
Definition df_filtered_for_graphs (lang : language) (today : datetime)
           (selected_graph_period : string)
           (df_combined : list Transaction) : list Transaction :=
  if String.eqb selected_graph_period (t lang "เดือนปัจจุบัน" "Current Month")
  then filter (in_current_month today) df_combined
  else if String.eqb selected_graph_period
                     (t lang "3 เดือนล่าสุด" "Last 3 Months")
  then filter (in_last_3_months today) df_combined
  else if String.eqb selected_graph_period (t lang "ปีปัจจุบัน" "Current Year")
  then filter (in_current_year today) df_combined
  else df_combined.

Definition expense_df_for_chart (df_filtered : list Transaction)
  : list Transaction :=
  filter (fun r => String.eqb (tx_Type r) "Expense") df_filtered.

(** The last filter of the entries table:
    [~Category.str.startswith("Saving Goal:")]. *)
Definition without_saving_goals (df_table_view : list Transaction)
  : list Transaction :=
  filter (fun r => negb (String.prefix "Saving Goal:" (tx_Category r)))
         df_table_view.


End Views.

(** ** Saving goals: status and the save-money action *)

Module GoalActions.
Import Calendar Sheets Goals.
Local Open Scope Q_scope.

(** The status line of a goal card. *)
Inductive goal_status : Type :=
| GoalReached
| InvalidTargetDate
| Overdue
| Remaining (days : Z).

Definition status_text (today : datetime) (goal : SavingGoal) : goal_status :=
  let goal_amount := or_zero (GoalAmount goal) in
  let current_saved := or_zero (CurrentSaved goal) in
  let days_remaining_for_goal :=
    match TargetDate goal with
    | Some target_date => days_to_target today target_date
    | None => 0%Z
    end in
  if Qle_bool goal_amount current_saved then GoalReached
  else match TargetDate goal with
       | None => InvalidTargetDate
       | Some _ =>
           if (days_remaining_for_goal <? 0)%Z then Overdue
           else Remaining days_remaining_for_goal
       end.

(** [str(x)] of a cell that may be empty. *)
Definition str_of_name (n : option string) : string :=
  match n with Some s => s | None => "None" end.

(** An entry of [goal_options_for_save]. *)
Definition goal_option (row : SavingGoal) : string :=
  Emoji row ++ " " ++ str_of_name (GoalName row).

(** [[i for i, opt in enumerate(options) if opt == selected][0]] *)
Fixpoint first_index (selected : string) (options : list string)
  : option nat :=
  match options with
  | [] => None
  | opt :: rest =>
      if String.eqb opt selected then Some O
      else option_map S (first_index selected rest)
  end.

(** [CurrentSaved += amount]; an empty cell stays empty (NaN). *)
Definition add_saved (amount : Q) (goal : SavingGoal) : SavingGoal :=
  {| GoalName := GoalName goal;
     GoalAmount := GoalAmount goal;
     Emoji := Emoji goal;
     CurrentSaved := option_map (fun saved => saved + amount)
                                (CurrentSaved goal);
     TargetDate := TargetDate goal;
     SavingFrequency := SavingFrequency goal;
     SavingAmountPerFreq := SavingAmountPerFreq goal |}.

(** The goals table with its index labels: [.iloc] goes by position,
    [.loc] by label.  A table loaded from the sheet carries the labels
    0, 1, 2, ... *)
Definition frame : Type := list (nat * SavingGoal).

Definition rows_of (df : frame) : list SavingGoal := map snd df.

Definition has_label (label : nat) (df : frame) : bool :=
  existsb (fun p => Nat.eqb (fst p) label) df.

(** [df.loc[label, 'CurrentSaved'] += amount]: every row carrying the
    label is updated. *)
Definition loc_add_saved (label : nat) (amount : Q) (df : frame) : frame :=
  map (fun p => if Nat.eqb (fst p) label
                then (fst p, add_saved amount (snd p)) else p) df.

(** The cells the save-money action writes for a goal: every row is
    written, and the required amount is written as it stands. *)
Definition goal_row_as_is (row : SavingGoal) : list cell :=
  [CStr (str_of_name (GoalName row));
   float_cell (GoalAmount row);
   CStr (Emoji row);
   float_cell (CurrentSaved row);
   CStr (match TargetDate row with
         | Some d => isoformat (date d)
         | None => ""
         end);
   CStr (SavingFrequency row);
   float_cell (SavingAmountPerFreq row)].

(** Whether remote call number [k] of a handler goes through, when call
    number [fails_at] is the first one the network lets down. *)
Definition remote_ok (fails_at : option nat) (k : nat) : bool :=
  match fails_at with
  | Some n => Nat.ltb k n
  | None => true
  end.

(** The loop that rewrites the goals sheet, from remote call number [k]
    on: the sheet it leaves and whether it ran to its end. *)
Fixpoint rewrite_goal_rows (fails_at : option nat) (k : nat)
         (rows : list SavingGoal) (ws : worksheet) : worksheet * bool :=
  match rows with
  | [] => (ws, true)
  | row :: rest =>
      if remote_ok fails_at k then
        match try_append_row ws (goal_row_as_is row) with
        | Some ws' => rewrite_goal_rows fails_at (S k) rest ws'
        | None => (ws, false)
        end
      else (ws, false)
  end.

Record SaveMoney : Type := mk_save_money {
  sm_goals : frame;
  sm_store : Store;
  sm_messages : list message
}.

(** The [try] block of [save_money_to_goal_section], up to the reload of
    the tables.  Its remote calls are, in order: the append to the main
    sheet (0), the clearing of the goals sheet (1), its header (2) and one
    append per goal (3, 4, ...).  The first call that raises ends the
    block with an error message (the two [except] branches differ in its
    text only; the text of the first stands for both), and nothing that
    was written before is rolled back. *)
Definition write_saved_money (lang : language) (fails_at : option nat)
           (today : datetime) (st : Store) (name : string)
           (df_saving_goals : frame) (save_amount_for_goal : Q)
  : Store * list message :=
  let failed :=
    [st_error (t lang "เกิดข้อผิดพลาดในการบันทึกเงินออม:" "Error saving money:")] in
  let with_sheets := fun main goals =>
    {| sheet := main;
       fixed_expenses_sheet := fixed_expenses_sheet st;
       goals_sheet := goals;
       monthly_plans_sheet := monthly_plans_sheet st |} in
  if remote_ok fails_at 0 then
    let main :=
      append_row (sheet st)
        [CStr (isoformat (date today)); CStr "Expense";
         CStr ("Saving Goal: " ++ name);
         CNum save_amount_for_goal;
         CStr ("Saved for goal: " ++ name)] in
    if remote_ok fails_at 1 then
      if remote_ok fails_at 2 then
        let '(goals, done) :=
          rewrite_goal_rows fails_at 3 (rows_of df_saving_goals)
            (append_row (clear (goals_sheet st))
                        (header STANDARD_COLS_SAVING_GOALS)) in
        (with_sheets main goals,
         if done then [st_success (t lang "ออมเงิน" "Saved")] else failed)
      else (with_sheets main (clear (goals_sheet st)), failed)
    else (with_sheets main (goals_sheet st), failed)
  else (st, failed).

(** [save_money_to_goal_section].  [None] is an exception raised before
    the [try]: the [IndexError] of an empty selection list or the
    [KeyError] of [.loc] on a label the table does not have.  The goal is
    named by position ([.iloc]) and its saved sum is increased by label
    ([.loc]), in the session's table, before anything is written. *)
Definition save_money_to_goal (lang : language) (fails_at : option nat)
           (today : datetime) (df_goals : frame) (st : Store)
           (selected_goal_to_save_display : string)
           (save_amount_for_goal : Q) (save_goal_money_button : bool)
  : option SaveMoney :=
  match df_goals with
  | [] =>
      Some (mk_save_money df_goals st
              [st_info (t lang "ไม่มีเป้าหมายให้บันทึกเงินออม โปรดเพิ่มเป้าหมายก่อน"
                          "No goals to save money to. Please add goals first.")])
  | _ =>
      let goal_options_for_save := map goal_option (rows_of df_goals) in
      if save_goal_money_button && Qgt_bool save_amount_for_goal 0
         && nonempty selected_goal_to_save_display then
        match first_index selected_goal_to_save_display
                          goal_options_for_save with
        | None => None
        | Some selected_goal_row_idx =>
            if has_label selected_goal_row_idx df_goals then
              let name :=
                str_of_name
                  (match nth_error (rows_of df_goals) selected_goal_row_idx with
                   | Some goal_to_update => GoalName goal_to_update
                   | None => None
                   end) in
              let df_saving_goals :=
                loc_add_saved selected_goal_row_idx save_amount_for_goal
                              df_goals in
              let '(st', messages) :=
                write_saved_money lang fails_at today st name df_saving_goals
                                  save_amount_for_goal in
              Some (mk_save_money df_saving_goals st' messages)
            else None
        end
      else Some (mk_save_money df_goals st [])
  end.

(** The total recorded as saved over all goals; an empty cell counts 0. *)
Fixpoint total_saved (df : list SavingGoal) : Q :=
  match df with
  | [] => 0
  | goal :: rest => or_zero (CurrentSaved goal) + total_saved rest
  end.

End GoalActions.

(** ** Monthly plan: expected income *)

Module PlanIncome.
Import Calendar Sheets Aggregation Plan.
Local Open Scope Q_scope.

Definition is_income (it : MonthlyPlanItem) : bool :=
  String.eqb (ItemType it) "Income".

(** The value the income form starts from. *)
Definition planned_income_for_month (selected_plan_month : datetime)
           (df_monthly_plans : list MonthlyPlanItem) : Q :=
  column_sum
    (map Amount
         (filter is_income
                 (current_month_plan_df selected_plan_month df_monthly_plans))).

(** "Save Expected Income": the new [df_monthly_plans]. *)
Definition save_income_plan (selected_plan_month : datetime)
           (df_monthly_plans : list MonthlyPlanItem)
           (new_planned_income : Q) : list MonthlyPlanItem :=
  let df_monthly_plans_updated :=
    filter (fun it => negb (in_month selected_plan_month it && is_income it))
           df_monthly_plans in
  df_monthly_plans_updated
    ++ [ {| MonthYear := selected_plan_month;
            ItemType := "Income";
            ItemName := "Expected Salary";
            Amount := new_planned_income;
            Category := "";
            IsPaid := false;
            DatePaid := None |} ].

(** The rows a ticked editor row selects already start with a paid one. *)
Definition settled (today : datetime) (rows : list ActionableRow)
           (plans : list MonthlyPlanItem) : Prop :=
  forall row : ActionableRow,
    In row rows -> act_IsPaid row = true ->
    exists first rest,
      filter (mask today (act_ItemName row)
                   (canonical_category (Some (act_Category row)))
                   (act_Amount row)) plans = first :: rest
      /\ IsPaid first = true.

(** Two plan rows that agree on what the payment handler looks at: month,
    type, name, category, amount and paid flag.  A row read back from the
    sheet agrees in this way with the row that was written. *)
Definition reloaded (a b : MonthlyPlanItem) : Prop :=
  year (MonthYear b) = year (MonthYear a) /\
  month (MonthYear b) = month (MonthYear a) /\
  ItemType b = ItemType a /\ ItemName b = ItemName a /\
  Category b = Category a /\ Amount b == Amount a /\ IsPaid b = IsPaid a.

End PlanIncome.

(** ** Bulk saves of the fixed expenses and of the main entries *)

Module BulkSaves.
Import Calendar Sheets Aggregation Views.
Local Open Scope Q_scope.

(** A row of the fixed-expenses editor. *)
Record FixedRow : Type := mk_fixed_row {
  fr_Name : option string;
  fr_Amount : option Q
}.

Definition save_fixed_row (ws : worksheet) (row : FixedRow) : worksheet :=
  match fr_Name row, fr_Amount row with
  | Some name, Some amount =>
      if Qgt_bool amount 0 then append_row ws [CStr name; CNum amount]
      else ws
  | _, _ => ws
  end.

(** "Save Fixed Expenses", every remote call succeeding. *)
Definition save_fixed_expenses (fixed_expenses_sheet : worksheet)
           (edited_fixed_df : list FixedRow) : worksheet * list message :=
  (fold_left save_fixed_row edited_fixed_df
             (append_row (clear fixed_expenses_sheet)
                         (header STANDARD_COLS_FIXED)),
   [st_success "Fixed expenses updated successfully"]).






End BulkSaves.

(** ** The month the plan tab opens on *)

Module NextMonth.
Import Calendar.

(** [dt.replace(day=d)] *)
Definition replace_day (dt : datetime) (d : Z) : datetime :=
  mk_datetime (year dt) (month dt) d
              (hour dt) (minute dt) (second dt) (microsecond dt).

(** [dt + timedelta(days=1)]: the same time on the next calendar day. *)
Definition next_day (dt : datetime) : datetime :=
  if (day dt <? days_in_month (year dt) (month dt))%Z
  then replace_day dt (day dt + 1)
  else if (month dt <? 12)%Z
  then mk_datetime (year dt) (month dt + 1) 1
                   (hour dt) (minute dt) (second dt) (microsecond dt)
  else mk_datetime (year dt + 1) 1 1
                   (hour dt) (minute dt) (second dt) (microsecond dt).

(** [dt + timedelta(days=n)] *)
Fixpoint add_days (n : nat) (dt : datetime) : datetime :=
  match n with
  | O => dt
  | S k => add_days k (next_day dt)
  end.

Definition next_month_date_obj (today : datetime) : datetime :=
  replace_day (add_days 32 (replace_day today 1)) 1.

End NextMonth.

(** * Properties *)

Import Calendar Sheets Aggregation Goals Plan Forms.
Local Open Scope Q_scope.

(** ** Arithmetic helpers *)

Lemma Qlt_bool_iff (x y : Q) : Qlt_bool x y = true <-> x < y.
Proof.
  unfold Qlt_bool. rewrite negb_true_iff. split.
  - intros H. apply Qnot_le_lt. intros Hle.
    apply Qle_bool_iff in Hle. congruence.
  - intros H. destruct (Qle_bool y x) eqn:E; [|reflexivity].
    apply Qle_bool_iff in E. exfalso. exact (Qlt_not_le _ _ H E).
Qed.

Lemma Qlt_bool_false_iff (x y : Q) : Qlt_bool x y = false <-> y <= x.
Proof.
  unfold Qlt_bool. rewrite negb_false_iff. apply Qle_bool_iff.
Qed.

Lemma Qgt_bool_iff (x y : Q) : Qgt_bool x y = true <-> y < x.
Proof. unfold Qgt_bool. apply Qlt_bool_iff. Qed.

Lemma Qgt_bool_false_iff (x y : Q) : Qgt_bool x y = false <-> x <= y.
Proof. unfold Qgt_bool. apply Qlt_bool_false_iff. Qed.

Lemma days_of_date_difference (a b : datetime) :
  days (sub (date a) (date b)) = (toordinal a - toordinal b)%Z.
Proof.
  unfold days, sub, date, toordinal, time_us, mk_date; simpl.
  rewrite Z.add_0_r. apply Z.div_mul. unfold us_per_day. lia.
Qed.

Example ordinal_of_2024_03_01 : toordinal (mk_date 2024 3 1) = 738946%Z.
Proof. reflexivity. Qed.

Example isoformat_2024_03_01 :
  isoformat (mk_date 2024 3 1) = "2024-03-01".
Proof. reflexivity. Qed.

(** ** Aggregation *)

Lemma fold_left_Qplus (col : list Q) (acc : Q) :
  fold_left Qplus col acc == acc + fold_left Qplus col 0.
Proof.
  revert acc. induction col as [|x col IH]; intros acc; simpl.
  - ring.
  - rewrite IH. rewrite (IH (0 + x)). ring.
Qed.

Lemma column_sum_cons (x : Q) (col : list Q) :
  column_sum (x :: col) == x + column_sum col.
Proof.
  unfold column_sum. simpl. rewrite fold_left_Qplus. ring.
Qed.

Lemma column_sum_of_kind (kind : string) (ledger : list Transaction) :
  column_sum (map tx_Amount
    (filter (fun r => String.eqb (tx_Type r) kind) ledger))
  == sum_of_kind kind ledger.
Proof.
  induction ledger as [|r rest IH]; simpl.
  - reflexivity.
  - destruct (String.eqb (tx_Type r) kind); simpl.
    + rewrite column_sum_cons, IH. reflexivity.
    + rewrite IH. ring.
Qed.

Lemma column_sum_fixed (fixed : list FixedExpense) :
  column_sum (map fx_Amount fixed) == sum_fixed fixed.
Proof.
  induction fixed as [|f rest IH]; simpl.
  - reflexivity.
  - rewrite column_sum_cons, IH. reflexivity.
Qed.

Lemma insert_by_date_not_nil (r : Transaction) (l : list Transaction) :
  insert_by_date r l <> [].
Proof.
  destruct l as [|x l]; simpl; [discriminate|].
  destruct (date_leb (tx_Date r) (tx_Date x)); discriminate.
Qed.

Lemma df_combined_nil (today : datetime) (df : list Transaction)
      (fixed : list FixedExpense) :
  df_combined today df fixed = [] -> df = [] /\ fixed = [].
Proof.
  unfold df_combined, sort_by_date. intros H.
  destruct df as [|r df]; simpl in H.
  - destruct fixed as [|f fixed]; [auto|]. simpl in H.
    exfalso. exact (insert_by_date_not_nil _ _ H).
  - exfalso. exact (insert_by_date_not_nil _ _ H).
Qed.

Lemma safeguard_positive (d : Z) : (0 < safeguard d)%Z.
Proof. unfold safeguard. destruct (Z.leb_spec d 0); lia. Qed.

Example scenario_rent_and_phone :
  let ledger := [mk_transaction None "Income" "Income" 50000 "";
                 mk_transaction None "Expense" "Food" 20000 ""] in
  let fixed := [mk_fixed "Rent" 8000; mk_fixed "Phone" 500] in
  let m := calculate_dashboard_metrics (mk_date 2024 3 10) ledger fixed in
  balance m == 30000 /\ remaining_after_fixed m == 21500.
Proof. vm_compute. split; reflexivity. Qed.

(** C1. For every ledger and every fixed-expense list the aggregation
    returns income = the sum of the amounts of the Income entries,
    expense = the sum of the amounts of the Expense entries,
    balance = income - expense and remainingAfterFixed = balance minus the
    sum of all fixed-expense amounts.  When the ledger built from the user
    transactions and the materialized fixed expenses is empty, every
    output is zero (the function is total, so no error arises). *)
Theorem dashboard_totals (today : datetime) (ledger : list Transaction)
        (fixed : list FixedExpense) :
  let m := calculate_dashboard_metrics today ledger fixed in
  income m == sum_of_kind "Income" ledger /\
  expense m == sum_of_kind "Expense" ledger /\
  balance m == income m - expense m /\
  total_fixed_expenses m == sum_fixed fixed /\
  remaining_after_fixed m == balance m - sum_fixed fixed /\
  (forall df : list Transaction,
      ledger = df_combined today df fixed -> ledger = [] ->
      income m == 0 /\ expense m == 0 /\ balance m == 0 /\
      suggested_daily m == 0 /\ total_fixed_expenses m == 0 /\
      remaining_after_fixed m == 0).
Proof.
  cbv zeta.
  assert (Hfixed : match fixed with
                   | [] => 0
                   | _ => column_sum (map fx_Amount fixed)
                   end == sum_fixed fixed).
  { destruct fixed as [|f rest]; [reflexivity|]. apply column_sum_fixed. }
  repeat split.
  - unfold calculate_dashboard_metrics.
    destruct ledger as [|r rest]; [reflexivity|]. cbn [income].
    apply column_sum_of_kind.
  - unfold calculate_dashboard_metrics.
    destruct ledger as [|r rest]; [reflexivity|]. cbn [expense].
    apply column_sum_of_kind.
  - unfold calculate_dashboard_metrics.
    destruct ledger as [|r rest]; cbn [income expense balance]; [ring|reflexivity].
  - unfold calculate_dashboard_metrics.
    destruct ledger as [|r rest]; cbn [total_fixed_expenses]; exact Hfixed.
  - unfold calculate_dashboard_metrics.
    destruct ledger as [|r rest]; cbn [remaining_after_fixed balance];
      rewrite Hfixed; reflexivity.
  - subst ledger. destruct (df_combined_nil _ _ _ H0) as [_ ->].
    rewrite H0. reflexivity.
  - subst ledger. destruct (df_combined_nil _ _ _ H0) as [_ ->].
    rewrite H0. reflexivity.
  - subst ledger. destruct (df_combined_nil _ _ _ H0) as [_ ->].
    rewrite H0. reflexivity.
  - subst ledger. destruct (df_combined_nil _ _ _ H0) as [_ ->].
    rewrite H0. unfold calculate_dashboard_metrics. cbn [suggested_daily].
    destruct (Qlt_bool (0 / inject_Z (safeguard (days_until_25th today))) 0);
      [reflexivity|].
    unfold Qdiv. ring.
  - subst ledger. destruct (df_combined_nil _ _ _ H0) as [_ ->].
    rewrite H0. reflexivity.
  - subst ledger. destruct (df_combined_nil _ _ _ H0) as [_ ->].
    rewrite H0. reflexivity.
Qed.

Lemma dashboard_totals_witness :
  let m := calculate_dashboard_metrics (mk_date 2024 3 10) [] [] in
  df_combined (mk_date 2024 3 10) [] [] = [] /\
  income m == 0 /\ expense m == 0 /\ balance m == 0 /\
  suggested_daily m == 0 /\ total_fixed_expenses m == 0 /\
  remaining_after_fixed m == 0.
Proof.
  split; [reflexivity|].
  apply (dashboard_totals (mk_date 2024 3 10) [] []) with (df := []);
    reflexivity.
Defined.

(** ** The payday anchor and the suggested daily spend *)

Example anchor_on_the_26th :
  target_date_for_daily_spend (mk_datetime 2024 12 26 9 30 0 0)
  = mk_date 2025 1 25.
Proof. reflexivity. Qed.

Example anchor_on_the_10th :
  target_date_for_daily_spend (mk_datetime 2024 3 10 9 30 0 0)
  = mk_date 2024 3 25.
Proof. reflexivity. Qed.

Example days_on_the_25th_afternoon :
  days_until_25th (mk_datetime 2024 3 25 14 0 0 0) = (-1)%Z /\
  safeguard (days_until_25th (mk_datetime 2024 3 25 14 0 0 0)) = 1%Z.
Proof. split; reflexivity. Qed.

(** The value of [suggested_daily] in terms of the anchor. *)
Lemma suggested_daily_unfold (today : datetime) (ledger : list Transaction)
      (fixed : list FixedExpense) :
  let m := calculate_dashboard_metrics today ledger fixed in
  let q := balance m /
           inject_Z (safeguard
             (days (sub (target_date_for_daily_spend today) today))) in
  suggested_daily m = if Qlt_bool q 0 then 0 else q.
Proof.
  cbv zeta. unfold calculate_dashboard_metrics, days_until_25th.
  destruct ledger as [|r rest]; reflexivity.
Qed.

(** C2. The anchor of the suggested daily spend is day 25 of the next
    month when today's day of month is greater than 25 (January of the
    next year when today is in December), and day 25 of the current month
    otherwise, the 25th itself included; the suggested daily spend divides
    the balance by the days up to that anchor. *)
Theorem payday_anchor (today : datetime) :
  let target := target_date_for_daily_spend today in
  ((25 < day today)%Z -> month today = 12%Z ->
   target = mk_date (year today + 1) 1 25) /\
  ((25 < day today)%Z -> month today <> 12%Z ->
   target = mk_date (year today) (month today + 1) 25) /\
  ((day today <= 25)%Z -> target = mk_date (year today) (month today) 25) /\
  (day today = 25%Z -> target = mk_date (year today) (month today) 25) /\
  (forall (ledger : list Transaction) (fixed : list FixedExpense),
      let m := calculate_dashboard_metrics today ledger fixed in
      let q := balance m / inject_Z (safeguard (days (sub target today))) in
      suggested_daily m = if Qlt_bool q 0 then 0 else q).
Proof.
  cbv zeta. unfold target_date_for_daily_spend at 1 2 3 4.
  repeat split.
  - intros Hday Hmonth.
    destruct (Z.ltb_spec 25 (day today)); [|lia].
    rewrite Hmonth. reflexivity.
  - intros Hday Hmonth.
    destruct (Z.ltb_spec 25 (day today)); [|lia].
    destruct (Z.eqb_spec (month today) 12); [contradiction|reflexivity].
  - intros Hday.
    destruct (Z.ltb_spec 25 (day today)); [lia|reflexivity].
  - intros Hday.
    destruct (Z.ltb_spec 25 (day today)); [lia|reflexivity].
  - intros ledger fixed. apply suggested_daily_unfold.
Qed.

Lemma payday_anchor_witness :
  target_date_for_daily_spend (mk_datetime 2024 12 26 9 30 0 0)
  = mk_date 2025 1 25 /\
  target_date_for_daily_spend (mk_datetime 2024 3 26 9 30 0 0)
  = mk_date 2024 4 25 /\
  target_date_for_daily_spend (mk_datetime 2024 3 25 9 30 0 0)
  = mk_date 2024 3 25.
Proof.
  split; [|split].
  - apply (payday_anchor (mk_datetime 2024 12 26 9 30 0 0)); simpl; [lia|reflexivity].
  - apply (payday_anchor (mk_datetime 2024 3 26 9 30 0 0)); simpl; [lia|discriminate].
  - apply (payday_anchor (mk_datetime 2024 3 25 9 30 0 0)). simpl. reflexivity.
Defined.

(** Up to the 25th the day count is the distance in days, less one as
    soon as the clock is past midnight: it is 0 on the 24th during the day
    and -1 on the 25th, and the safeguard does fire. *)
Lemma days_until_25th_same_month (today : datetime) :
  valid today -> (day today <= 25)%Z ->
  days_until_25th today
  = (25 - day today + (if (time_us today =? 0)%Z then 0 else -1))%Z.
Proof.
  intros (_ & _ & Htime) Hday.
  unfold days_until_25th, target_date_for_daily_spend.
  destruct (Z.ltb_spec 25 (day today)); [lia|].
  unfold days, sub.
  assert (Hmidnight :
            time_us (mk_date (year today) (month today) 25) = 0%Z)
    by reflexivity.
  assert (Hord : (toordinal (mk_date (year today) (month today) 25)
                  - toordinal today = 25 - day today)%Z)
    by (unfold toordinal, mk_date; cbn [year month day]; lia).
  rewrite Hmidnight, Hord. unfold us_per_day in *.
  destruct (Z.eqb_spec (time_us today) 0) as [Hz|Hnz].
  - symmetry. apply Z.div_unique with (r := 0%Z); lia.
  - symmetry.
    apply Z.div_unique with (r := (86400000000 - time_us today)%Z); lia.
Qed.

(** C6. A day count up to the anchor that is zero or negative is replaced
    by 1, so the divisor is positive; a negative quotient is replaced by
    0; hence the suggested daily spend is never negative. *)
Theorem suggested_daily_nonnegative (today : datetime)
        (ledger : list Transaction) (fixed : list FixedExpense) :
  let m := calculate_dashboard_metrics today ledger fixed in
  let d := days_until_25th today in
  let q := balance m / inject_Z (safeguard d) in
  ((d <= 0)%Z -> safeguard d = 1%Z) /\
  ((0 < d)%Z -> safeguard d = d) /\
  (0 < safeguard d)%Z /\
  (q < 0 -> suggested_daily m == 0) /\
  (0 <= q -> suggested_daily m == q) /\
  0 <= suggested_daily m.
Proof.
  cbv zeta.
  pose proof (suggested_daily_unfold today ledger fixed) as Hs.
  cbv zeta in Hs. fold (days_until_25th today) in Hs.
  set (m := calculate_dashboard_metrics today ledger fixed) in *.
  set (q := balance m / inject_Z (safeguard (days_until_25th today))) in *.
  split; [|split; [|split; [|split; [|split]]]].
  - intros Hd. unfold safeguard. destruct (Z.leb_spec (days_until_25th today) 0); lia.
  - intros Hd. unfold safeguard. destruct (Z.leb_spec (days_until_25th today) 0); lia.
  - apply safeguard_positive.
  - intros Hq. rewrite Hs. apply Qlt_bool_iff in Hq. rewrite Hq. reflexivity.
  - intros Hq. rewrite Hs. apply Qlt_bool_false_iff in Hq. rewrite Hq. reflexivity.
  - rewrite Hs. destruct (Qlt_bool q 0) eqn:E.
    + apply Qle_refl.
    + apply Qlt_bool_false_iff. exact E.
Qed.

Lemma suggested_daily_nonnegative_witness :
  let today := mk_datetime 2024 3 25 14 0 0 0 in
  let ledger := [mk_transaction None "Expense" "Food" 300 ""] in
  (days_until_25th today <= 0)%Z /\
  safeguard (days_until_25th today) = 1%Z /\
  suggested_daily (calculate_dashboard_metrics today ledger []) == 0.
Proof.
  cbv zeta.
  pose proof (suggested_daily_nonnegative (mk_datetime 2024 3 25 14 0 0 0)
                [mk_transaction None "Expense" "Food" 300 ""] []) as H.
  cbv zeta in H. destruct H as (H1 & _ & _ & H4 & _).
  split; [vm_compute; discriminate|].
  split; [apply H1; vm_compute; discriminate|].
  apply H4. vm_compute. reflexivity.
Defined.

(** ** Saving goals *)

Lemma inject_Z_positive (d : Z) : (0 < d)%Z -> 0 < inject_Z d.
Proof. intros H. unfold Qlt. simpl. lia. Qed.

Lemma quotient_positive (d : Z) (c : Q) :
  (0 < d)%Z -> 0 < c -> Qgt_bool (inject_Z d / c) 0 = true.
Proof.
  intros Hd Hc. apply Qgt_bool_iff. apply Qlt_shift_div_l; [exact Hc|].
  rewrite Qmult_0_l. apply inject_Z_positive. exact Hd.
Qed.

Lemma month_length_positive : 0 < month_length.
Proof. reflexivity. Qed.

Lemma edited_amount_zero_when_met (today target : datetime)
      (goal_amount current_saved : Q) (freq : string) :
  goal_amount <= current_saved ->
  edited_saving_amount_per_freq today target goal_amount current_saved freq = 0.
Proof.
  intros H. unfold edited_saving_amount_per_freq.
  apply Qgt_bool_false_iff in H. rewrite H, andb_false_r. reflexivity.
Qed.

Lemma edited_amount_zero_when_due (today target : datetime)
      (goal_amount current_saved : Q) (freq : string) :
  (toordinal target <= toordinal today)%Z ->
  edited_saving_amount_per_freq today target goal_amount current_saved freq = 0.
Proof.
  intros H. unfold edited_saving_amount_per_freq, days_to_target.
  rewrite days_of_date_difference.
  destruct (Z.ltb_spec 0 (toordinal target - toordinal today)); [lia|].
  reflexivity.
Qed.

Lemma edited_amount_open (today target : datetime)
      (goal_amount current_saved : Q) :
  current_saved < goal_amount ->
  (toordinal today < toordinal target)%Z ->
  let d := inject_Z (toordinal target - toordinal today) in
  let remaining := goal_amount - current_saved in
  edited_saving_amount_per_freq today target goal_amount current_saved "Daily"
  = remaining / d /\
  edited_saving_amount_per_freq today target goal_amount current_saved "Weekly"
  = remaining / (d / 7) /\
  edited_saving_amount_per_freq today target goal_amount current_saved "Monthly"
  = remaining / (d / month_length).
Proof.
  intros Hsaved Hdays. cbv zeta.
  unfold edited_saving_amount_per_freq, days_to_target.
  rewrite days_of_date_difference.
  assert (Hd : (0 < toordinal target - toordinal today)%Z) by lia.
  destruct (Z.ltb_spec 0 (toordinal target - toordinal today)); [|lia].
  apply Qgt_bool_iff in Hsaved. rewrite Hsaved. cbn [andb].
  repeat split.
  - cbn [String.eqb Ascii.eqb Bool.eqb].
    rewrite (quotient_positive _ 7 Hd); reflexivity.
  - cbn [String.eqb Ascii.eqb Bool.eqb].
    rewrite (quotient_positive _ month_length Hd month_length_positive).
    reflexivity.
Qed.

(** The add form computes what the edit handler computes for a goal with
    nothing saved. *)
Lemma add_form_amount_as_edited (today target : datetime) (goal_amount : Q)
      (freq : string) :
  saving_amount_per_freq today (Some target) goal_amount freq
  == edited_saving_amount_per_freq today target goal_amount 0 freq.
Proof.
  unfold saving_amount_per_freq, edited_saving_amount_per_freq.
  destruct (Z.ltb_spec 0 (days_to_target today target)) as [Hd|Hd];
    [|reflexivity].
  destruct (Qgt_bool goal_amount 0); cbn [andb]; [|reflexivity].
  destruct (String.eqb freq "Daily"); [unfold Qminus, Qdiv; ring|].
  destruct (String.eqb freq "Weekly").
  { destruct (Qgt_bool (inject_Z (days_to_target today target) / 7) 0);
      unfold Qminus, Qdiv; ring. }
  destruct (String.eqb freq "Monthly"); [|reflexivity].
  rewrite (quotient_positive _ month_length Hd month_length_positive).
  unfold Qminus, Qdiv; ring.
Qed.

Example weekly_scenario :
  edited_saving_amount_per_freq (mk_datetime 2024 1 1 8 0 0 0)
    (mk_date 2024 4 10) 10000 2500 "Weekly" == 525.
Proof. vm_compute. reflexivity. Qed.

(** C5. The required amount per period is 0 whenever the goal is met
    (currentSaved >= targetAmount) or the target date is today or earlier.
    Otherwise, with remaining = targetAmount - currentSaved and
    daysRemaining the whole days from today to the target date, it is
    remaining / daysRemaining for Daily, remaining / (daysRemaining / 7)
    for Weekly and remaining / (daysRemaining / 30.44) for Monthly; a goal
    of 10000 with 2500 saved and 100 days left needs 525 per week.  The
    add form computes the same amount with nothing saved. *)
Theorem required_per_frequency (today target : datetime)
        (goal_amount current_saved : Q) (freq : string) :
  let required :=
    edited_saving_amount_per_freq today target goal_amount current_saved in
  let remaining := goal_amount - current_saved in
  let days_remaining := inject_Z (toordinal target - toordinal today) in
  (goal_amount <= current_saved \/ (toordinal target <= toordinal today)%Z ->
   required freq == 0) /\
  (current_saved < goal_amount -> (toordinal today < toordinal target)%Z ->
   required "Daily" == remaining / days_remaining /\
   required "Weekly" == remaining / (days_remaining / 7) /\
   required "Monthly" == remaining / (days_remaining / (3044 # 100))) /\
  ((toordinal target - toordinal today = 100)%Z ->
   edited_saving_amount_per_freq today target 10000 2500 "Weekly" == 525) /\
  saving_amount_per_freq today (Some target) goal_amount freq
  == edited_saving_amount_per_freq today target goal_amount 0 freq.
Proof.
  cbv zeta. split; [|split; [|split]].
  - intros [Hmet|Hdue].
    + rewrite edited_amount_zero_when_met by exact Hmet. reflexivity.
    + rewrite edited_amount_zero_when_due by exact Hdue. reflexivity.
  - intros Hsaved Hdays.
    destruct (edited_amount_open today target goal_amount current_saved
                Hsaved Hdays) as (Hd & Hw & Hm).
    rewrite Hd, Hw, Hm. repeat split; reflexivity.
  - intros H100.
    assert (Hsaved : 2500 < 10000) by reflexivity.
    assert (Hdays : (toordinal today < toordinal target)%Z) by lia.
    destruct (edited_amount_open today target 10000 2500 Hsaved Hdays)
      as (_ & Hw & _).
    rewrite Hw, H100. reflexivity.
  - apply add_form_amount_as_edited.
Qed.

Lemma required_per_frequency_witness :
  let today := mk_datetime 2024 1 1 8 0 0 0 in
  let target := mk_date 2024 4 10 in
  (toordinal target - toordinal today = 100)%Z /\
  edited_saving_amount_per_freq today target 10000 2500 "Weekly" == 525 /\
  edited_saving_amount_per_freq today target 2500 2500 "Weekly" == 0 /\
  edited_saving_amount_per_freq today target 10000 2500 "Daily" == 75.
Proof.
  cbv zeta. split; [reflexivity|]. split; [|split].
  - destruct (required_per_frequency (mk_datetime 2024 1 1 8 0 0 0)
                (mk_date 2024 4 10) 10000 2500 "Weekly") as (_ & _ & H & _).
    apply H. reflexivity.
  - destruct (required_per_frequency (mk_datetime 2024 1 1 8 0 0 0)
                (mk_date 2024 4 10) 2500 2500 "Weekly") as (H & _).
    apply H. left. apply Qle_refl.
  - destruct (required_per_frequency (mk_datetime 2024 1 1 8 0 0 0)
                (mk_date 2024 4 10) 10000 2500 "Daily") as (_ & H & _).
    destruct H as (Hd & _); [reflexivity|vm_compute; reflexivity|].
    rewrite Hd. vm_compute. reflexivity.
Defined.

(** *** Progress *)

Lemma py_max_is_max (a b : Q) : py_max a b == Qmax a b.
Proof.
  unfold py_max. destruct (Qgt_bool b a) eqn:E.
  - apply Qgt_bool_iff in E. symmetry. apply Q.max_r. apply Qlt_le_weak, E.
  - apply Qgt_bool_false_iff in E. symmetry. apply Q.max_l. exact E.
Qed.

Lemma py_min_is_min (a b : Q) : py_min a b == Qmin a b.
Proof.
  unfold py_min. destruct (Qlt_bool b a) eqn:E.
  - apply Qlt_bool_iff in E. symmetry. apply Q.min_r. apply Qlt_le_weak, E.
  - apply Qlt_bool_false_iff in E. symmetry. apply Q.min_l. exact E.
Qed.

Lemma py_clamp_is_clamp (x : Q) : py_min 100 (py_max 0 x) == clamp x 0 100.
Proof.
  unfold clamp. rewrite py_min_is_min.
  apply Q.min_compat; [reflexivity|apply py_max_is_max].
Qed.

Lemma clamp_in_range (x : Q) : 0 <= clamp x 0 100 <= 100.
Proof.
  unfold clamp. split.
  - apply Q.min_glb; [discriminate|apply Q.le_max_l].
  - apply Q.le_min_l.
Qed.

Lemma ratio_nonpositive (saved target : Q) :
  0 <= saved -> target < 0 -> saved / target * 100 <= 0.
Proof.
  destruct saved as [sn sd], target as [tn td].
  unfold Qle, Qlt, Qdiv, Qmult, Qinv; simpl.
  intros Hs Ht. destruct tn as [|p|p]; simpl; lia.
Qed.

Lemma progress_percent_of_positive (saved target : Q) :
  0 < target ->
  progress_percent_of saved target == clamp (saved / target * 100) 0 100.
Proof.
  intros Ht. unfold progress_percent_of.
  apply Qgt_bool_iff in Ht. rewrite Ht. apply py_clamp_is_clamp.
Qed.

Lemma progress_percent_of_nonpositive (saved target : Q) :
  target <= 0 -> progress_percent_of saved target == 0.
Proof.
  intros Ht. unfold progress_percent_of.
  apply Qgt_bool_false_iff in Ht. rewrite Ht. reflexivity.
Qed.

Example progress_scenarios :
  progress_percent_of 2500 10000 == 25 /\
  progress_percent_of 12000 10000 == 100 /\
  progress_percent_of 300 0 == 0.
Proof. repeat split. Qed.

(** C7. The progress shown for a goal is clamp(currentSaved /
    targetAmount * 100, 0, 100) and so lies between 0 and 100; a goal
    whose targetAmount is 0 shows 0 and no division takes place.  The
    equation is stated for a positive target, and for any non-zero target
    under the data model's invariant 0 <= currentSaved. *)
Theorem progress_percent_clamped (goal : SavingGoal) :
  let saved := or_zero (CurrentSaved goal) in
  let target := or_zero (GoalAmount goal) in
  let p := progress_percent goal in
  0 <= p <= 100 /\
  (target == 0 -> p == 0) /\
  (0 < target -> p == clamp (saved / target * 100) 0 100) /\
  (0 <= saved -> ~ target == 0 -> p == clamp (saved / target * 100) 0 100).
Proof.
  cbv zeta. unfold progress_percent.
  set (saved := or_zero (CurrentSaved goal)).
  set (target := or_zero (GoalAmount goal)).
  split; [|split; [|split]].
  - destruct (Qlt_le_dec 0 target) as [Hpos|Hneg].
    + rewrite (progress_percent_of_positive _ _ Hpos). apply clamp_in_range.
    + rewrite (progress_percent_of_nonpositive _ _ Hneg).
      split; discriminate.
  - intros Hzero. apply progress_percent_of_nonpositive.
    rewrite Hzero. apply Qle_refl.
  - apply progress_percent_of_positive.
  - intros Hsaved Hnonzero.
    destruct (Qlt_le_dec 0 target) as [Hpos|Hneg].
    + apply progress_percent_of_positive. exact Hpos.
    + rewrite (progress_percent_of_nonpositive _ _ Hneg).
      assert (Hlt : target < 0).
      { apply Qle_lteq in Hneg. destruct Hneg as [H|H]; [exact H|].
        contradiction. }
      unfold clamp.
      rewrite (Q.max_l 0 (saved / target * 100))
        by (apply ratio_nonpositive; assumption).
      symmetry. apply Q.min_r. discriminate.
Qed.

Lemma progress_percent_clamped_witness :
  let goal := mk_goal (Some "Trip") (Some 10000) "x" (Some 2500)
                      (Some (mk_date 2025 1 1)) "Weekly" (Some 0) in
  progress_percent goal == clamp (2500 / 10000 * 100) 0 100 /\
  progress_percent (mk_goal (Some "Empty") (Some 0) "x" (Some 300)
                            None "Daily" None) == 0.
Proof.
  cbv zeta. split.
  - destruct (progress_percent_clamped
                (mk_goal (Some "Trip") (Some 10000) "x" (Some 2500)
                         (Some (mk_date 2025 1 1)) "Weekly" (Some 0)))
      as (_ & _ & H & _).
    apply H. reflexivity.
  - destruct (progress_percent_clamped
                (mk_goal (Some "Empty") (Some 0) "x" (Some 300)
                         None "Daily" None))
      as (_ & H & _).
    apply H. reflexivity.
Defined.

(** *** Saving the edited goals *)



Lemma save_goal_row_raises (today : datetime) (ws : worksheet)
      (row : SavingGoal) :
  has_required_fields row = true -> CurrentSaved row = None ->
  save_goal_row today ws row = None.
Proof.
  unfold has_required_fields, save_goal_row, try_append_row.
  destruct (GoalName row), (GoalAmount row), (TargetDate row);
    try discriminate.
  intros _ ->. reflexivity.
Qed.


Example save_goal_edits_drops_nameless_row :
  let today := mk_date 2024 1 1 in
  let kept := mk_goal (Some "Trip") (Some 10000) "x" (Some 2500)
                      (Some (mk_date 2024 4 10)) "Daily" (Some 0) in
  let nameless := mk_goal None (Some 500) "x" None
                          (Some (mk_date 2024 4 10)) "Daily" None in
  fst (save_goal_edits today [[CStr "stale"]] [nameless; kept])
  = [header STANDARD_COLS_SAVING_GOALS;
     [CStr "Trip"; CNum 10000; CStr "x"; CNum 2500; CStr "2024-04-10";
      CStr "Daily";
      CNum (edited_saving_amount_per_freq today (mk_date 2024 4 10)
              10000 2500 "Daily")]].
Proof. reflexivity. Qed.

(** C10. The table after the save does not always hold exactly the edited
    rows with GoalName, GoalAmount and TargetDate present.  A row added in
    the editor has all three but an empty CurrentSaved (the column is
    disabled): its append raises after the sheet was cleared.  With the
    added row first the sheet is left with the header alone and the
    complete row "Trip" that follows is lost; with the added row last the
    row "Trip" is written and the added one is missing.  Both times an
    error is shown in place of the success notice. *)
Theorem save_goal_edits_stops_at_added_row :
  let today := mk_date 2024 1 1 in
  let trip := mk_goal (Some "Trip") (Some 10000) "x" (Some 2500)
                      (Some (mk_date 2024 4 10)) "Daily" (Some 75) in
  let added := mk_goal (Some "Bike") (Some 6000) "x" None
                       (Some (mk_date 2024 6 1)) "Weekly" None in
  let stored := [header STANDARD_COLS_SAVING_GOALS;
                 goal_values (mk_date 2023 12 1) trip] in
  has_required_fields trip = true /\
  has_required_fields added = true /\
  fst (save_goal_edits today stored [added; trip])
  = [header STANDARD_COLS_SAVING_GOALS] /\
  fst (save_goal_edits today stored [trip; added])
  = [header STANDARD_COLS_SAVING_GOALS; goal_values today trip] /\
  (forall edited : list SavingGoal,
      edited = [added; trip] \/ edited = [trip; added] ->
      fst (save_goal_edits today stored edited)
      <> header STANDARD_COLS_SAVING_GOALS
         :: map (goal_values today) (filter has_required_fields edited) /\
      existsb is_error (snd (save_goal_edits today stored edited)) = true /\
      existsb is_success (snd (save_goal_edits today stored edited)) = false).
Proof.
  cbv zeta. repeat split; try reflexivity;
    destruct H as [-> | ->]; try reflexivity; discriminate.
Qed.



(** ** Monthly plan: projecting the fixed expenses *)

Lemma flat_map_nil {A B : Type} (f : A -> list B) (l : list A) :
  (forall x, In x l -> f x = []) -> flat_map f l = [].
Proof.
  induction l as [|x l IH]; intros H; simpl; [reflexivity|].
  rewrite (H x (or_introl eq_refl)). apply IH.
  intros y Hy. apply H. right. exact Hy.
Qed.

Lemma matches_fixed_projected (sel : datetime) (row : FixedExpense) :
  matches_fixed (fx_Name row)
    (mk_plan_item sel "Expense" (fx_Name row) (fx_Amount row)
                  "Fixed Expense" false None) = true.
Proof.
  unfold matches_fixed. cbn [ItemName Category].
  rewrite String.eqb_refl. reflexivity.
Qed.

(** Every fixed expense is matched once the projection has been added. *)
Lemma fixed_matched_after_projection (sel : datetime)
      (fixed : list FixedExpense) (existing : list MonthlyPlanItem)
      (row : FixedExpense) :
  In row fixed ->
  existsb (matches_fixed (fx_Name row))
          (initial_planned_expenses sel fixed existing) = true.
Proof.
  intros Hin. unfold initial_planned_expenses. rewrite existsb_app.
  destruct (existsb (matches_fixed (fx_Name row)) existing) eqn:E;
    [reflexivity|].
  cbn [orb]. apply existsb_exists.
  exists (mk_plan_item sel "Expense" (fx_Name row) (fx_Amount row)
                       "Fixed Expense" false None).
  split; [|apply matches_fixed_projected].
  unfold fixed_expenses_to_add. apply in_flat_map.
  exists row. split; [exact Hin|]. rewrite E. left. reflexivity.
Qed.

Lemma projected_item_shape (sel : datetime) (fixed : list FixedExpense)
      (existing : list MonthlyPlanItem) (it : MonthlyPlanItem) :
  In it (fixed_expenses_to_add sel fixed existing) ->
  exists row : FixedExpense,
    In row fixed /\
    existsb (matches_fixed (fx_Name row)) existing = false /\
    it = mk_plan_item sel "Expense" (fx_Name row) (fx_Amount row)
                      "Fixed Expense" false None.
Proof.
  unfold fixed_expenses_to_add. intros Hin.
  apply in_flat_map in Hin. destruct Hin as (row & Hrow & Hit).
  exists row. split; [exact Hrow|].
  destruct (existsb (matches_fixed (fx_Name row)) existing);
    [contradiction|].
  split; [reflexivity|].
  destruct Hit as [Hit|[]]. symmetry. exact Hit.
Qed.

Lemma filter_nil_of_existsb_false {A : Type} (f : A -> bool) (l : list A) :
  existsb f l = false -> filter f l = [].
Proof.
  induction l as [|x l IH]; simpl; [reflexivity|].
  destruct (f x); [discriminate|]. exact IH.
Qed.

Lemma projected_count (sel : datetime) (existing : list MonthlyPlanItem)
      (name : string) (fixed : list FixedExpense) :
  NoDup (map fx_Name fixed) ->
  existsb (matches_fixed name) existing = false ->
  List.length (filter (matches_fixed name)
                      (fixed_expenses_to_add sel fixed existing))
  = if existsb (fun row => String.eqb (fx_Name row) name) fixed
    then 1%nat else 0%nat.
Proof.
  intros Hnodup Hfree. induction fixed as [|row rest IH]; [reflexivity|].
  inversion Hnodup as [|? ? Hnotin Hrest]; subst.
  unfold fixed_expenses_to_add in *. cbn [flat_map existsb].
  rewrite filter_app, length_app, (IH Hrest).
  destruct (String.eqb_spec (fx_Name row) name) as [Heq|Hne].
  - subst name. rewrite Hfree. cbn [filter].
    rewrite matches_fixed_projected. cbn [orb List.length].
    assert (Hrestfree :
              existsb (fun r => String.eqb (fx_Name r) (fx_Name row)) rest
              = false).
    { destruct (existsb (fun r => String.eqb (fx_Name r) (fx_Name row)) rest)
        eqn:E; [|reflexivity].
      apply existsb_exists in E. destruct E as (r & Hr & Hname).
      apply String.eqb_eq in Hname. exfalso. apply Hnotin.
      rewrite <- Hname. apply in_map. exact Hr. }
    rewrite Hrestfree. reflexivity.
  - cbn [orb].
    destruct (existsb (matches_fixed (fx_Name row)) existing);
      cbn [filter List.length]; [reflexivity|].
    unfold matches_fixed at 1. cbn [ItemName Category].
    apply String.eqb_neq in Hne. rewrite Hne. reflexivity.
Qed.

Example projection_twice :
  let sel := mk_date 2024 4 1 in
  let fixed := [mk_fixed "Rent" 8000; mk_fixed "Phone" 500] in
  let existing := [mk_plan_item sel "Expense" "Rent" 8000 "Fixed Expense"
                                true (Some (mk_date 2024 4 25))] in
  initial_planned_expenses sel fixed existing
  = existing ++ [mk_plan_item sel "Expense" "Phone" 500 "Fixed Expense"
                              false None] /\
  initial_planned_expenses sel fixed
    (initial_planned_expenses sel fixed existing)
  = initial_planned_expenses sel fixed existing.
Proof. split; reflexivity. Qed.

(** C4. Projecting the fixed expenses into a month is idempotent.  A row
    is synthesised for a fixed expense only when no existing planned
    expense has its name with category "Fixed Expense", and it is an
    unpaid Expense without a payment date; on the merged rows a second
    projection of the same fixed-expense list adds nothing, so the item
    set is unchanged and a fixed expense that had no row has exactly one
    "Fixed Expense" row of its name (names of the list being distinct). *)
Theorem fixed_projection_idempotent (sel : datetime)
        (fixed : list FixedExpense) (existing : list MonthlyPlanItem) :
  let merged := initial_planned_expenses sel fixed existing in
  fixed_expenses_to_add sel fixed merged = [] /\
  initial_planned_expenses sel fixed merged = merged /\
  (forall it : MonthlyPlanItem,
      In it (fixed_expenses_to_add sel fixed existing) ->
      exists row : FixedExpense,
        In row fixed /\
        existsb (matches_fixed (fx_Name row)) existing = false /\
        it = mk_plan_item sel "Expense" (fx_Name row) (fx_Amount row)
                          "Fixed Expense" false None) /\
  (forall row : FixedExpense,
      In row fixed ->
      NoDup (map fx_Name fixed) ->
      existsb (matches_fixed (fx_Name row)) existing = false ->
      List.length (filter (matches_fixed (fx_Name row)) merged) = 1%nat).
Proof.
  cbv zeta.
  assert (Hnone : fixed_expenses_to_add sel fixed
                    (initial_planned_expenses sel fixed existing) = []).
  { unfold fixed_expenses_to_add at 1. apply flat_map_nil.
    intros row Hrow.
    rewrite (fixed_matched_after_projection sel fixed existing row Hrow).
    reflexivity. }
  split; [exact Hnone|]. split; [|split].
  - unfold initial_planned_expenses at 1. rewrite Hnone.
    apply app_nil_r.
  - intros it. apply projected_item_shape.
  - intros row Hrow Hnodup Hfree.
    unfold initial_planned_expenses.
    rewrite filter_app, length_app.
    rewrite (filter_nil_of_existsb_false _ _ Hfree).
    rewrite (projected_count sel existing (fx_Name row) fixed Hnodup Hfree).
    assert (Hin : existsb (fun r => String.eqb (fx_Name r) (fx_Name row))
                          fixed = true).
    { apply existsb_exists. exists row.
      split; [exact Hrow|apply String.eqb_refl]. }
    rewrite Hin. reflexivity.
Qed.

Lemma fixed_projection_idempotent_witness :
  let sel := mk_date 2024 4 1 in
  let fixed := [mk_fixed "Rent" 8000; mk_fixed "Phone" 500] in
  List.length
    (filter (matches_fixed "Phone")
            (initial_planned_expenses sel fixed
               (initial_planned_expenses sel fixed []))) = 1%nat.
Proof.
  cbv zeta.
  destruct (fixed_projection_idempotent (mk_date 2024 4 1)
              [mk_fixed "Rent" 8000; mk_fixed "Phone" 500] [])
    as (_ & Hsame & _ & Hone).
  rewrite Hsame.
  apply (Hone (mk_fixed "Phone" 500)).
  - right. left. reflexivity.
  - repeat constructor; simpl; intuition discriminate.
  - reflexivity.
Defined.

(** ** Monthly plan: saving the edited expenses *)

Lemma same_name_category_iff (name category : string) (it : MonthlyPlanItem) :
  same_name_category name category it = true
  <-> ItemName it = name /\ Category it = category.
Proof.
  unfold same_name_category. rewrite andb_true_iff, !String.eqb_eq.
  reflexivity.
Qed.

(** With a single matching row in the snapshot, the status read is that
    row's. *)
Lemma status_of_unique_match (current : list MonthlyPlanItem)
      (name category : string) (it : MonthlyPlanItem) :
  In it current -> ItemName it = name -> Category it = category ->
  (forall it' : MonthlyPlanItem,
      In it' current -> ItemName it' = name -> Category it' = category ->
      it' = it) ->
  status_of (existing_item current name category) = (IsPaid it, DatePaid it).
Proof.
  intros Hin Hname Hcat Huniq. unfold existing_item.
  destruct (filter (same_name_category name category) current)
    as [|first rest] eqn:E.
  - assert (Hit : In it (filter (same_name_category name category) current)).
    { apply filter_In. split; [exact Hin|].
      apply same_name_category_iff. split; assumption. }
    rewrite E in Hit. contradiction.
  - assert (Hfirst : In first
                        (filter (same_name_category name category) current)).
    { rewrite E. left. reflexivity. }
    apply filter_In in Hfirst. destruct Hfirst as (Hf & Hmatch).
    apply same_name_category_iff in Hmatch. destruct Hmatch as (Hn & Hc).
    rewrite (Huniq first Hf Hn Hc). reflexivity.
Qed.

Lemma updated_rows_in_saved (sel : datetime) (df : list MonthlyPlanItem)
      (edited : list EditorRow) (row : EditorRow) (it : MonthlyPlanItem) :
  In row edited ->
  In it (updated_expense_plan_row sel (current_month_plan_df sel df) row) ->
  In it (save_planned_expenses sel df edited).
Proof.
  intros Hrow Hit. unfold save_planned_expenses. apply in_or_app. right.
  unfold updated_expense_plan_rows. apply in_flat_map.
  exists row. split; assumption.
Qed.

(** C3, as the code has it.  An edited row is rebuilt only when it has a
    name and a positive amount.  For such a row the pre-edit isPaid and
    datePaid are looked up by item name and category alone, the amount
    taking no part; when the month's prior snapshot holds exactly one row
    of that name and category, both fields are carried unchanged into the
    row rebuilt for the session's plan table.  An edited row without a
    name, without an amount or with an amount that is not positive
    rebuilds no row: it is dropped, its status with it. *)
Theorem status_carried_by_name_and_category (sel : datetime)
        (df : list MonthlyPlanItem) (edited : list EditorRow)
        (row : EditorRow) :
  In row edited ->
  let snapshot := current_month_plan_df sel df in
  let category := canonical_category (ed_Category row) in
  (forall (name : string) (amount : Q) (it : MonthlyPlanItem),
      ed_ItemName row = Some name -> ed_Amount row = Some amount ->
      0 < amount ->
      In it snapshot -> ItemName it = name -> Category it = category ->
      (forall it' : MonthlyPlanItem,
          In it' snapshot -> ItemName it' = name -> Category it' = category ->
          it' = it) ->
      let rebuilt :=
        mk_plan_item sel "Expense" name amount category
                     (IsPaid it) (DatePaid it) in
      updated_expense_plan_row sel snapshot row = [rebuilt] /\
      In rebuilt (save_planned_expenses sel df edited)) /\
  (ed_ItemName row = None \/ ed_Amount row = None \/
   (exists amount : Q, ed_Amount row = Some amount /\ amount <= 0) ->
   updated_expense_plan_row sel snapshot row = []).
Proof.
  intros Hrow. cbv zeta. split.
  - intros name amount it Hname Hamount Hpos Hin Hn Hc Huniq.
    assert (Hrebuilt :
      updated_expense_plan_row sel (current_month_plan_df sel df) row
      = [mk_plan_item sel "Expense" name amount
                      (canonical_category (ed_Category row))
                      (IsPaid it) (DatePaid it)]).
    { unfold updated_expense_plan_row. rewrite Hname, Hamount.
      apply Qgt_bool_iff in Hpos. rewrite Hpos.
      rewrite (status_of_unique_match _ _ _ it Hin Hn Hc Huniq).
      reflexivity. }
    split; [exact Hrebuilt|].
    apply (updated_rows_in_saved sel df edited row); [exact Hrow|].
    rewrite Hrebuilt. left. reflexivity.
  - unfold updated_expense_plan_row.
    intros [Hname | [Hamount | (amount & Hamount & Hle)]].
    + rewrite Hname. reflexivity.
    + rewrite Hamount. destruct (ed_ItemName row); reflexivity.
    + rewrite Hamount. destruct (ed_ItemName row); [|reflexivity].
      destruct (Qgt_bool amount 0) eqn:E; [|reflexivity].
      apply Qgt_bool_iff in E. exfalso.
      apply (Qlt_irrefl 0). apply (Qlt_le_trans _ amount); assumption.
Qed.

Lemma status_carried_by_name_and_category_witness :
  let sel := mk_date 2024 3 1 in
  let paid_on := mk_date 2024 3 25 in
  let df := [mk_plan_item sel "Expense" "Rent" 100 "Others" true
                          (Some paid_on)] in
  let row := mk_editor_row (Some "Rent") (Some 250) (Some "อื่นๆ") true in
  let zeroed := mk_editor_row (Some "Rent") (Some 0) (Some "อื่นๆ") true in
  In (mk_plan_item sel "Expense" "Rent" 250 "Others" true (Some paid_on))
     (save_planned_expenses sel df [row]) /\
  updated_expense_plan_row sel (current_month_plan_df sel df) zeroed = [] /\
  save_planned_expenses sel df [zeroed] = [].
Proof.
  cbv zeta. split; [|split].
  - destruct (status_carried_by_name_and_category
                (mk_date 2024 3 1)
                [mk_plan_item (mk_date 2024 3 1) "Expense" "Rent" 100 "Others"
                              true (Some (mk_date 2024 3 25))]
                [mk_editor_row (Some "Rent") (Some 250) (Some "อื่นๆ") true]
                (mk_editor_row (Some "Rent") (Some 250) (Some "อื่นๆ") true)
                (or_introl eq_refl)) as (Hkept & _).
    apply (Hkept "Rent" 250
             (mk_plan_item (mk_date 2024 3 1) "Expense" "Rent" 100 "Others"
                           true (Some (mk_date 2024 3 25)))).
    + reflexivity.
    + reflexivity.
    + reflexivity.
    + left. reflexivity.
    + reflexivity.
    + reflexivity.
    + intros it' [Hit'|[]] _ _. symmetry. exact Hit'.
  - destruct (status_carried_by_name_and_category
                (mk_date 2024 3 1)
                [mk_plan_item (mk_date 2024 3 1) "Expense" "Rent" 100 "Others"
                              true (Some (mk_date 2024 3 25))]
                [mk_editor_row (Some "Rent") (Some 0) (Some "อื่นๆ") true]
                (mk_editor_row (Some "Rent") (Some 0) (Some "อื่นๆ") true)
                (or_introl eq_refl)) as (_ & Hdropped).
    apply Hdropped. right. right. exists 0. split; [reflexivity|].
    apply Qle_refl.
  - reflexivity.
Defined.

(** C3, as the specification words it, fails: a lookup by name, category
    and amount finds nothing for a row whose amount was edited, yet the
    code carries the paid status over; and with two rows of one name and
    category the lookup by the three fields finds the paid row while the
    code reads the status of the first, unpaid one. *)
Lemma status_not_looked_up_by_amount :
  let sel := mk_date 2024 3 1 in
  let paid_on := mk_date 2024 3 25 in
  let paid := mk_plan_item sel "Expense" "Rent" 200 "Others" true
                           (Some paid_on) in
  let unpaid := mk_plan_item sel "Expense" "Rent" 100 "Others" false None in
  (status_by_triple [paid] "Rent" "Others" 250 = (false, None) /\
   updated_expense_plan_row sel [paid]
     (mk_editor_row (Some "Rent") (Some 250) (Some "อื่นๆ") true)
   = [mk_plan_item sel "Expense" "Rent" 250 "Others" true (Some paid_on)]) /\
  (status_by_triple [unpaid; paid] "Rent" "Others" 200
   = (true, Some paid_on) /\
   updated_expense_plan_row sel [unpaid; paid]
     (mk_editor_row (Some "Rent") (Some 200) (Some "อื่นๆ") true)
   = [mk_plan_item sel "Expense" "Rent" 200 "Others" false None]).
Proof. cbv zeta. repeat split. Qed.

(** ** Monthly plan: payment activation *)

Lemma paid_or_same_refl (now : datetime) (l : list MonthlyPlanItem) :
  Forall2 (paid_or_same now) l l.
Proof.
  induction l as [|it l IH]; constructor; [left; reflexivity|exact IH].
Qed.

Lemma paid_or_same_trans (now : datetime) (l1 l2 l3 : list MonthlyPlanItem) :
  Forall2 (paid_or_same now) l1 l2 -> Forall2 (paid_or_same now) l2 l3 ->
  Forall2 (paid_or_same now) l1 l3.
Proof.
  intros H12. revert l3. induction H12 as [|a b l1 l2 Hab _ IH]; intros l3 H23.
  - inversion H23. constructor.
  - inversion H23 as [|? c ? l3' Hbc Hrest]; subst. constructor.
    + destruct Hab as [-> | ->]; destruct Hbc as [-> | ->];
        [left|right|right|right]; reflexivity.
    + apply IH. exact Hrest.
Qed.

Lemma paid_or_same_map (now : datetime) (m : MonthlyPlanItem -> bool)
      (l : list MonthlyPlanItem) :
  Forall2 (paid_or_same now) l
          (map (fun it => if m it then mark_paid now it else it) l).
Proof.
  induction l as [|it l IH]; simpl; constructor; [|exact IH].
  destruct (m it); [right|left]; reflexivity.
Qed.

Lemma pay_row_steps (today now : datetime) (st : PayState)
      (row : ActionableRow) :
  Forall2 (paid_or_same now) (ps_plans st)
          (ps_plans (state_of (pay_row today now st row))).
Proof.
  unfold pay_row. destruct (act_IsPaid row); [|apply paid_or_same_refl].
  destruct (filter _ (ps_plans st)) as [|first rest];
    [apply paid_or_same_refl|].
  destruct (negb (IsPaid first)); [|apply paid_or_same_refl].
  cbn [state_of ps_plans]. apply paid_or_same_map.
Qed.

Lemma update_payment_status_steps (today now : datetime)
      (rows : list ActionableRow) (st : PayState) :
  Forall2 (paid_or_same now) (ps_plans st)
          (ps_plans (state_of (update_payment_status today now rows st))).
Proof.
  revert st. induction rows as [|row rows IH]; intros st; simpl.
  - apply paid_or_same_refl.
  - pose proof (pay_row_steps today now st row) as Hstep.
    destruct (pay_row today now st row) as [st'|st']; cbn [state_of] in *.
    + apply (paid_or_same_trans now _ (ps_plans st') _ Hstep). apply IH.
    + exact Hstep.
Qed.

(** X4. The payment handler never turns a paid row into an unpaid one,
    whether it runs to its end or stops at an exception: row by row, the
    name, amount and category stay and a set IsPaid stays set. *)
Lemma update_payment_status_monotone (today now : datetime)
      (rows : list ActionableRow) (st : PayState) (k : nat)
      (it : MonthlyPlanItem) :
  nth_error (ps_plans st) k = Some it ->
  exists it' : MonthlyPlanItem,
    nth_error (ps_plans (state_of (update_payment_status today now rows st))) k
    = Some it' /\
    ItemName it' = ItemName it /\ Amount it' = Amount it /\
    Category it' = Category it /\
    (IsPaid it = true -> IsPaid it' = true) /\
    (IsPaid it' = false -> it' = it).
Proof.
  pose proof (update_payment_status_steps today now rows st) as Hsteps.
  revert k. induction Hsteps as [|a b l1 l2 Hab _ IH]; intros k Hk.
  - destruct k; discriminate.
  - destruct k as [|k]; simpl in *.
    + injection Hk as Hk. subst a. exists b. split; [reflexivity|].
      destruct Hab as [-> | ->]; cbn; repeat split; auto; discriminate.
    + apply IH. exact Hk.
Qed.

(** C8 on the code: a paid row loses its status on the next save of the
    planned expenses.  Two planned expenses share name and category; the
    second is paid through the payment handler; saving the untouched
    editor rows then rebuilds both rows from the status of the first, and
    the paid row is unpaid again, its payment date gone. *)
Theorem paid_status_lost_on_resave :
  let month := mk_date 2024 3 1 in
  let today := mk_datetime 2024 3 25 14 0 0 0 in
  let first := mk_plan_item month "Expense" "Rent" 100 "Others" false None in
  let second := mk_plan_item month "Expense" "Rent" 200 "Others" false None in
  let ticked := [mk_actionable_row "Rent" 100 "อื่นๆ" false;
                 mk_actionable_row "Rent" 200 "อื่นๆ" true] in
  let plans :=
    ps_plans (state_of (update_payment_status today today ticked
                          (mk_pay_state [first; second] [] []))) in
  let edited := initial_planned_expenses_for_editor month [] plans in
  payment_section_shown today month = true /\
  actionable_display_df today [first; second]
  = [mk_actionable_row "Rent" 100 "อื่นๆ" false;
     mk_actionable_row "Rent" 200 "อื่นๆ" false] /\
  plans = [first;
           mk_plan_item month "Expense" "Rent" 200 "Others" true (Some today)] /\
  edited = [mk_editor_row (Some "Rent") (Some 100) (Some "อื่นๆ") false;
            mk_editor_row (Some "Rent") (Some 200) (Some "อื่นๆ") true] /\
  save_planned_expenses month plans edited = [first; second].
Proof. cbv zeta. repeat split. Qed.

(** ** The add forms *)

Lemma invalid_input_fails_check (name : string) (amount : Q) :
  nonempty name = false \/ amount <= 0 ->
  nonempty name && Qgt_bool amount 0 = false.
Proof.
  intros [Hname|Hamount].
  - rewrite Hname. reflexivity.
  - apply Qgt_bool_false_iff in Hamount. rewrite Hamount.
    apply andb_false_r.
Qed.

Example fixed_form_accepts_valid_input :
  let st := mk_store [] [header STANDARD_COLS_FIXED] [] [] in
  fixed_expenses_sheet
    (fst (add_fixed_expense_submit English true st true "Rent" 8000))
  = [header STANDARD_COLS_FIXED; [CStr "Rent"; CNum 8000]].
Proof. reflexivity. Qed.

(** C9, as the code has it.  A submission of the add-fixed-expense form
    or of the add-goal form with an empty name or an amount that is not
    positive leaves the whole store as it was, and the add-fixed-expense
    form answers a submission with a warning.  The add-entry form has no
    name and does not look at the amount: a submission whose remote call
    succeeds appends its row, whatever the amount. *)
Theorem invalid_submission_writes_nothing (lang : language) (api_ok : bool)
        (st : Store) (today : datetime) (submitted : bool) (name : string)
        (amount : Q) (emoji : string) (target : option datetime)
        (freq : string) :
  nonempty name = false \/ amount <= 0 ->
  let fixed_result :=
    add_fixed_expense_submit lang api_ok st submitted name amount in
  let goal_result :=
    add_goal_submit lang api_ok st today submitted name amount emoji target
                    freq in
  fst fixed_result = st /\
  (submitted = true -> existsb is_warning (snd fixed_result) = true) /\
  fst goal_result = st /\
  (forall (date : datetime) (entry_type category note : string),
      exists kind : string,
        sheet (fst (entry_form_submit lang true st true date entry_type
                                      category amount note))
        = sheet st ++ [[CStr (isoformat date); CStr kind; CStr category;
                        CNum amount; CStr note]]).
Proof.
  intros Hinvalid. cbv zeta.
  pose proof (invalid_input_fails_check name amount Hinvalid) as Hcheck.
  unfold add_fixed_expense_submit, add_goal_submit.
  rewrite <- !andb_assoc.
  rewrite (andb_assoc (nonempty name) (Qgt_bool amount 0) (is_some target)).
  rewrite Hcheck. cbn [andb]. rewrite !andb_false_r.
  split; [|split; [|split]].
  - destruct submitted; reflexivity.
  - intros ->. reflexivity.
  - reflexivity.
  - intros date entry_type category note.
    unfold entry_form_submit.
    exists (if String.eqb entry_type (t lang "รายรับ" "Income")
            then "Income" else "Expense").
    reflexivity.
Qed.

Lemma invalid_submission_writes_nothing_witness :
  let st := mk_store [] [header STANDARD_COLS_FIXED]
                     [header STANDARD_COLS_SAVING_GOALS] [] in
  fst (add_fixed_expense_submit English true st true "" 8000) = st /\
  fst (add_goal_submit English true st (mk_date 2024 3 10) true "Trip" 0 "x"
                       (Some (mk_date 2025 3 10)) "Daily") = st.
Proof.
  cbv zeta. split.
  - apply (invalid_submission_writes_nothing English true
             (mk_store [] [header STANDARD_COLS_FIXED]
                       [header STANDARD_COLS_SAVING_GOALS] [])
             (mk_date 2024 3 10) true "" 8000 "x" None "Daily").
    left. reflexivity.
  - apply (invalid_submission_writes_nothing English true
             (mk_store [] [header STANDARD_COLS_FIXED]
                       [header STANDARD_COLS_SAVING_GOALS] [])
             (mk_date 2024 3 10) true "Trip" 0 "x"
             (Some (mk_date 2025 3 10)) "Daily").
    right. apply Qle_refl.
Defined.

(** C9, as the specification words it, fails on the add-entry form: a
    submission with amount 0 is appended to the transactions table and no
    warning is shown.  (The add-goal form rejects an empty name, but it
    shows no warning either.) *)
Lemma entry_form_accepts_zero_amount :
  let st := mk_store [header STANDARD_COLS_MAIN] [] [] [] in
  let result :=
    entry_form_submit English true st true (mk_date 2024 3 10)
                      "Expense" "Food" 0 "" in
  sheet (fst result)
  = [header STANDARD_COLS_MAIN;
     [CStr "2024-03-10"; CStr "Expense"; CStr "Food"; CNum 0; CStr ""]] /\
  rows_in_store (fst result) = S (rows_in_store st) /\
  existsb is_warning (snd result) = false /\
  existsb is_warning
    (snd (add_goal_submit English true st (mk_date 2024 3 10) true "" 500 "x"
                          (Some (mk_date 2025 3 10)) "Daily")) = false.
Proof. cbv zeta. repeat split. Qed.

(** * Further properties of the code *)

Import Views GoalActions PlanIncome BulkSaves NextMonth.

(** ** Calendar arithmetic behind the day count *)

Lemma days_in_month_bounds (y m : Z) : (28 <= days_in_month y m <= 31)%Z.
Proof.
  unfold days_in_month.
  destruct (m =? 2)%Z; [destruct (is_leap y); lia|].
  destruct ((m =? 4) || (m =? 6) || (m =? 9) || (m =? 11))%Z; lia.
Qed.

Lemma days_before_month_succ (y m : Z) :
  (1 <= m)%Z ->
  days_before_month y (m + 1)
  = (days_before_month y m + days_in_month y m)%Z.
Proof.
  intros Hm. unfold days_before_month.
  replace (Z.to_nat (m + 1 - 1)) with (S (Z.to_nat (m - 1))) by lia.
  cbn [days_before_month_aux].
  replace (Z.of_nat (S (Z.to_nat (m - 1)))) with m by lia.
  reflexivity.
Qed.

Lemma days_before_year_succ (y : Z) :
  days_before_year (y + 1)
  = (days_before_year y + 365 + (if is_leap y then 1 else 0))%Z.
Proof.
  unfold days_before_year, is_leap. cbv zeta.
  replace (y + 1 - 1)%Z with y by lia.
  destruct (Z.eqb_spec (y mod 4) 0), (Z.eqb_spec (y mod 100) 0),
    (Z.eqb_spec (y mod 400) 0); cbn [negb andb orb];
    Z.to_euclidean_division_equations; lia.
Qed.

Lemma days_before_december (y : Z) :
  (days_before_month y 12 + 31)%Z
  = (365 + (if is_leap y then 1 else 0))%Z.
Proof.
  unfold days_before_month.
  change (Z.to_nat (12 - 1)) with 11%nat.
  cbn [days_before_month_aux]. unfold days_in_month.
  destruct (is_leap y); reflexivity.
Qed.

Lemma days_of_span (k t : Z) :
  (0 <= t < us_per_day)%Z ->
  days (k * us_per_day + (0 - t))
  = (k + (if (t =? 0)%Z then 0 else -1))%Z.
Proof.
  intros Ht. unfold days, us_per_day in *.
  destruct (Z.eqb_spec t 0) as [Hz|Hnz].
  - symmetry. apply Z.div_unique with (r := 0%Z); lia.
  - symmetry. apply Z.div_unique with (r := (86400000000 - t)%Z); lia.
Qed.

Lemma ordinal_to_next_25th (today : datetime) :
  (1 <= month today <= 12)%Z ->
  let target :=
    if (month today =? 12)%Z then mk_date (year today + 1) 1 25
    else mk_date (year today) (month today + 1) 25 in
  (toordinal target - toordinal today
   = days_in_month (year today) (month today) - day today + 25)%Z.
Proof.
  intros Hm. cbv zeta. unfold toordinal.
  destruct (Z.eqb_spec (month today) 12) as [Hdec|Hnot].
  - unfold mk_date. cbn [year month day].
    rewrite days_before_year_succ, Hdec.
    pose proof (days_before_december (year today)) as Hlen.
    change (days_before_month (year today + 1) 1) with 0%Z.
    change (days_in_month (year today) 12) with 31%Z.
    lia.
  - unfold mk_date. cbn [year month day].
    rewrite days_before_month_succ by lia. lia.
Qed.

Lemma days_until_25th_next_month (today : datetime) :
  valid today -> (25 < day today)%Z ->
  days_until_25th today
  = (days_in_month (year today) (month today) - day today + 25
     + (if (time_us today =? 0)%Z then 0 else -1))%Z.
Proof.
  intros (Hm & _ & Htime) Hday.
  unfold days_until_25th, target_date_for_daily_spend.
  destruct (Z.ltb_spec 25 (day today)); [|lia].
  pose proof (ordinal_to_next_25th today Hm) as Hord. cbv zeta in Hord.
  unfold sub. rewrite Hord.
  assert (Hmidnight :
    time_us (if (month today =? 12)%Z then mk_date (year today + 1) 1 25
             else mk_date (year today) (month today + 1) 25) = 0%Z)
    by (destruct (month today =? 12)%Z; reflexivity).
  rewrite Hmidnight. apply days_of_span. exact Htime.
Qed.

Example days_on_new_years_eve :
  days_until_25th (mk_datetime 2024 12 31 23 59 59 0) = 24%Z.
Proof. reflexivity. Qed.

(** X1. For every valid instant the day count to the payday anchor lies
    between -1 and 30, and it is zero or negative, so that the safeguard
    replaces it by 1, exactly on the 25th and on the 24th once the clock
    is past midnight; on those days the suggested daily spend is the whole
    balance (or 0 when the balance is negative). *)
Theorem safeguard_fires_around_the_25th (today : datetime)
        (ledger : list Transaction) (fixed : list FixedExpense) :
  valid today ->
  let d := days_until_25th today in
  let m := calculate_dashboard_metrics today ledger fixed in
  (-1 <= d <= 30)%Z /\
  ((d <= 0)%Z <->
   day today = 25%Z \/ (day today = 24%Z /\ time_us today <> 0%Z)) /\
  ((d <= 0)%Z ->
   suggested_daily m == if Qlt_bool (balance m) 0 then 0 else balance m).
Proof.
  intros Hvalid. cbv zeta.
  pose proof Hvalid as (Hm & Hd & Htime).
  pose proof (days_in_month_bounds (year today) (month today)) as Hdim.
  assert (Hcount :
    days_until_25th today
    = ((if (25 <? day today)%Z
        then days_in_month (year today) (month today) - day today + 25
        else 25 - day today)
       + (if (time_us today =? 0)%Z then 0 else -1))%Z).
  { destruct (Z.ltb_spec 25 (day today)).
    - apply days_until_25th_next_month; assumption.
    - apply days_until_25th_same_month; assumption. }
  split; [|split].
  - rewrite Hcount.
    destruct (Z.ltb_spec 25 (day today)), (Z.eqb_spec (time_us today) 0); lia.
  - rewrite Hcount.
    destruct (Z.ltb_spec 25 (day today)), (Z.eqb_spec (time_us today) 0); lia.
  - intros Hle.
    pose proof (suggested_daily_unfold today ledger fixed) as Hs.
    cbv zeta in Hs. fold (days_until_25th today) in Hs. rewrite Hs.
    unfold safeguard. destruct (Z.leb_spec (days_until_25th today) 0); [|lia].
    assert (Hq : balance (calculate_dashboard_metrics today ledger fixed)
                 / inject_Z 1
                 == balance (calculate_dashboard_metrics today ledger fixed)).
    { unfold Qdiv. change (/ inject_Z 1) with 1. ring. }
    destruct (Qlt_bool (balance _ / inject_Z 1) 0) eqn:E1;
      destruct (Qlt_bool (balance (calculate_dashboard_metrics today ledger fixed)) 0) eqn:E2;
      try reflexivity; try exact Hq.
    + apply Qlt_bool_iff in E1. apply Qlt_bool_false_iff in E2.
      rewrite Hq in E1. exfalso. exact (Qlt_not_le _ _ E1 E2).
    + apply Qlt_bool_false_iff in E1. apply Qlt_bool_iff in E2.
      rewrite Hq in E1. exfalso. exact (Qlt_not_le _ _ E2 E1).
Qed.

Lemma safeguard_fires_around_the_25th_witness :
  let today := mk_datetime 2024 3 24 9 0 0 0 in
  let ledger := [mk_transaction None "Income" "Income" 900 ""] in
  valid today /\
  (days_until_25th today <= 0)%Z /\
  suggested_daily (calculate_dashboard_metrics today ledger []) == 900.
Proof.
  cbv zeta.
  assert (Hvalid : valid (mk_datetime 2024 3 24 9 0 0 0))
    by (unfold valid; vm_compute; intuition discriminate).
  destruct (safeguard_fires_around_the_25th
              (mk_datetime 2024 3 24 9 0 0 0)
              [mk_transaction None "Income" "Income" 900 ""] [] Hvalid)
    as (_ & Hiff & Hall).
  assert (Hle : (days_until_25th (mk_datetime 2024 3 24 9 0 0 0) <= 0)%Z).
  { apply Hiff. right. split; [reflexivity|discriminate]. }
  split; [exact Hvalid|]. split; [exact Hle|].
  rewrite (Hall Hle). reflexivity.
Defined.

(** ** The ledger the dashboard is computed from *)

Lemma metrics_fields (today : datetime) (ledger : list Transaction)
      (fixed : list FixedExpense) :
  let m := calculate_dashboard_metrics today ledger fixed in
  income m == sum_of_kind "Income" ledger /\
  expense m == sum_of_kind "Expense" ledger /\
  balance m == sum_of_kind "Income" ledger - sum_of_kind "Expense" ledger /\
  remaining_after_fixed m
  == sum_of_kind "Income" ledger - sum_of_kind "Expense" ledger
     - sum_fixed fixed.
Proof.
  cbv zeta.
  assert (Hfixed : match fixed with
                   | [] => 0
                   | _ => column_sum (map fx_Amount fixed)
                   end == sum_fixed fixed).
  { destruct fixed as [|f rest]; [reflexivity|]. apply column_sum_fixed. }
  unfold calculate_dashboard_metrics.
  destruct ledger as [|r rest].
  - cbn [income expense balance remaining_after_fixed sum_of_kind].
    rewrite Hfixed. repeat split; ring.
  - cbn [income expense balance remaining_after_fixed].
    rewrite Hfixed, !column_sum_of_kind. repeat split; reflexivity.
Qed.

Lemma sum_of_kind_app (kind : string) (l1 l2 : list Transaction) :
  sum_of_kind kind (l1 ++ l2) == sum_of_kind kind l1 + sum_of_kind kind l2.
Proof.
  induction l1 as [|r l1 IH]; simpl; [ring|]. rewrite IH. ring.
Qed.

Lemma sum_of_kind_insert (kind : string) (r : Transaction)
      (l : list Transaction) :
  sum_of_kind kind (insert_by_date r l)
  == (if String.eqb (tx_Type r) kind then tx_Amount r else 0)
     + sum_of_kind kind l.
Proof.
  induction l as [|x l IH]; simpl; [reflexivity|].
  destruct (date_leb (tx_Date r) (tx_Date x)); simpl; [reflexivity|].
  rewrite IH. ring.
Qed.

Lemma sum_of_kind_sort (kind : string) (l : list Transaction) :
  sum_of_kind kind (sort_by_date l) == sum_of_kind kind l.
Proof.
  induction l as [|r l IH]; simpl; [reflexivity|].
  rewrite sum_of_kind_insert, IH. reflexivity.
Qed.

Lemma sum_of_kind_materialized (today : datetime)
      (fixed : list FixedExpense) :
  sum_of_kind "Income" (materialize_fixed today fixed) == 0 /\
  sum_of_kind "Expense" (materialize_fixed today fixed) == sum_fixed fixed.
Proof.
  induction fixed as [|f rest (IHi & IHe)]; simpl; [split; reflexivity|].
  rewrite IHi, IHe. split; ring.
Qed.

Example fixed_expenses_counted_twice :
  let today := mk_date 2024 3 10 in
  let df := [mk_transaction (Some (mk_date 2024 3 1)) "Income" "Income"
                            50000 "";
             mk_transaction (Some (mk_date 2024 3 5)) "Expense" "Food"
                            20000 ""] in
  let fixed := [mk_fixed "Rent" 8000; mk_fixed "Phone" 500] in
  let m := calculate_dashboard_metrics today (df_combined today df fixed)
                                       fixed in
  balance m == 21500 /\ remaining_after_fixed m == 13000.
Proof. vm_compute. split; reflexivity. Qed.

(** X2. On the ledger the app builds (the user's transactions and the
    materialized fixed expenses, sorted by date) the dashboard's income is
    the user's income, its expense is the user's expenses plus the fixed
    expenses, and the balance has the fixed expenses taken off once; the
    amount left after fixed expenses takes them off a second time. *)
Theorem dashboard_on_combined_ledger (today : datetime)
        (df : list Transaction) (fixed : list FixedExpense) :
  let m := calculate_dashboard_metrics today (df_combined today df fixed)
                                       fixed in
  income m == sum_of_kind "Income" df /\
  expense m == sum_of_kind "Expense" df + sum_fixed fixed /\
  balance m
  == sum_of_kind "Income" df - sum_of_kind "Expense" df - sum_fixed fixed /\
  remaining_after_fixed m
  == sum_of_kind "Income" df - sum_of_kind "Expense" df
     - sum_fixed fixed - sum_fixed fixed.
Proof.
  cbv zeta.
  destruct (metrics_fields today (df_combined today df fixed) fixed)
    as (Hi & He & Hb & Hr).
  destruct (sum_of_kind_materialized today fixed) as (Hmi & Hme).
  assert (Hin : sum_of_kind "Income" (df_combined today df fixed)
                == sum_of_kind "Income" df).
  { unfold df_combined. rewrite sum_of_kind_sort, sum_of_kind_app, Hmi.
    ring. }
  assert (Hex : sum_of_kind "Expense" (df_combined today df fixed)
                == sum_of_kind "Expense" df + sum_fixed fixed).
  { unfold df_combined. rewrite sum_of_kind_sort, sum_of_kind_app, Hme.
    reflexivity. }
  rewrite Hi, He, Hb, Hr, Hin, Hex. repeat split; ring.
Qed.

(** ** Categories between the sheet and the editors *)

Ltac split_on_eqb :=
  repeat match goal with
         | |- context [String.eqb ?a ?b] =>
             destruct (String.eqb_spec a b)
         end.

Lemma display_category_cases (c : string) :
  In (c, display_category c) CATEGORY_MAP \/
  ((forall kv, In kv CATEGORY_MAP -> fst kv <> c) /\ display_category c = c).
Proof.
  unfold display_category, CATEGORY_MAP. cbn [find fst snd].
  split_on_eqb; subst; cbn [In fst snd];
    try (left; tauto).
  right. split; [|reflexivity].
  intros kv Hkv. cbn [In] in Hkv.
  intuition (subst; cbn [fst snd] in *; congruence).
Qed.

Lemma canonical_category_cases (x : string) :
  In (canonical_category (Some x), x) CATEGORY_MAP \/
  ((forall kv, In kv CATEGORY_MAP -> snd kv <> x) /\
   canonical_category (Some x) = x).
Proof.
  unfold canonical_category, CATEGORY_MAP. cbn [find fst snd].
  split_on_eqb; subst; cbn [In fst snd];
    try (left; tauto).
  right. split; [|reflexivity].
  intros kv Hkv. cbn [In] in Hkv.
  intuition (subst; cbn [fst snd] in *; congruence).
Qed.

Lemma canonical_of_entry (k v : string) :
  In (k, v) CATEGORY_MAP -> canonical_category (Some v) = k.
Proof.
  unfold CATEGORY_MAP. cbn [In]. intros H.
  repeat (destruct H as [H|H]; [injection H as <- <-; reflexivity|]).
  contradiction.
Qed.

Lemma key_is_not_a_value (k v : string) :
  In (k, v) CATEGORY_MAP -> forall kv, In kv CATEGORY_MAP -> snd kv <> k.
Proof.
  unfold CATEGORY_MAP. cbn [In]. intros H kv Hkv.
  repeat (destruct H as [H|H];
          [injection H as <- <-;
           repeat (destruct Hkv as [Hkv|Hkv];
                   [subst kv; cbn [snd]; discriminate|]);
           contradiction|]).
  contradiction.
Qed.

Example category_round_trip_examples :
  canonical_category (Some (display_category "Fixed Expense"))
  = "Fixed Expense" /\
  canonical_category (Some (display_category "Hobby")) = "Hobby" /\
  canonical_category (Some (display_category "อาหาร")) = "Food".
Proof. repeat split. Qed.

(** X3. Showing a category in an editor and reading it back gives the
    stored category again, for the six canonical categories and for every
    user-defined one that is not itself one of the Thai labels; and what
    is read back from an editor cell is never one of the Thai labels. *)
Theorem category_round_trip (c : string) :
  (forall kv, In kv CATEGORY_MAP -> snd kv <> c) ->
  canonical_category (Some (display_category c)) = c /\
  (forall x kv, In kv CATEGORY_MAP -> canonical_category (Some x) <> snd kv).
Proof.
  intros Hc. split.
  - destruct (display_category_cases c) as [Hentry|(_ & Hsame)].
    + apply canonical_of_entry. exact Hentry.
    + rewrite Hsame.
      destruct (canonical_category_cases c) as [Hentry|(_ & Hid)];
        [|exact Hid].
      exfalso. apply (Hc _ Hentry). reflexivity.
  - intros x kv Hkv.
    destruct (canonical_category_cases x) as [Hentry|(Hnot & Hid)].
    + apply not_eq_sym. apply (key_is_not_a_value _ _ Hentry kv Hkv).
    + rewrite Hid. apply not_eq_sym. apply Hnot. exact Hkv.
Qed.

Lemma category_round_trip_witness :
  canonical_category (Some (display_category "Travel")) = "Travel" /\
  canonical_category (Some (display_category "Pets")) = "Pets".
Proof.
  split.
  - apply (category_round_trip "Travel").
    intros kv Hkv. unfold CATEGORY_MAP in Hkv. cbn [In] in Hkv.
    intuition (subst; cbn [snd]; discriminate).
  - apply (category_round_trip "Pets").
    intros kv Hkv. unfold CATEGORY_MAP in Hkv. cbn [In] in Hkv.
    intuition (subst; cbn [snd]; discriminate).
Defined.

(** ** Payment activation: what a second run does *)

Lemma mask_paid_or_same (today now : datetime) (name category : string)
      (amount : Q) (a b : MonthlyPlanItem) :
  paid_or_same now a b ->
  mask today name category amount b = mask today name category amount a.
Proof. intros [-> | ->]; reflexivity. Qed.

Lemma filter_paid_or_same (today now : datetime) (name category : string)
      (amount : Q) (l l' : list MonthlyPlanItem) :
  Forall2 (paid_or_same now) l l' ->
  Forall2 (paid_or_same now)
          (filter (mask today name category amount) l)
          (filter (mask today name category amount) l').
Proof.
  induction 1 as [|a b l l' Hab _ IH]; simpl; [constructor|].
  rewrite (mask_paid_or_same today now name category amount a b Hab).
  destruct (mask today name category amount a); [constructor|]; assumption.
Qed.

Lemma first_stays_paid (today now : datetime) (name category : string)
      (amount : Q) (l l' : list MonthlyPlanItem)
      (first : MonthlyPlanItem) (rest : list MonthlyPlanItem) :
  Forall2 (paid_or_same now) l l' ->
  filter (mask today name category amount) l = first :: rest ->
  IsPaid first = true ->
  exists first' rest',
    filter (mask today name category amount) l' = first' :: rest'
    /\ IsPaid first' = true.
Proof.
  intros Hsteps Hfilter Hpaid.
  pose proof (filter_paid_or_same today now name category amount l l' Hsteps)
    as Hf.
  rewrite Hfilter in Hf.
  inversion Hf as [|? first' ? rest' Hstep _ Heq1 Heq2]; subst.
  exists first', rest'. split; [reflexivity|].
  destruct Hstep as [-> | ->]; [exact Hpaid|reflexivity].
Qed.

Lemma filter_mark_paid (now : datetime) (m : MonthlyPlanItem -> bool)
      (l : list MonthlyPlanItem) :
  (forall it, m (mark_paid now it) = m it) ->
  filter m (map (fun it => if m it then mark_paid now it else it) l)
  = map (mark_paid now) (filter m l).
Proof.
  intros Hm. induction l as [|it l IH]; simpl; [reflexivity|].
  destruct (m it) eqn:E.
  - rewrite Hm, E. simpl. rewrite IH. reflexivity.
  - rewrite E. exact IH.
Qed.

Lemma pay_row_settles (today now : datetime) (st st' : PayState)
      (row : ActionableRow) :
  pay_row today now st row = Completed st' ->
  act_IsPaid row = true ->
  exists first rest,
    filter (mask today (act_ItemName row)
                 (canonical_category (Some (act_Category row)))
                 (act_Amount row)) (ps_plans st') = first :: rest
    /\ IsPaid first = true.
Proof.
  unfold pay_row. cbv zeta.
  set (category := canonical_category (Some (act_Category row))).
  intros Hrun Hticked. rewrite Hticked in Hrun.
  destruct (filter _ (ps_plans st)) as [|first rest] eqn:Hfilter;
    [discriminate|].
  destruct (IsPaid first) eqn:Hpaid; cbn [negb] in Hrun.
  - injection Hrun as <-. exists first, rest. split; assumption.
  - injection Hrun as <-. cbn [ps_plans].
    rewrite filter_mark_paid by reflexivity. rewrite Hfilter.
    exists (mark_paid now first), (map (mark_paid now) rest).
    split; reflexivity.
Qed.

Lemma completed_run_settles (today now : datetime)
      (rows : list ActionableRow) (st st' : PayState) :
  update_payment_status today now rows st = Completed st' ->
  settled today rows (ps_plans st').
Proof.
  revert st. induction rows as [|row rows IH]; intros st Hrun.
  - intros row [].
  - simpl in Hrun.
    destruct (pay_row today now st row) as [st1|st1] eqn:Hrow;
      [|discriminate].
    intros r [<-|Hin] Hticked.
    + destruct (pay_row_settles today now st st1 row Hrow Hticked)
        as (first & rest & Hfilter & Hpaid).
      pose proof (update_payment_status_steps today now rows st1) as Hsteps.
      rewrite Hrun in Hsteps. cbn [state_of] in Hsteps.
      exact (first_stays_paid today now _ _ _ _ _ first rest Hsteps
                              Hfilter Hpaid).
    + exact (IH st1 Hrun r Hin Hticked).
Qed.

Lemma settled_run_is_idle (today now : datetime)
      (rows : list ActionableRow) (st : PayState) :
  settled today rows (ps_plans st) ->
  update_payment_status today now rows st = Completed st.
Proof.
  induction rows as [|row rows IH]; intros Hsettled; [reflexivity|].
  simpl.
  assert (Hrow : pay_row today now st row = Completed st).
  { unfold pay_row. cbv zeta.
    destruct (act_IsPaid row) eqn:Hticked; [|reflexivity].
    destruct (Hsettled row (or_introl eq_refl) Hticked)
      as (first & rest & Hfilter & Hpaid).
    rewrite Hfilter, Hpaid. reflexivity. }
  rewrite Hrow. apply IH.
  intros r Hin. apply Hsettled. right. exact Hin.
Qed.

(** The selection of the handler looks at the year and the month of
    [today] only. *)
Lemma mask_same_month (today again : datetime) (name category : string)
      (amount : Q) (it : MonthlyPlanItem) :
  year again = year today -> month again = month today ->
  mask again name category amount it = mask today name category amount it.
Proof.
  intros Hy Hm. unfold mask, in_month. rewrite Hy, Hm. reflexivity.
Qed.

Lemma mask_reloaded (today : datetime) (name category : string)
      (amount : Q) (a b : MonthlyPlanItem) :
  reloaded a b ->
  mask today name category amount b = mask today name category amount a.
Proof.
  intros (Hy & Hm & Ht & Hn & Hc & Hq & _).
  unfold mask, in_month, is_expense. rewrite Hy, Hm, Ht, Hn, Hc.
  f_equal.
  destruct (Qeq_bool (Amount a) amount) eqn:Ea.
  - apply Qeq_bool_iff. apply Qeq_bool_iff in Ea.
    rewrite Hq. exact Ea.
  - destruct (Qeq_bool (Amount b) amount) eqn:Eb; [|reflexivity].
    apply Qeq_bool_iff in Eb. rewrite Hq in Eb.
    apply Qeq_bool_iff in Eb. rewrite Eb in Ea. discriminate.
Qed.

Lemma filter_reloaded (today again : datetime) (name category : string)
      (amount : Q) (l l' : list MonthlyPlanItem) :
  year again = year today -> month again = month today ->
  Forall2 reloaded l l' ->
  Forall2 reloaded
          (filter (mask today name category amount) l)
          (filter (mask again name category amount) l').
Proof.
  intros Hy Hm. induction 1 as [|a b l l' Hab _ IH]; simpl; [constructor|].
  rewrite (mask_same_month today again name category amount b Hy Hm).
  rewrite (mask_reloaded today name category amount a b Hab).
  destruct (mask today name category amount a); [constructor|]; assumption.
Qed.

Lemma first_reloaded (today again : datetime) (name category : string)
      (amount : Q) (l l' : list MonthlyPlanItem)
      (first : MonthlyPlanItem) (rest : list MonthlyPlanItem) :
  year again = year today -> month again = month today ->
  Forall2 reloaded l l' ->
  filter (mask today name category amount) l = first :: rest ->
  IsPaid first = true ->
  exists first' rest',
    filter (mask again name category amount) l' = first' :: rest'
    /\ IsPaid first' = true.
Proof.
  intros Hy Hm Hre Hfilter Hpaid.
  pose proof (filter_reloaded today again name category amount l l'
                Hy Hm Hre) as Hf.
  rewrite Hfilter in Hf.
  inversion Hf as [|? first' ? rest' Hstep _ Heq1 Heq2]; subst.
  exists first', rest'. split; [reflexivity|].
  destruct Hstep as (_ & _ & _ & _ & _ & _ & Hp). rewrite Hp. exact Hpaid.
Qed.

Lemma settled_reloaded (today again : datetime) (rows : list ActionableRow)
      (plans plans' : list MonthlyPlanItem) :
  year again = year today -> month again = month today ->
  Forall2 reloaded plans plans' ->
  settled today rows plans -> settled again rows plans'.
Proof.
  intros Hy Hm Hre Hsettled row Hin Hticked.
  destruct (Hsettled row Hin Hticked) as (first & rest & Hfilter & Hpaid).
  exact (first_reloaded today again _ _ _ plans plans' first rest
                        Hy Hm Hre Hfilter Hpaid).
Qed.

(** X5. A payment is posted once within its month.  When the loop of the
    handler has run to its end on some ticked rows, running it again on
    the same rows at any later instant of the same year and month changes
    nothing: no plan row is touched, no payment date is overwritten, no
    further Expense row is appended to the main sheet and no message is
    shown.  The second run may start from the table the first one left or
    from any table that agrees with it, row by row, on month, type, name,
    category, amount and paid flag, as the table read back from the
    rewritten plan sheet is taken to do. *)
Theorem payment_posted_once (today now again later : datetime)
        (rows : list ActionableRow) (st st' st_again : PayState) :
  update_payment_status today now rows st = Completed st' ->
  year again = year today -> month again = month today ->
  Forall2 reloaded (ps_plans st') (ps_plans st_again) ->
  update_payment_status again later rows st_again = Completed st_again.
Proof.
  intros Hrun Hy Hm Hre. apply settled_run_is_idle.
  apply (settled_reloaded today again rows (ps_plans st') _ Hy Hm Hre).
  exact (completed_run_settles today now rows st st' Hrun).
Qed.

Lemma payment_posted_once_witness :
  let month := mk_date 2024 3 1 in
  let today := mk_datetime 2024 3 25 14 0 0 0 in
  let again := mk_datetime 2024 3 28 9 30 0 0 in
  let rent := mk_plan_item month "Expense" "Rent" 8000 "Fixed Expense"
                           false None in
  let ticked := [mk_actionable_row "Rent" 8000 "ค่าใช้จ่ายประจำ" true] in
  let paid := mk_pay_state
                [mark_paid today rent]
                [[CStr "2024-03-25"; CStr "Expense"; CStr "Fixed Expense";
                  CNum 8000; CStr "Paid planned expense: Rent"]]
                [st_success "Expense 'Rent' paid!"] in
  let read_back :=
    mk_pay_state
      [mk_plan_item month "Expense" "Rent" (16000 / 2) "Fixed Expense" true
                    (Some (mk_date 2024 3 25))]
      (ps_sheet paid) [] in
  update_payment_status today today ticked (mk_pay_state [rent] [] [])
  = Completed paid /\
  update_payment_status again again ticked read_back = Completed read_back.
Proof.
  cbv zeta.
  assert (Hrun :
    update_payment_status (mk_datetime 2024 3 25 14 0 0 0)
      (mk_datetime 2024 3 25 14 0 0 0)
      [mk_actionable_row "Rent" 8000 "ค่าใช้จ่ายประจำ" true]
      (mk_pay_state
         [mk_plan_item (mk_date 2024 3 1) "Expense" "Rent" 8000
                       "Fixed Expense" false None] [] [])
    = Completed
        (mk_pay_state
           [mark_paid (mk_datetime 2024 3 25 14 0 0 0)
              (mk_plan_item (mk_date 2024 3 1) "Expense" "Rent" 8000
                            "Fixed Expense" false None)]
           [[CStr "2024-03-25"; CStr "Expense"; CStr "Fixed Expense";
             CNum 8000; CStr "Paid planned expense: Rent"]]
           [st_success "Expense 'Rent' paid!"])) by reflexivity.
  split; [exact Hrun|].
  apply (payment_posted_once _ _ (mk_datetime 2024 3 28 9 30 0 0)
           (mk_datetime 2024 3 28 9 30 0 0) _ _ _ _ Hrun).
  - reflexivity.
  - reflexivity.
  - constructor; [|constructor].
    unfold reloaded. cbn. repeat split.
Defined.

(** ** Monthly plan: what the two save buttons leave alone *)

Lemma filter_none {A : Type} (f : A -> bool) (l : list A) :
  (forall x, In x l -> f x = false) -> filter f l = [].
Proof.
  induction l as [|x l IH]; intros H; simpl; [reflexivity|].
  rewrite (H x (or_introl eq_refl)). apply IH.
  intros y Hy. apply H. right. exact Hy.
Qed.

Lemma filter_twice {A : Type} (f : A -> bool) (l : list A) :
  filter f (filter f l) = filter f l.
Proof.
  induction l as [|x l IH]; simpl; [reflexivity|].
  destruct (f x) eqn:E; simpl; [rewrite E, IH|]; auto.
Qed.

Lemma in_month_refl (sel : datetime) (it : MonthlyPlanItem) :
  MonthYear it = sel -> in_month sel it = true.
Proof.
  intros H. unfold in_month. rewrite H, !Z.eqb_refl. reflexivity.
Qed.

Lemma updated_row_shape (sel : datetime) (current : list MonthlyPlanItem)
      (edited : list EditorRow) (it : MonthlyPlanItem) :
  In it (updated_expense_plan_rows sel current edited) ->
  exists (row : EditorRow) (name : string) (amount : Q),
    In row edited /\ ed_ItemName row = Some name /\
    ed_Amount row = Some amount /\ 0 < amount /\
    MonthYear it = sel /\ ItemType it = "Expense" /\ ItemName it = name /\
    Amount it = amount /\ Category it = canonical_category (ed_Category row).
Proof.
  unfold updated_expense_plan_rows. intros Hin.
  apply in_flat_map in Hin. destruct Hin as (row & Hrow & Hit).
  unfold updated_expense_plan_row in Hit.
  destruct (ed_ItemName row) as [name|] eqn:Hname; [|contradiction].
  destruct (ed_Amount row) as [amount|] eqn:Hamount; [|contradiction].
  destruct (Qgt_bool amount 0) eqn:Hpos; [|contradiction].
  destruct (status_of _) as [paid paid_on].
  destruct Hit as [<-|[]].
  exists row, name, amount. apply Qgt_bool_iff in Hpos.
  repeat split; auto.
Qed.

Lemma canonical_is_not_a_label (c : option string) (kv : string * string) :
  In kv CATEGORY_MAP -> canonical_category c <> snd kv.
Proof.
  intros Hkv. destruct c as [x|].
  - destruct (canonical_category_cases x) as [Hentry|(Hnot & Hid)].
    + apply not_eq_sym. apply (key_is_not_a_value _ _ Hentry kv Hkv).
    + rewrite Hid. apply not_eq_sym. apply Hnot. exact Hkv.
  - unfold CATEGORY_MAP in Hkv. cbn [In] in Hkv. cbn [canonical_category].
    intuition (subst; cbn [snd]; discriminate).
Qed.

Lemma income_rows_kept (sel : datetime) (df : list MonthlyPlanItem) :
  filter is_income
    (filter (in_month sel)
       (filter (fun it => negb (in_month sel it && is_expense it)) df))
  = filter is_income (filter (in_month sel) df).
Proof.
  induction df as [|it df IH]; [reflexivity|]. cbn [filter].
  destruct (in_month sel it) eqn:Hm, (is_expense it) eqn:He;
    cbn [andb negb filter]; rewrite ?Hm; cbn [filter];
    try (rewrite IH; reflexivity).
  unfold is_income. unfold is_expense in He.
  apply String.eqb_eq in He. rewrite He. cbn. exact IH.
Qed.

(** X6. Saving the planned expenses of a month rewrites the Expense rows
    of that month only: every Income row and every row of another month
    is kept as it was, in order, so the expected income of the month is
    unchanged.  Each Expense row of the month after the save comes from
    an editor row with that name and amount, its amount is positive and
    its category is never one of the Thai labels. *)
Theorem save_planned_expenses_scope (sel : datetime)
        (df : list MonthlyPlanItem) (edited : list EditorRow) :
  let saved := save_planned_expenses sel df edited in
  let outside := fun it => negb (in_month sel it && is_expense it) in
  filter outside saved = filter outside df /\
  planned_income_for_month sel saved = planned_income_for_month sel df /\
  (forall it : MonthlyPlanItem,
      In it saved -> in_month sel it = true -> is_expense it = true ->
      MonthYear it = sel /\ 0 < Amount it /\
      (forall kv, In kv CATEGORY_MAP -> Category it <> snd kv) /\
      exists row : EditorRow,
        In row edited /\ ed_ItemName row = Some (ItemName it) /\
        ed_Amount row = Some (Amount it)).
Proof.
  cbv zeta. unfold save_planned_expenses.
  set (outside := fun it => negb (in_month sel it && is_expense it)).
  set (rebuilt := updated_expense_plan_rows sel
                    (current_month_plan_df sel df) edited).
  assert (Hrebuilt : forall it, In it rebuilt ->
                       in_month sel it = true /\ is_expense it = true).
  { intros it Hit.
    destruct (updated_row_shape _ _ _ _ Hit)
      as (row & name & amount & _ & _ & _ & _ & Hmonth & Htype & _).
    split; [apply in_month_refl; exact Hmonth|].
    unfold is_expense. rewrite Htype. reflexivity. }
  split; [|split].
  - rewrite filter_app, filter_twice.
    rewrite (filter_none outside rebuilt); [apply app_nil_r|].
    intros it Hit. destruct (Hrebuilt it Hit) as (Hm & He).
    unfold outside. rewrite Hm, He. reflexivity.
  - unfold planned_income_for_month, current_month_plan_df.
    rewrite !filter_app.
    rewrite (filter_none is_income (filter (in_month sel) rebuilt)).
    + rewrite app_nil_r. f_equal. f_equal.
      apply income_rows_kept.
    + intros it Hit. apply filter_In in Hit. destruct Hit as (Hit & _).
      destruct (Hrebuilt it Hit) as (_ & He).
      unfold is_income. unfold is_expense in He.
      apply String.eqb_eq in He. rewrite He. reflexivity.
  - intros it Hin Hm He. apply in_app_or in Hin. destruct Hin as [Hold|Hnew].
    + apply filter_In in Hold. destruct Hold as (_ & Hout).
      unfold outside in Hout. rewrite Hm, He in Hout. discriminate.
    + destruct (updated_row_shape _ _ _ _ Hnew)
        as (row & name & amount & Hrow & Hname & Hamount & Hpos & Hmonth
            & _ & Hn & Ha & Hc).
      split; [exact Hmonth|]. split; [rewrite Ha; exact Hpos|].
      split.
      * intros kv Hkv. rewrite Hc. apply canonical_is_not_a_label. exact Hkv.
      * exists row. rewrite Hn, Ha. auto.
Qed.

Lemma no_income_left (sel : datetime) (df : list MonthlyPlanItem) :
  filter is_income
    (filter (in_month sel)
       (filter (fun it => negb (in_month sel it && is_income it)) df)) = [].
Proof.
  apply filter_none. intros it Hit.
  apply filter_In in Hit. destruct Hit as (Hit & Hm).
  apply filter_In in Hit. destruct Hit as (_ & Hout).
  rewrite Hm in Hout. cbn [andb] in Hout.
  apply negb_true_iff in Hout. exact Hout.
Qed.

Example income_saved_twice :
  let sel := mk_date 2024 4 1 in
  let rent := mk_plan_item sel "Expense" "Rent" 8000 "Fixed Expense" true
                           (Some (mk_date 2024 4 25)) in
  save_income_plan sel (save_income_plan sel [rent] 30000) 32000
  = [rent; mk_plan_item sel "Income" "Expected Salary" 32000 "" false None].
Proof. reflexivity. Qed.

(** X7. After "Save Expected Income" the month holds exactly one Income
    row, the "Expected Salary" of the amount entered, and the income the
    form shows next is that amount.  Every other row (the Expense rows of
    the month with their paid status, and all rows of other months) is
    kept as it was, in order; saving again replaces the row instead of
    adding one. *)
Theorem save_income_plan_single_row (sel : datetime)
        (df : list MonthlyPlanItem) (new_planned_income : Q) :
  let saved := save_income_plan sel df new_planned_income in
  let outside := fun it => negb (in_month sel it && is_income it) in
  filter is_income (current_month_plan_df sel saved)
  = [mk_plan_item sel "Income" "Expected Salary" new_planned_income ""
                  false None] /\
  planned_income_for_month sel saved == new_planned_income /\
  filter outside saved = filter outside df /\
  (forall again : Q,
      save_income_plan sel saved again = save_income_plan sel df again).
Proof.
  cbv zeta.
  set (outside := fun it => negb (in_month sel it && is_income it)).
  set (row := mk_plan_item sel "Income" "Expected Salary"
                           new_planned_income "" false None).
  assert (Hrow_month : in_month sel row = true)
    by (apply in_month_refl; reflexivity).
  assert (Hrow_out : outside row = false)
    by (unfold outside; rewrite Hrow_month; reflexivity).
  assert (Hone :
    filter is_income
      (current_month_plan_df sel (save_income_plan sel df new_planned_income))
    = [row]).
  { unfold save_income_plan, current_month_plan_df.
    rewrite !filter_app. rewrite (no_income_left sel df).
    cbn [filter app]. fold row. rewrite Hrow_month. reflexivity. }
  assert (Hout :
    filter outside (save_income_plan sel df new_planned_income)
    = filter outside df).
  { unfold save_income_plan. fold outside. fold row.
    rewrite filter_app, filter_twice. cbn [filter]. rewrite Hrow_out.
    apply app_nil_r. }
  split; [exact Hone|]. split; [|split].
  - unfold planned_income_for_month. rewrite Hone.
    unfold column_sum. cbn. ring.
  - exact Hout.
  - intros again. unfold save_income_plan at 1 3. fold outside.
    rewrite Hout. reflexivity.
Qed.

(** ** Monthly plan: the projection after a save *)

Lemma rebuilt_from_editor_row (sel : datetime)
      (current : list MonthlyPlanItem) (it : MonthlyPlanItem) :
  0 < Amount it ->
  exists (paid : bool) (paid_on : option datetime),
    updated_expense_plan_row sel current (editor_row_of it)
    = [mk_plan_item sel "Expense" (ItemName it) (Amount it)
                    (canonical_category (Some (display_category (Category it))))
                    paid paid_on].
Proof.
  intros Hpos. unfold updated_expense_plan_row, editor_row_of.
  cbn [ed_ItemName ed_Amount ed_Category].
  apply Qgt_bool_iff in Hpos. rewrite Hpos.
  destruct (status_of _) as [paid paid_on].
  exists paid, paid_on. reflexivity.
Qed.

Lemma initial_rows_positive (sel : datetime) (fixed : list FixedExpense)
      (existing : list MonthlyPlanItem) :
  (forall row, In row fixed -> 0 < fx_Amount row) ->
  (forall it, In it existing -> 0 < Amount it) ->
  forall it, In it (initial_planned_expenses sel fixed existing) ->
             0 < Amount it.
Proof.
  intros Hfixed Hexisting it Hin. unfold initial_planned_expenses in Hin.
  apply in_app_or in Hin. destruct Hin as [Hin|Hin]; [auto|].
  destruct (projected_item_shape _ _ _ _ Hin) as (row & Hrow & _ & ->).
  cbn [Amount]. auto.
Qed.

(** X8. The projection settles once the plan is saved.  When every fixed
    expense and every planned expense of the month has a positive amount
    and the editor rows are saved as they are shown, the next rendering of
    the plan projects no fixed expense again: each one now has its
    "Fixed Expense" row in the stored bucket. *)
Theorem projection_settles_after_save (sel : datetime)
        (fixed : list FixedExpense) (df : list MonthlyPlanItem) :
  (forall row, In row fixed -> 0 < fx_Amount row) ->
  (forall it, In it (existing_planned_expenses sel df) -> 0 < Amount it) ->
  let saved :=
    save_planned_expenses sel df
      (initial_planned_expenses_for_editor sel fixed df) in
  fixed_expenses_to_add sel fixed (existing_planned_expenses sel saved) = [].
Proof.
  intros Hfixed Hexisting. cbv zeta.
  unfold fixed_expenses_to_add. apply flat_map_nil. intros row Hrow.
  cbv zeta.
  pose proof (fixed_matched_after_projection sel fixed
                (existing_planned_expenses sel df) row Hrow) as Hmatched.
  apply existsb_exists in Hmatched. destruct Hmatched as (it & Hit & Hmatch).
  pose proof (initial_rows_positive sel fixed _ Hfixed Hexisting it Hit)
    as Hpos.
  destruct (rebuilt_from_editor_row sel (current_month_plan_df sel df) it Hpos)
    as (paid & paid_on & Hrebuilt).
  unfold matches_fixed in Hmatch. apply andb_true_iff in Hmatch.
  destruct Hmatch as (Hname & Hcat).
  apply String.eqb_eq in Hname. apply String.eqb_eq in Hcat.
  rewrite Hcat in Hrebuilt.
  change (canonical_category (Some (display_category "Fixed Expense")))
    with "Fixed Expense" in Hrebuilt.
  set (stored := mk_plan_item sel "Expense" (ItemName it) (Amount it)
                              "Fixed Expense" paid paid_on) in *.
  assert (Hstored : In stored (existing_planned_expenses sel
            (save_planned_expenses sel df
               (initial_planned_expenses_for_editor sel fixed df)))).
  { unfold existing_planned_expenses, current_month_plan_df.
    apply filter_In. split; [|reflexivity].
    apply filter_In. split; [|apply in_month_refl; reflexivity].
    apply (updated_rows_in_saved sel df _ (editor_row_of it)).
    - unfold initial_planned_expenses_for_editor. apply in_map. exact Hit.
    - rewrite Hrebuilt. left. reflexivity. }
  assert (Hexists :
    existsb (matches_fixed (fx_Name row))
      (existing_planned_expenses sel
         (save_planned_expenses sel df
            (initial_planned_expenses_for_editor sel fixed df))) = true).
  { apply existsb_exists. exists stored. split; [exact Hstored|].
    unfold matches_fixed, stored. cbn [ItemName Category].
    rewrite Hname, String.eqb_refl. reflexivity. }
  rewrite Hexists. reflexivity.
Qed.

Lemma projection_settles_after_save_witness :
  let sel := mk_date 2024 4 1 in
  let fixed := [mk_fixed "Rent" 8000; mk_fixed "Phone" 500] in
  let df := [mk_plan_item sel "Expense" "Groceries" 3000 "Food" false None] in
  fixed_expenses_to_add sel fixed
    (existing_planned_expenses sel
       (save_planned_expenses sel df
          (initial_planned_expenses_for_editor sel fixed df))) = [].
Proof.
  cbv zeta.
  apply (projection_settles_after_save (mk_date 2024 4 1)
           [mk_fixed "Rent" 8000; mk_fixed "Phone" 500]
           [mk_plan_item (mk_date 2024 4 1) "Expense" "Groceries" 3000
                         "Food" false None]).
  - intros row [<-|[<-|[]]]; reflexivity.
  - intros it [<-|[]]. reflexivity.
Defined.

(** ** Saving goals: the plan and the status line *)

Lemma days_to_target_ordinals (today target : datetime) :
  days_to_target today target = (toordinal target - toordinal today)%Z.
Proof. unfold days_to_target. apply days_of_date_difference. Qed.

Lemma ratio_reaches_hundred (saved target : Q) :
  0 < target -> (100 <= saved / target * 100 <-> target <= saved).
Proof.
  intros Ht. split.
  - intros H.
    assert (H1 : 1 <= saved / target).
    { apply Qmult_le_r with (z := 100); [reflexivity|].
      rewrite Qmult_1_l. exact H. }
    apply Qmult_le_r with (z := target) in H1; [|exact Ht].
    rewrite Qmult_1_l in H1. unfold Qdiv in H1.
    rewrite <- Qmult_assoc, (Qmult_comm (/ target)), Qmult_inv_r,
      Qmult_1_r in H1; [exact H1|].
    intros Hz. rewrite Hz in Ht. discriminate.
  - intros H.
    assert (H1 : 1 <= saved / target).
    { apply Qle_shift_div_l; [exact Ht|]. rewrite Qmult_1_l. exact H. }
    apply Qmult_le_r with (z := 100) in H1; [|reflexivity].
    rewrite Qmult_1_l in H1. exact H1.
Qed.

Lemma clamp_is_hundred (x : Q) : clamp x 0 100 == 100 <-> 100 <= x.
Proof.
  unfold clamp. split.
  - intros H. destruct (Qlt_le_dec x 100) as [Hlt|Hge]; [|exact Hge].
    exfalso.
    assert (Hmax : Qmax 0 x < 100).
    { apply Q.max_lub_lt; [reflexivity|exact Hlt]. }
    rewrite Q.min_r in H by (apply Qlt_le_weak; exact Hmax).
    rewrite H in Hmax. discriminate.
  - intros H. apply Q.min_l.
    apply Qle_trans with x; [exact H|apply Q.le_max_r].
Qed.

Example zero_goal_is_reached_at_zero_percent :
  let goal := mk_goal (Some "Later") (Some 0) "x" (Some 0)
                      (Some (mk_date 2025 1 1)) "Daily" (Some 0) in
  status_text (mk_date 2024 3 10) goal = GoalReached /\
  progress_percent goal == 0.
Proof. split; reflexivity. Qed.

(** X10. The status line and the progress bar of a goal card agree for a
    goal with a positive target: the card says "Goal Reached" exactly
    when the bar is at 100 percent.  "Overdue" is shown only for an unmet
    goal whose target date lies before today, and the day count of
    "Remaining" is never negative. *)
Theorem status_agrees_with_progress (today : datetime) (goal : SavingGoal) :
  let saved := or_zero (CurrentSaved goal) in
  let target := or_zero (GoalAmount goal) in
  (status_text today goal = GoalReached <-> target <= saved) /\
  (0 < target ->
   (status_text today goal = GoalReached <-> progress_percent goal == 100)) /\
  (status_text today goal = Overdue ->
   saved < target /\
   exists due : datetime,
     TargetDate goal = Some due /\ (toordinal due < toordinal today)%Z) /\
  (forall n : Z,
      status_text today goal = Remaining n ->
      (0 <= n)%Z /\ saved < target /\
      exists due : datetime,
        TargetDate goal = Some due /\
        n = (toordinal due - toordinal today)%Z).
Proof.
  cbv zeta.
  set (saved := or_zero (CurrentSaved goal)).
  set (target := or_zero (GoalAmount goal)).
  assert (Hreached : status_text today goal = GoalReached <-> target <= saved).
  { unfold status_text. fold saved target. cbv zeta.
    destruct (Qle_bool target saved) eqn:E.
    - apply Qle_bool_iff in E. tauto.
    - split; [|intros H; apply Qle_bool_iff in H; congruence].
      destruct (TargetDate goal); [|discriminate].
      destruct (days_to_target today d <? 0)%Z; discriminate. }
  assert (Hunmet : status_text today goal <> GoalReached -> saved < target).
  { intros Hne. apply Qnot_le_lt. intros Hle. apply Hne, Hreached, Hle. }
  split; [exact Hreached|]. split; [|split].
  - intros Hpos. rewrite Hreached. unfold progress_percent.
    fold saved target. rewrite (progress_percent_of_positive _ _ Hpos).
    rewrite clamp_is_hundred. symmetry. apply ratio_reaches_hundred.
    exact Hpos.
  - intros Hst. split; [apply Hunmet; congruence|].
    unfold status_text in Hst. fold saved target in Hst. cbv zeta in Hst.
    destruct (Qle_bool target saved); [discriminate|].
    destruct (TargetDate goal) as [due|]; [|discriminate].
    exists due. split; [reflexivity|].
    rewrite days_to_target_ordinals in Hst.
    destruct (Z.ltb_spec (toordinal due - toordinal today) 0);
      [lia|discriminate].
  - intros n Hst. split; [|split; [apply Hunmet; congruence|]].
    + unfold status_text in Hst. fold saved target in Hst. cbv zeta in Hst.
      destruct (Qle_bool target saved); [discriminate|].
      destruct (TargetDate goal) as [due|]; [|discriminate].
      destruct (Z.ltb_spec (days_to_target today due) 0);
        [discriminate|].
      injection Hst as <-. assumption.
    + unfold status_text in Hst. fold saved target in Hst. cbv zeta in Hst.
      destruct (Qle_bool target saved); [discriminate|].
      destruct (TargetDate goal) as [due|]; [|discriminate].
      exists due. split; [reflexivity|].
      destruct (days_to_target today due <? 0)%Z; [discriminate|].
      injection Hst as <-. apply days_to_target_ordinals.
Qed.

Lemma status_agrees_with_progress_witness :
  let today := mk_date 2024 3 10 in
  let goal := mk_goal (Some "Trip") (Some 10000) "x" (Some 10000)
                      (Some (mk_date 2024 1 1)) "Daily" (Some 0) in
  status_text today goal = GoalReached /\ progress_percent goal == 100.
Proof.
  cbv zeta.
  destruct (status_agrees_with_progress (mk_date 2024 3 10)
              (mk_goal (Some "Trip") (Some 10000) "x" (Some 10000)
                       (Some (mk_date 2024 1 1)) "Daily" (Some 0)))
    as (_ & H & _).
  split; [reflexivity|]. apply H; reflexivity.
Defined.

(** ** Saving goals: the save-money action *)

Lemma first_index_found (selected : string) (options : list string)
      (idx : nat) :
  first_index selected options = Some idx ->
  nth_error options idx = Some selected.
Proof.
  revert idx. induction options as [|opt rest IH]; intros idx H;
    [discriminate|].
  simpl in H. destruct (String.eqb_spec opt selected) as [->|Hne].
  - injection H as <-. reflexivity.
  - destruct (first_index selected rest) as [k|]; [|discriminate].
    injection H as <-. simpl. apply IH. reflexivity.
Qed.

(** *** The update of the session's table, by label *)

Lemma has_label_at (df : frame) (idx : nat) (goal : SavingGoal) :
  nth_error df idx = Some (idx, goal) -> has_label idx df = true.
Proof.
  intros H. unfold has_label. apply existsb_exists.
  exists (idx, goal). split; [exact (nth_error_In _ _ H)|].
  cbn [fst]. apply Nat.eqb_refl.
Qed.

Lemma loc_add_saved_at (df : frame) (idx : nat) (amount : Q)
      (goal : SavingGoal) :
  nth_error df idx = Some (idx, goal) ->
  nth_error (loc_add_saved idx amount df) idx
  = Some (idx, add_saved amount goal).
Proof.
  intros H. unfold loc_add_saved. rewrite nth_error_map, H.
  cbn [option_map fst snd]. rewrite Nat.eqb_refl. reflexivity.
Qed.

Lemma loc_add_saved_elsewhere (df : frame) (idx k : nat) (amount : Q)
      (goal : SavingGoal) :
  NoDup (map fst df) -> nth_error df idx = Some (idx, goal) -> k <> idx ->
  nth_error (loc_add_saved idx amount df) k = nth_error df k.
Proof.
  intros Hnd Hidx Hk. unfold loc_add_saved. rewrite nth_error_map.
  destruct (nth_error df k) as [[label g]|] eqn:E; [|reflexivity].
  cbn [option_map fst snd].
  destruct (Nat.eqb_spec label idx) as [->|]; [|reflexivity].
  exfalso. apply Hk.
  apply (proj1 (NoDup_nth_error (map fst df)) Hnd).
  - rewrite length_map. apply nth_error_Some. rewrite E. discriminate.
  - rewrite !nth_error_map, E, Hidx. reflexivity.
Qed.

Lemma loc_add_saved_absent (label : nat) (amount : Q) (df : frame) :
  ~ In label (map fst df) -> loc_add_saved label amount df = df.
Proof.
  unfold loc_add_saved.
  induction df as [|[l g] df IH]; intros H; [reflexivity|].
  cbn [map fst snd] in *.
  destruct (Nat.eqb_spec l label) as [->|Hne].
  - exfalso. apply H. left. reflexivity.
  - rewrite IH; [reflexivity|]. intros Hin. apply H. right. exact Hin.
Qed.

Lemma loc_add_saved_total (label : nat) (amount : Q) (df : frame)
      (goal : SavingGoal) (saved : Q) :
  NoDup (map fst df) -> In (label, goal) df ->
  CurrentSaved goal = Some saved ->
  total_saved (rows_of (loc_add_saved label amount df))
  == total_saved (rows_of df) + amount.
Proof.
  induction df as [|[l g] df IH]; intros Hnd Hin Hsaved; [contradiction|].
  cbn [map fst] in Hnd. inversion Hnd as [|? ? Hnotin Hnd']; subst.
  destruct Hin as [Heq|Hin].
  - injection Heq as -> ->.
    change (loc_add_saved label amount ((label, goal) :: df))
      with ((if Nat.eqb label label
             then (label, add_saved amount goal) else (label, goal))
            :: loc_add_saved label amount df).
    rewrite Nat.eqb_refl, (loc_add_saved_absent label amount df Hnotin).
    unfold rows_of. cbn [map snd total_saved add_saved CurrentSaved].
    rewrite Hsaved. cbn [option_map or_zero]. ring.
  - assert (Hne : l <> label).
    { intros ->. apply Hnotin. apply in_map_iff.
      exists (label, goal). split; [reflexivity|exact Hin]. }
    change (loc_add_saved label amount ((l, g) :: df))
      with ((if Nat.eqb l label then (l, add_saved amount g) else (l, g))
            :: loc_add_saved label amount df).
    destruct (Nat.eqb_spec l label) as [Heq|_]; [contradiction|].
    change (rows_of ((l, g) :: loc_add_saved label amount df))
      with (g :: rows_of (loc_add_saved label amount df)).
    change (rows_of ((l, g) :: df)) with (g :: rows_of df).
    cbn [total_saved]. rewrite (IH Hnd' Hin Hsaved). ring.
Qed.

Lemma loc_add_saved_keeps_plan (label : nat) (amount : Q) (df : frame) :
  map (fun g => (GoalName g, GoalAmount g, TargetDate g,
                 SavingFrequency g, SavingAmountPerFreq g))
      (rows_of (loc_add_saved label amount df))
  = map (fun g => (GoalName g, GoalAmount g, TargetDate g,
                   SavingFrequency g, SavingAmountPerFreq g)) (rows_of df).
Proof.
  unfold rows_of, loc_add_saved.
  induction df as [|[l g] df IH]; [reflexivity|].
  cbn [map fst snd]. rewrite IH.
  destruct (Nat.eqb l label); reflexivity.
Qed.

(** *** The rewrite of the goals sheet *)

Lemma numeric_cells_no_nan (g : SavingGoal) :
  GoalAmount g <> None -> CurrentSaved g <> None ->
  SavingAmountPerFreq g <> None ->
  existsb is_nan (goal_row_as_is g) = false.
Proof.
  unfold goal_row_as_is.
  destruct (GoalAmount g), (CurrentSaved g), (SavingAmountPerFreq g);
    intros; try reflexivity; congruence.
Qed.

Lemma add_saved_nan (amount : Q) (g : SavingGoal) :
  existsb is_nan (goal_row_as_is (add_saved amount g))
  = existsb is_nan (goal_row_as_is g).
Proof.
  unfold goal_row_as_is, add_saved.
  cbn [GoalName GoalAmount Emoji CurrentSaved TargetDate SavingFrequency
       SavingAmountPerFreq].
  destruct (GoalAmount g), (CurrentSaved g), (SavingAmountPerFreq g);
    reflexivity.
Qed.

Lemma loc_add_saved_nan (label : nat) (amount : Q) (df : frame) :
  (forall g, In g (rows_of df) -> existsb is_nan (goal_row_as_is g) = false) ->
  forall g, In g (rows_of (loc_add_saved label amount df)) ->
            existsb is_nan (goal_row_as_is g) = false.
Proof.
  unfold rows_of, loc_add_saved. intros H g Hin.
  rewrite map_map in Hin. apply in_map_iff in Hin.
  destruct Hin as ([l g0] & Heq & Hin0).
  assert (Hg0 : In g0 (map snd df)).
  { apply in_map_iff. exists (l, g0). split; [reflexivity|exact Hin0]. }
  cbn [fst snd] in Heq. destruct (Nat.eqb l label); cbn [snd] in Heq; subst g.
  - rewrite add_saved_nan. apply H. exact Hg0.
  - apply H. exact Hg0.
Qed.

Lemma rewrite_goal_rows_all (k : nat) (rows : list SavingGoal)
      (ws : worksheet) :
  (forall g, In g rows -> existsb is_nan (goal_row_as_is g) = false) ->
  rewrite_goal_rows None k rows ws = (ws ++ map goal_row_as_is rows, true).
Proof.
  revert k ws. induction rows as [|g rows IH]; intros k ws H;
    cbn [rewrite_goal_rows remote_ok map].
  - rewrite app_nil_r. reflexivity.
  - unfold try_append_row. rewrite (H g (or_introl eq_refl)).
    rewrite IH by (intros g' Hg'; apply H; right; exact Hg').
    unfold append_row. rewrite <- app_assoc. reflexivity.
Qed.

(** A loop that ran to its end wrote every row, met no empty numeric
    cell, and no call it made was the failing one. *)
Lemma rewrite_goal_rows_done (fails_at : option nat) (k : nat)
      (rows : list SavingGoal) (ws ws' : worksheet) :
  rewrite_goal_rows fails_at k rows ws = (ws', true) ->
  ws' = ws ++ map goal_row_as_is rows /\
  (forall g, In g rows -> existsb is_nan (goal_row_as_is g) = false) /\
  (forall n, fails_at = Some n -> (k <= n)%nat ->
             (k + List.length rows <= n)%nat).
Proof.
  revert k ws. induction rows as [|g rows IH]; intros k ws H;
    cbn [rewrite_goal_rows] in H.
  - injection H as <-. rewrite app_nil_r. split; [reflexivity|].
    split; [intros g []|]. intros n _ Hle. cbn [List.length]. lia.
  - destruct (remote_ok fails_at k) eqn:Hok; [|discriminate].
    unfold try_append_row in H.
    destruct (existsb is_nan (goal_row_as_is g)) eqn:Hnan; [discriminate|].
    destruct (IH _ _ H) as (-> & Hrows & Hn).
    split; [unfold append_row; cbn [map]; rewrite <- app_assoc; reflexivity|].
    split.
    + intros g' [<-|Hin]; [exact Hnan|apply Hrows; exact Hin].
    + intros n -> Hle. unfold remote_ok in Hok. apply Nat.ltb_lt in Hok.
      cbn [List.length]. specialize (Hn n eq_refl). lia.
Qed.

(** Whatever stops the loop, the sheet holds the rows of the goals before
    the one it stopped at. *)
Lemma rewrite_goal_rows_prefix (fails_at : option nat) (k : nat)
      (rows : list SavingGoal) (ws : worksheet) :
  exists n : nat,
    fst (rewrite_goal_rows fails_at k rows ws)
    = ws ++ map goal_row_as_is (firstn n rows).
Proof.
  revert k ws. induction rows as [|g rows IH]; intros k ws;
    cbn [rewrite_goal_rows].
  - exists 0%nat. cbn [firstn map fst]. rewrite app_nil_r. reflexivity.
  - destruct (remote_ok fails_at k);
      [|exists 0%nat; cbn [firstn map fst]; rewrite app_nil_r; reflexivity].
    unfold try_append_row.
    destruct (existsb is_nan (goal_row_as_is g));
      [exists 0%nat; cbn [firstn map fst]; rewrite app_nil_r; reflexivity|].
    destruct (IH (S k) (append_row ws (goal_row_as_is g))) as (n & Hn).
    exists (S n). rewrite Hn. cbn [firstn map]. unfold append_row.
    rewrite <- app_assoc. reflexivity.
Qed.

(** *** The writes *)

Lemma write_saved_money_all (lang : language) (today : datetime) (st : Store)
      (name : string) (df : frame) (amount : Q) :
  (forall g, In g (rows_of df) -> existsb is_nan (goal_row_as_is g) = false) ->
  write_saved_money lang None today st name df amount
  = ({| sheet := sheet st
                 ++ [[CStr (isoformat (date today)); CStr "Expense";
                      CStr ("Saving Goal: " ++ name); CNum amount;
                      CStr ("Saved for goal: " ++ name)]];
        fixed_expenses_sheet := fixed_expenses_sheet st;
        goals_sheet := header STANDARD_COLS_SAVING_GOALS
                       :: map goal_row_as_is (rows_of df);
        monthly_plans_sheet := monthly_plans_sheet st |},
     [st_success (t lang "ออมเงิน" "Saved")]).
Proof.
  intros H. unfold write_saved_money. cbv beta zeta. cbn [remote_ok].
  rewrite (rewrite_goal_rows_all _ _ _ H). reflexivity.
Qed.

Lemma write_saved_money_outcome (lang : language) (fails_at : option nat)
      (today : datetime) (st : Store) (name : string) (df : frame)
      (amount : Q) :
  let result := write_saved_money lang fails_at today st name df amount in
  fixed_expenses_sheet (fst result) = fixed_expenses_sheet st /\
  monthly_plans_sheet (fst result) = monthly_plans_sheet st /\
  (fails_at = Some 0%nat -> fst result = st) /\
  (fails_at <> Some 0%nat ->
   sheet (fst result)
   = sheet st ++ [[CStr (isoformat (date today)); CStr "Expense";
                   CStr ("Saving Goal: " ++ name); CNum amount;
                   CStr ("Saved for goal: " ++ name)]]) /\
  (fails_at = Some 1%nat -> goals_sheet (fst result) = goals_sheet st) /\
  (fails_at = Some 2%nat -> goals_sheet (fst result) = []) /\
  (fails_at <> Some 0%nat -> fails_at <> Some 1%nat ->
   fails_at <> Some 2%nat ->
   exists n : nat,
     goals_sheet (fst result)
     = header STANDARD_COLS_SAVING_GOALS
       :: map goal_row_as_is (firstn n (rows_of df))) /\
  (existsb is_success (snd result) = negb (existsb is_error (snd result))) /\
  (existsb is_success (snd result) = true ->
   goals_sheet (fst result)
   = header STANDARD_COLS_SAVING_GOALS :: map goal_row_as_is (rows_of df) /\
   (forall g, In g (rows_of df) ->
              existsb is_nan (goal_row_as_is g) = false) /\
   (forall n, fails_at = Some n -> (3 + List.length df <= n)%nat)).
Proof.
  cbv zeta. unfold write_saved_money. cbv beta zeta.
  assert (Hlen : List.length (rows_of df) = List.length df)
    by apply length_map.
  destruct fails_at as [[|[|[|n]]]|]; cbn [remote_ok Nat.ltb Nat.leb].
  - cbn [fst snd]. repeat split; try reflexivity; try congruence;
      try discriminate.
  - cbn [fst snd sheet goals_sheet fixed_expenses_sheet monthly_plans_sheet].
    repeat split; try reflexivity; try congruence; try discriminate.
  - cbn [fst snd sheet goals_sheet fixed_expenses_sheet monthly_plans_sheet].
    repeat split; try reflexivity; try congruence; try discriminate.
  - pose proof (rewrite_goal_rows_prefix (Some (S (S (S n)))) 3 (rows_of df)
                  (append_row (clear (goals_sheet st))
                              (header STANDARD_COLS_SAVING_GOALS)))
      as (m & Hprefix).
    destruct (rewrite_goal_rows _ _ _ _) as [goals done] eqn:Hloop.
    cbn [fst snd sheet goals_sheet fixed_expenses_sheet monthly_plans_sheet]
      in *.
    split; [reflexivity|]. split; [reflexivity|].
    split; [discriminate|]. split; [reflexivity|].
    split; [discriminate|]. split; [discriminate|].
    split; [intros _ _ _; exists m; exact Hprefix|].
    destruct done.
    + split; [reflexivity|]. intros _.
      destruct (rewrite_goal_rows_done _ _ _ _ _ Hloop) as (-> & Hnan & Hn).
      split; [reflexivity|]. split; [exact Hnan|].
      intros n' Heq. rewrite <- Hlen. apply Hn; [exact Heq|].
      injection Heq as <-. lia.
    + split; [reflexivity|]. discriminate.
  - pose proof (rewrite_goal_rows_prefix None 3 (rows_of df)
                  (append_row (clear (goals_sheet st))
                              (header STANDARD_COLS_SAVING_GOALS)))
      as (m & Hprefix).
    destruct (rewrite_goal_rows _ _ _ _) as [goals done] eqn:Hloop.
    cbn [fst snd sheet goals_sheet fixed_expenses_sheet monthly_plans_sheet]
      in *.
    split; [reflexivity|]. split; [reflexivity|].
    split; [discriminate|]. split; [reflexivity|].
    split; [discriminate|]. split; [discriminate|].
    split; [intros _ _ _; exists m; exact Hprefix|].
    destruct done.
    + split; [reflexivity|]. intros _.
      destruct (rewrite_goal_rows_done _ _ _ _ _ Hloop) as (-> & Hnan & Hn).
      split; [reflexivity|]. split; [exact Hnan|]. discriminate.
    + split; [reflexivity|]. discriminate.
Qed.

(** The handler once the button is pressed with a positive amount and the
    label of the selected position exists. *)
Lemma save_money_pressed (lang : language) (fails_at : option nat)
      (today : datetime) (df_goals : frame) (st : Store) (selected : string)
      (amount : Q) (idx : nat) :
  0 < amount -> nonempty selected = true ->
  first_index selected (map goal_option (rows_of df_goals)) = Some idx ->
  has_label idx df_goals = true ->
  save_money_to_goal lang fails_at today df_goals st selected amount true
  = Some
      (let written :=
         write_saved_money lang fails_at today st
           (str_of_name
              (match nth_error (rows_of df_goals) idx with
               | Some goal_to_update => GoalName goal_to_update
               | None => None
               end))
           (loc_add_saved idx amount df_goals) amount in
       mk_save_money (loc_add_saved idx amount df_goals)
                     (fst written) (snd written)).
Proof.
  intros Hpos Hsel Hidx Hlabel. unfold save_money_to_goal.
  destruct df_goals as [|p rest]; [discriminate|].
  cbv beta iota zeta.
  apply Qgt_bool_iff in Hpos. rewrite Hpos, Hsel, Hidx, Hlabel.
  cbn [andb].
  destruct (write_saved_money _ _ _ _ _ _ _) as [st' messages].
  reflexivity.
Qed.

Example save_money_scenario :
  let today := mk_datetime 2024 3 10 9 0 0 0 in
  let trip := mk_goal (Some "Trip") (Some 10000) "T" (Some 2500)
                      (Some (mk_date 2024 6 1)) "Weekly" (Some 625) in
  let st := mk_store [header STANDARD_COLS_MAIN] [] [] [] in
  option_map (fun r => (sm_goals r, sheet (sm_store r)))
    (save_money_to_goal English None today [(0%nat, trip)] st "T Trip" 500
                        true)
  = Some ([(0%nat,
            mk_goal (Some "Trip") (Some 10000) "T" (Some (2500 + 500))
                    (Some (mk_date 2024 6 1)) "Weekly" (Some 625))],
          [header STANDARD_COLS_MAIN;
           [CStr "2024-03-10"; CStr "Expense"; CStr "Saving Goal: Trip";
            CNum 500; CStr "Saved for goal: Trip"]]).
Proof. reflexivity. Qed.

(** A goal row with an empty required amount stops the rewrite: the
    Expense row is written, the goals sheet is left with its header and
    the rows before, and the goal "Trip" is no longer on the sheet. *)
Example save_money_empty_cell :
  let today := mk_datetime 2024 3 10 9 0 0 0 in
  let car := mk_goal (Some "Car") (Some 90000) "C" (Some 100)
                     (Some (mk_date 2026 1 1)) "Monthly" None in
  let trip := mk_goal (Some "Trip") (Some 10000) "T" (Some 2500)
                      (Some (mk_date 2024 6 1)) "Weekly" (Some 625) in
  let st := mk_store [header STANDARD_COLS_MAIN] []
                     [header STANDARD_COLS_SAVING_GOALS;
                      goal_row_as_is car; goal_row_as_is trip] [] in
  option_map (fun r => (sheet (sm_store r), goals_sheet (sm_store r),
                        existsb is_error (sm_messages r)))
    (save_money_to_goal English None today [(0%nat, car); (1%nat, trip)] st
                        "T Trip" 500 true)
  = Some ([header STANDARD_COLS_MAIN;
           [CStr "2024-03-10"; CStr "Expense"; CStr "Saving Goal: Trip";
            CNum 500; CStr "Saved for goal: Trip"]],
          [header STANDARD_COLS_SAVING_GOALS], true).
Proof. reflexivity. Qed.

(** On a table whose labels are not the positions, [.loc] raises on a
    missing label, or adds the amount to another goal than the one
    named in the Expense row. *)
Example save_money_labels_off_positions :
  let today := mk_datetime 2024 3 10 9 0 0 0 in
  let car := mk_goal (Some "Car") (Some 90000) "C" (Some 100)
                     (Some (mk_date 2026 1 1)) "Monthly" (Some 4000) in
  let trip := mk_goal (Some "Trip") (Some 10000) "T" (Some 2500)
                      (Some (mk_date 2024 6 1)) "Weekly" (Some 625) in
  let st := mk_store [header STANDARD_COLS_MAIN] [] [] [] in
  save_money_to_goal English None today [(0%nat, car); (2%nat, trip)] st
                     "T Trip" 500 true = None /\
  option_map (fun r => map (fun p => CurrentSaved (snd p)) (sm_goals r))
    (save_money_to_goal English None today [(1%nat, car); (0%nat, trip)] st
                        "T Trip" 500 true)
  = Some [Some (100 + 500); Some 2500].
Proof. split; reflexivity. Qed.

(** X11. Saving money to a goal moves exactly the amount entered.  Take a
    goals table whose index labels are distinct and whose selected row
    carries its position as label (as a table loaded from the sheet
    does), with GoalAmount, CurrentSaved and SavingAmountPerFreq present
    in every row, a positive amount, the button pressed and no remote
    call failing.  Then the first goal whose "emoji name" is the selected
    entry has the amount added to its saved sum and every other goal is
    untouched, so the total saved grows by the amount; one Expense row of
    that amount, in the category "Saving Goal: name", is appended to the
    main sheet; the goals sheet is rewritten with one row per goal; the
    other two sheets are left alone; the success notice is the only
    message; and no goal's target, date, frequency or stored required
    amount is changed. *)
Theorem save_money_moves_the_amount (lang : language) (today : datetime)
        (df_goals : frame) (st : Store) (selected : string)
        (amount : Q) (idx : nat) (goal : SavingGoal) (saved : Q) :
  0 < amount -> nonempty selected = true ->
  first_index selected (map goal_option (rows_of df_goals)) = Some idx ->
  nth_error df_goals idx = Some (idx, goal) ->
  NoDup (map fst df_goals) ->
  CurrentSaved goal = Some saved ->
  (forall g : SavingGoal,
      In g (rows_of df_goals) ->
      GoalAmount g <> None /\ CurrentSaved g <> None /\
      SavingAmountPerFreq g <> None) ->
  exists r : SaveMoney,
    save_money_to_goal lang None today df_goals st selected amount true
    = Some r /\
    goal_option goal = selected /\
    nth_error (sm_goals r) idx = Some (idx, add_saved amount goal) /\
    (forall k, k <> idx -> nth_error (sm_goals r) k = nth_error df_goals k) /\
    total_saved (rows_of (sm_goals r))
    == total_saved (rows_of df_goals) + amount /\
    sheet (sm_store r)
    = sheet st ++ [[CStr (isoformat (date today)); CStr "Expense";
                    CStr ("Saving Goal: " ++ str_of_name (GoalName goal));
                    CNum amount;
                    CStr ("Saved for goal: " ++ str_of_name (GoalName goal))]]
    /\
    goals_sheet (sm_store r)
    = header STANDARD_COLS_SAVING_GOALS
      :: map goal_row_as_is (rows_of (sm_goals r)) /\
    fixed_expenses_sheet (sm_store r) = fixed_expenses_sheet st /\
    monthly_plans_sheet (sm_store r) = monthly_plans_sheet st /\
    sm_messages r = [st_success (t lang "ออมเงิน" "Saved")] /\
    map (fun g => (GoalName g, GoalAmount g, TargetDate g,
                   SavingFrequency g, SavingAmountPerFreq g))
        (rows_of (sm_goals r))
    = map (fun g => (GoalName g, GoalAmount g, TargetDate g,
                     SavingFrequency g, SavingAmountPerFreq g))
          (rows_of df_goals).
Proof.
  intros Hpos Hsel Hidx Hnth Hnd Hsaved Hcells.
  assert (Hrow : nth_error (rows_of df_goals) idx = Some goal).
  { unfold rows_of. rewrite nth_error_map, Hnth. reflexivity. }
  assert (Hnan : forall g, In g (rows_of (loc_add_saved idx amount df_goals)) ->
                           existsb is_nan (goal_row_as_is g) = false).
  { apply loc_add_saved_nan. intros g Hg.
    destruct (Hcells g Hg) as (H1 & H2 & H3).
    apply numeric_cells_no_nan; assumption. }
  rewrite (save_money_pressed lang None today df_goals st selected amount idx
             Hpos Hsel Hidx (has_label_at df_goals idx goal Hnth)).
  cbv zeta. rewrite Hrow, (write_saved_money_all _ _ _ _ _ _ Hnan).
  cbn [fst snd]. eexists. split; [reflexivity|].
  cbn [sm_goals sm_store sm_messages sheet goals_sheet fixed_expenses_sheet
       monthly_plans_sheet].
  split.
  { apply first_index_found in Hidx.
    rewrite nth_error_map, Hrow in Hidx. cbn in Hidx. congruence. }
  split; [exact (loc_add_saved_at df_goals idx amount goal Hnth)|].
  split; [intros k Hk;
          exact (loc_add_saved_elsewhere df_goals idx k amount goal
                                         Hnd Hnth Hk)|].
  split; [exact (loc_add_saved_total idx amount df_goals goal saved Hnd
                   (nth_error_In _ _ Hnth) Hsaved)|].
  split; [reflexivity|]. split; [reflexivity|]. split; [reflexivity|].
  split; [reflexivity|]. split; [reflexivity|].
  apply loc_add_saved_keeps_plan.
Qed.

Lemma save_money_moves_the_amount_witness :
  let today := mk_datetime 2024 3 10 9 0 0 0 in
  let trip := mk_goal (Some "Trip") (Some 10000) "T" (Some 2500)
                      (Some (mk_date 2024 6 1)) "Weekly" (Some 625) in
  let car := mk_goal (Some "Car") (Some 90000) "C" (Some 100)
                     (Some (mk_date 2026 1 1)) "Monthly" (Some 4000) in
  let df := [(0%nat, car); (1%nat, trip)] in
  let st := mk_store [header STANDARD_COLS_MAIN] [] [] [] in
  exists r : SaveMoney,
    save_money_to_goal English None today df st "T Trip" 500 true = Some r /\
    total_saved (rows_of (sm_goals r)) == total_saved (rows_of df) + 500.
Proof.
  cbv zeta.
  destruct (save_money_moves_the_amount English
              (mk_datetime 2024 3 10 9 0 0 0)
              [(0%nat,
                mk_goal (Some "Car") (Some 90000) "C" (Some 100)
                        (Some (mk_date 2026 1 1)) "Monthly" (Some 4000));
               (1%nat,
                mk_goal (Some "Trip") (Some 10000) "T" (Some 2500)
                        (Some (mk_date 2024 6 1)) "Weekly" (Some 625))]
              (mk_store [header STANDARD_COLS_MAIN] [] [] [])
              "T Trip" 500 1%nat
              (mk_goal (Some "Trip") (Some 10000) "T" (Some 2500)
                       (Some (mk_date 2024 6 1)) "Weekly" (Some 625))
              2500)
    as (r & Hr & _ & _ & _ & Htotal & _).
  - reflexivity.
  - reflexivity.
  - reflexivity.
  - reflexivity.
  - cbn [map fst]. constructor.
    + intros [H|[]]. discriminate H.
    + constructor; [intros []|constructor].
  - reflexivity.
  - intros g [<-|[<-|[]]]; cbn; repeat split; discriminate.
  - exists r. split; assumption.
Defined.

(** X12. Without the button, or with an amount that is not positive, the
    save-money action changes neither the goals nor the store.  Otherwise
    the saved sum of the row labelled with the selected position is
    increased in the session's table before anything is written, and
    stays increased whichever remote call fails.  The store is left as it
    was only when the first call, the append to the main sheet, is the
    one that fails.  When a later call fails the Expense row stays
    written, with no rollback, and the goals sheet is left as it was, or
    cleared, or with its header and the rows of the first goals only.
    Success is reported exactly when no error is, and only when every
    goal is on the sheet, no goal has an empty numeric cell and no call
    made was a failing one; the other two sheets are never touched. *)
Theorem save_money_without_a_write (lang : language) (today : datetime)
        (df_goals : frame) (st : Store) (selected : string) (amount : Q) :
  (forall (fails_at : option nat) (button : bool),
      button = false \/ amount <= 0 ->
      exists r : SaveMoney,
        save_money_to_goal lang fails_at today df_goals st selected amount
                           button = Some r /\
        sm_goals r = df_goals /\ sm_store r = st) /\
  (forall (fails_at : option nat) (idx : nat),
      0 < amount -> nonempty selected = true ->
      first_index selected (map goal_option (rows_of df_goals)) = Some idx ->
      has_label idx df_goals = true ->
      exists (r : SaveMoney) (goal : SavingGoal),
        save_money_to_goal lang fails_at today df_goals st selected amount
                           true = Some r /\
        nth_error (rows_of df_goals) idx = Some goal /\
        goal_option goal = selected /\
        sm_goals r = loc_add_saved idx amount df_goals /\
        fixed_expenses_sheet (sm_store r) = fixed_expenses_sheet st /\
        monthly_plans_sheet (sm_store r) = monthly_plans_sheet st /\
        (fails_at = Some 0%nat -> sm_store r = st) /\
        (fails_at <> Some 0%nat ->
         sheet (sm_store r)
         = sheet st
           ++ [[CStr (isoformat (date today)); CStr "Expense";
                CStr ("Saving Goal: " ++ str_of_name (GoalName goal));
                CNum amount;
                CStr ("Saved for goal: " ++ str_of_name (GoalName goal))]]) /\
        (fails_at = Some 1%nat -> goals_sheet (sm_store r) = goals_sheet st) /\
        (fails_at = Some 2%nat -> goals_sheet (sm_store r) = []) /\
        (fails_at <> Some 0%nat -> fails_at <> Some 1%nat ->
         fails_at <> Some 2%nat ->
         exists n : nat,
           goals_sheet (sm_store r)
           = header STANDARD_COLS_SAVING_GOALS
             :: map goal_row_as_is (firstn n (rows_of (sm_goals r)))) /\
        (existsb is_success (sm_messages r)
         = negb (existsb is_error (sm_messages r))) /\
        (existsb is_success (sm_messages r) = true ->
         goals_sheet (sm_store r)
         = header STANDARD_COLS_SAVING_GOALS
           :: map goal_row_as_is (rows_of (sm_goals r)) /\
         (forall g, In g (rows_of (sm_goals r)) ->
                    existsb is_nan (goal_row_as_is g) = false) /\
         (forall n, fails_at = Some n ->
                    (3 + List.length df_goals <= n)%nat))).
Proof.
  split.
  - intros fails_at button Hno. unfold save_money_to_goal.
    destruct df_goals as [|g rest]; [eexists; repeat split|].
    cbv beta iota zeta.
    assert (Hcheck : button && Qgt_bool amount 0 = false).
    { destruct Hno as [->|Hle]; [reflexivity|].
      apply Qgt_bool_false_iff in Hle. rewrite Hle. apply andb_false_r. }
    rewrite Hcheck. cbn [andb]. eexists. repeat split.
  - intros fails_at idx Hpos Hsel Hidx Hlabel.
    rewrite (save_money_pressed lang fails_at today df_goals st selected
               amount idx Hpos Hsel Hidx Hlabel).
    cbv zeta.
    pose proof (first_index_found _ _ _ Hidx) as Hopt.
    rewrite nth_error_map in Hopt.
    destruct (nth_error (rows_of df_goals) idx) as [goal|] eqn:Hrow;
      [|discriminate].
    cbn [option_map] in Hopt. injection Hopt as Hopt.
    pose proof (write_saved_money_outcome lang fails_at today st
                  (str_of_name (GoalName goal))
                  (loc_add_saved idx amount df_goals) amount) as Hout.
    cbv zeta in Hout.
    destruct Hout as (H1 & H2 & H3 & H4 & H5 & H6 & H7 & H8 & H9).
    eexists. exists goal. split; [reflexivity|].
    cbn [sm_goals sm_store sm_messages].
    split; [reflexivity|]. split; [exact Hopt|]. split; [reflexivity|].
    split; [exact H1|]. split; [exact H2|]. split; [exact H3|].
    split; [exact H4|]. split; [exact H5|]. split; [exact H6|].
    split; [exact H7|]. split; [exact H8|].
    intros Hs. destruct (H9 Hs) as (Ha & Hb & Hc).
    split; [exact Ha|]. split; [exact Hb|].
    intros n Hn. specialize (Hc n Hn).
    unfold loc_add_saved in Hc. rewrite length_map in Hc. exact Hc.
Qed.

Lemma save_money_without_a_write_witness :
  let today := mk_datetime 2024 3 10 9 0 0 0 in
  let trip := mk_goal (Some "Trip") (Some 10000) "T" (Some 2500)
                      (Some (mk_date 2024 6 1)) "Weekly" (Some 625) in
  let st := mk_store [header STANDARD_COLS_MAIN] [] [] [] in
  exists r : SaveMoney,
    save_money_to_goal English None today [(0%nat, trip)] st "T Trip" 0 true
    = Some r
    /\ sm_goals r = [(0%nat, trip)] /\ sm_store r = st.
Proof.
  cbv zeta.
  destruct (save_money_without_a_write English (mk_datetime 2024 3 10 9 0 0 0)
              [(0%nat,
                mk_goal (Some "Trip") (Some 10000) "T" (Some 2500)
                        (Some (mk_date 2024 6 1)) "Weekly" (Some 625))]
              (mk_store [header STANDARD_COLS_MAIN] [] [] [])
              "T Trip" 0) as (Hreject & _).
  apply (Hreject None true). right. apply Qle_refl.
Defined.

(** After the first call every failure leaves the Expense row behind. *)
Example save_money_remote_failure :
  let today := mk_datetime 2024 3 10 9 0 0 0 in
  let trip := mk_goal (Some "Trip") (Some 10000) "T" (Some 2500)
                      (Some (mk_date 2024 6 1)) "Weekly" (Some 625) in
  let stored := [header STANDARD_COLS_SAVING_GOALS; goal_row_as_is trip] in
  let st := mk_store [header STANDARD_COLS_MAIN] [] stored [] in
  let expense := [CStr "2024-03-10"; CStr "Expense";
                  CStr "Saving Goal: Trip"; CNum 500;
                  CStr "Saved for goal: Trip"] in
  let run := fun fails_at =>
    option_map (fun r => (map (fun p => CurrentSaved (snd p)) (sm_goals r),
                          sheet (sm_store r), goals_sheet (sm_store r)))
      (save_money_to_goal English fails_at today [(0%nat, trip)] st
                          "T Trip" 500 true) in
  run (Some 0%nat)
  = Some ([Some (2500 + 500)], [header STANDARD_COLS_MAIN], stored) /\
  run (Some 1%nat)
  = Some ([Some (2500 + 500)], [header STANDARD_COLS_MAIN; expense], stored) /\
  run (Some 2%nat)
  = Some ([Some (2500 + 500)], [header STANDARD_COLS_MAIN; expense], []) /\
  run (Some 3%nat)
  = Some ([Some (2500 + 500)], [header STANDARD_COLS_MAIN; expense],
          [header STANDARD_COLS_SAVING_GOALS]).
Proof. repeat split. Qed.

(** ** The dashboard's views *)

Lemma valid_day_bounds (d : datetime) :
  valid d -> (1 <= day d <= 31)%Z /\ (0 <= time_us d < us_per_day)%Z.
Proof.
  intros (_ & Hd & Ht).
  pose proof (days_in_month_bounds (year d) (month d)). lia.
Qed.

Lemma same_month_ordinals (a b : datetime) :
  year a = year b -> month a = month b ->
  (toordinal a - toordinal b = day a - day b)%Z.
Proof. intros Hy Hm. unfold toordinal. rewrite Hy, Hm. lia. Qed.

(** X13. The periods of the charts are nested, and the fixed expenses are
    in all of them.  For a valid today, every entry dated (validly) in the
    current month is also within the last 90 days' window and within the
    current year, and every materialized fixed expense is an entry of the
    current month; so the fixed expenses appear in the charts whatever
    period is chosen. *)
Theorem fixed_expenses_in_every_period (lang : language) (today : datetime)
        (fixed : list FixedExpense) (period : string) :
  valid today ->
  (forall (r : Transaction) (d : datetime),
      tx_Date r = Some d -> valid d ->
      in_current_month today r = true ->
      in_current_year today r = true /\ in_last_3_months today r = true) /\
  df_filtered_for_graphs lang today period (materialize_fixed today fixed)
  = materialize_fixed today fixed.
Proof.
  intros Hvalid.
  destruct (valid_day_bounds today Hvalid) as (Hday & Htime).
  assert (Hnested : forall (r : Transaction) (d : datetime),
             tx_Date r = Some d -> (1 <= day d)%Z ->
             (0 <= time_us d)%Z ->
             in_current_month today r = true ->
             in_current_year today r = true /\
             in_last_3_months today r = true).
  { intros r d Hd Hd1 Hdt Hin.
    unfold in_current_month, in_current_year, in_last_3_months in *.
    rewrite Hd in *. apply andb_true_iff in Hin. destruct Hin as (Hy & Hm).
    split; [exact Hy|].
    apply Z.eqb_eq in Hy. apply Z.eqb_eq in Hm.
    apply Z.leb_le. unfold instant.
    pose proof (same_month_ordinals d today Hy Hm) as Hord.
    unfold us_per_day in *. lia. }
  split.
  - intros r d Hd Hdvalid. destruct (valid_day_bounds d Hdvalid).
    apply (Hnested r d Hd); lia.
  - assert (Hall : forall f,
               (forall r, In r (materialize_fixed today fixed) -> f r = true) ->
               filter f (materialize_fixed today fixed)
               = materialize_fixed today fixed).
    { intros f Hf. induction (materialize_fixed today fixed) as [|r l IH];
        [reflexivity|].
      simpl. rewrite (Hf r (or_introl eq_refl)). f_equal.
      apply IH. intros x Hx. apply Hf. right. exact Hx. }
    assert (Hmonth : forall r, In r (materialize_fixed today fixed) ->
                               in_current_month today r = true).
    { intros r Hr. unfold materialize_fixed in Hr.
      apply in_map_iff in Hr. destruct Hr as (f & <- & _).
      unfold in_current_month. cbn. rewrite !Z.eqb_refl. reflexivity. }
    assert (Hfirst : forall r, In r (materialize_fixed today fixed) ->
               tx_Date r = Some (mk_date (year today) (month today) 1)).
    { intros r Hr. unfold materialize_fixed in Hr.
      apply in_map_iff in Hr. destruct Hr as (f & <- & _). reflexivity. }
    unfold df_filtered_for_graphs.
    destruct (String.eqb period _); [apply Hall; exact Hmonth|].
    destruct (String.eqb period _).
    { apply Hall. intros r Hr.
      apply (Hnested r _ (Hfirst r Hr)); cbn; try lia. apply Hmonth, Hr. }
    destruct (String.eqb period _); [|reflexivity].
    apply Hall. intros r Hr.
    apply (Hnested r _ (Hfirst r Hr)); cbn; try lia. apply Hmonth, Hr.
Qed.

Lemma fixed_expenses_in_every_period_witness :
  let today := mk_datetime 2024 3 31 23 0 0 0 in
  let fixed := [mk_fixed "Rent" 8000] in
  valid today /\
  df_filtered_for_graphs English today "Last 3 Months"
                         (materialize_fixed today fixed)
  = materialize_fixed today fixed.
Proof.
  cbv zeta.
  assert (Hvalid : valid (mk_datetime 2024 3 31 23 0 0 0))
    by (unfold valid; vm_compute; intuition discriminate).
  split; [exact Hvalid|].
  apply (fixed_expenses_in_every_period English _ _ _ Hvalid).
Defined.

(** X14. An entry written by the save-money action never shows in the
    entries table: the table leaves out every row whose category starts
    with "Saving Goal:", which the category "Saving Goal: name" does for
    every goal name, and it keeps every other row in order. *)
Theorem saving_goal_entries_hidden (df : list Transaction) :
  (forall (r : Transaction) (name : string),
      In r (without_saving_goals df) ->
      tx_Category r <> ("Saving Goal: " ++ name)%string) /\
  (forall r : Transaction,
      In r df ->
      String.prefix "Saving Goal:" (tx_Category r) = false ->
      In r (without_saving_goals df)) /\
  ((forall r, In r df ->
              String.prefix "Saving Goal:" (tx_Category r) = false) ->
   without_saving_goals df = df).
Proof.
  unfold without_saving_goals. split; [|split].
  - intros r name Hin Hcat. apply filter_In in Hin.
    destruct Hin as (_ & Hshown). rewrite Hcat in Hshown.
    cbn in Hshown. discriminate.
  - intros r Hin Hno. apply filter_In. split; [exact Hin|].
    rewrite Hno. reflexivity.
  - intros Hnone. induction df as [|r df IH]; [reflexivity|]. simpl.
    rewrite (Hnone r (or_introl eq_refl)). cbn [negb]. f_equal.
    apply IH. intros x Hx. apply Hnone. right. exact Hx.
Qed.

(** ** Bulk saves *)





Example save_fixed_drops_zero_amount :
  fst (save_fixed_expenses [[CStr "stale"]]
         [mk_fixed_row (Some "Rent") (Some 8000);
          mk_fixed_row (Some "Gym") (Some 0);
          mk_fixed_row None (Some 300)])
  = [header STANDARD_COLS_FIXED; [CStr "Rent"; CNum 8000]].
Proof. reflexivity. Qed.






(** ** The month the plan tab opens on *)

Lemma next_day_ordinal (dt : datetime) :
  valid dt ->
  toordinal (next_day dt) = (toordinal dt + 1)%Z /\
  time_us (next_day dt) = time_us dt /\ valid (next_day dt).
Proof.
  intros (Hm & Hd & Ht). unfold next_day.
  pose proof (days_in_month_bounds (year dt) (month dt)) as Hdim.
  destruct (Z.ltb_spec (day dt) (days_in_month (year dt) (month dt))).
  - unfold toordinal, valid, replace_day, time_us in *.
    cbn [year month day hour minute second microsecond]. repeat split; lia.
  - assert (Hlast : day dt = days_in_month (year dt) (month dt)) by lia.
    destruct (Z.ltb_spec (month dt) 12).
    + pose proof (days_in_month_bounds (year dt) (month dt + 1)).
      unfold toordinal, valid, time_us in *.
      cbn [year month day hour minute second microsecond].
      rewrite days_before_month_succ by lia. repeat split; lia.
    + assert (Hdec : month dt = 12%Z) by lia.
      pose proof (days_before_december (year dt)) as Hlen.
      pose proof (days_in_month_bounds (year dt + 1) 1).
      unfold toordinal, valid, time_us in *.
      cbn [year month day hour minute second microsecond].
      rewrite days_before_year_succ.
      change (days_before_month (year dt + 1) 1) with 0%Z.
      rewrite Hdec in *.
      change (days_in_month (year dt) 12) with 31%Z in *.
      repeat split; lia.
Qed.

Lemma add_days_plus (a b : nat) (dt : datetime) :
  add_days (a + b) dt = add_days b (add_days a dt).
Proof.
  revert dt. induction a as [|a IH]; intros dt; simpl; [reflexivity|].
  apply IH.
Qed.

Lemma add_days_ordinal (n : nat) (dt : datetime) :
  valid dt ->
  toordinal (add_days n dt) = (toordinal dt + Z.of_nat n)%Z /\
  time_us (add_days n dt) = time_us dt.
Proof.
  revert dt. induction n as [|n IH]; intros dt Hvalid.
  - simpl. split; [lia|reflexivity].
  - cbn [add_days].
    destruct (next_day_ordinal dt Hvalid) as (Hord & Htime & Hnext).
    destruct (IH (next_day dt) Hnext) as (Hord' & Htime').
    rewrite Hord', Htime', Hord, Htime. split; [lia|reflexivity].
Qed.

Lemma add_days_within_month (n : nat) (dt : datetime) :
  (day dt + Z.of_nat n <= days_in_month (year dt) (month dt))%Z ->
  add_days n dt = replace_day dt (day dt + Z.of_nat n).
Proof.
  revert dt. induction n as [|n IH]; intros dt Hfit.
  - simpl. rewrite Z.add_0_r. destruct dt. reflexivity.
  - cbn [add_days]. unfold next_day.
    destruct (Z.ltb_spec (day dt) (days_in_month (year dt) (month dt)));
      [|lia].
    rewrite IH.
    + unfold replace_day. cbn [year month day hour minute second microsecond].
      f_equal. lia.
    + unfold replace_day. cbn [year month day]. lia.
Qed.

Lemma next_day_at_month_end (y m h mi s us : Z) :
  next_day (mk_datetime y m (days_in_month y m) h mi s us)
  = if (m <? 12)%Z then mk_datetime y (m + 1) 1 h mi s us
    else mk_datetime (y + 1) 1 1 h mi s us.
Proof.
  unfold next_day. cbn [year month day hour minute second microsecond].
  rewrite Z.ltb_irrefl. reflexivity.
Qed.

Example next_month_from_january_31st :
  next_month_date_obj (mk_datetime 2024 1 31 10 30 0 0)
  = mk_datetime 2024 2 1 10 30 0 0.
Proof. reflexivity. Qed.

(** X17. The month the plan tab opens on is always the month after
    today's: for every valid today, first-of-month plus 32 days, set back
    to day 1, is the first day of the next month (January of the next
    year after December) at today's time of day, for months of 28, 29, 30
    and 31 days alike.  The addition of days used is the calendar's: it
    moves the ordinal by the number of days added. *)
Theorem next_month_is_the_month_after (today : datetime) :
  valid today ->
  next_month_date_obj today
  = mk_datetime (if (month today =? 12)%Z then year today + 1 else year today)
                (if (month today =? 12)%Z then 1 else month today + 1) 1
                (hour today) (minute today) (second today)
                (microsecond today) /\
  toordinal (add_days 32 (replace_day today 1))
  = (toordinal (replace_day today 1) + 32)%Z.
Proof.
  intros (Hm & Hd & Ht).
  pose proof (days_in_month_bounds (year today) (month today)) as Hdim.
  set (start := replace_day today 1).
  assert (Hstart : valid start).
  { unfold valid, start, replace_day, time_us in *.
    cbn [year month day hour minute second microsecond]. repeat split; lia. }
  split; [|apply (add_days_ordinal 32 start Hstart)].
  unfold next_month_date_obj. fold start.
  set (dim := days_in_month (year today) (month today)) in *.
  replace 32%nat with (Z.to_nat (dim - 1) + (1 + Z.to_nat (32 - dim)))%nat
    by lia.
  rewrite add_days_plus.
  rewrite (add_days_within_month (Z.to_nat (dim - 1)) start)
    by (unfold start, replace_day; cbn [year month day]; fold dim; lia).
  assert (Hlast :
    replace_day start (day start + Z.of_nat (Z.to_nat (dim - 1)))
    = mk_datetime (year today) (month today)
                  (days_in_month (year today) (month today))
                  (hour today) (minute today) (second today)
                  (microsecond today)).
  { unfold start, replace_day.
    cbn [year month day hour minute second microsecond]. fold dim.
    f_equal. lia. }
  rewrite Hlast, add_days_plus. cbn [add_days].
  rewrite next_day_at_month_end.
  destruct (Z.ltb_spec (month today) 12) as [Hlt|Hge].
  - destruct (Z.eqb_spec (month today) 12); [lia|].
    pose proof (days_in_month_bounds (year today) (month today + 1)).
    rewrite add_days_within_month
      by (cbn [year month day]; fold dim; lia).
    reflexivity.
  - destruct (Z.eqb_spec (month today) 12); [|lia].
    pose proof (days_in_month_bounds (year today + 1) 1).
    rewrite add_days_within_month
      by (cbn [year month day]; fold dim; lia).
    reflexivity.
Qed.

Lemma next_month_is_the_month_after_witness :
  valid (mk_datetime 2024 12 31 23 59 0 0) /\
  next_month_date_obj (mk_datetime 2024 12 31 23 59 0 0)
  = mk_datetime 2025 1 1 23 59 0 0.
Proof.
  assert (Hvalid : valid (mk_datetime 2024 12 31 23 59 0 0))
    by (unfold valid; vm_compute; intuition discriminate).
  split; [exact Hvalid|].
  apply (next_month_is_the_month_after _ Hvalid).
Defined.

(** ** What one entry does to the dashboard *)

Example untyped_entry_is_ignored :
  let today := mk_date 2024 3 10 in
  let ledger := [mk_transaction None "Income" "Income" 900 ""] in
  balance (calculate_dashboard_metrics today
             (ledger ++ [mk_transaction None "Transfer" "Others" 400 ""]) [])
  == balance (calculate_dashboard_metrics today ledger []).
Proof. vm_compute. reflexivity. Qed.

(** X18. One more entry anywhere in the ledger moves the dashboard by its
    amount and by nothing else: an Income entry raises income and balance,
    an Expense entry raises expense and lowers balance and the amount left
    after fixed expenses, and an entry whose Type is neither "Income" nor
    "Expense" changes no figure at all. *)
Theorem entry_moves_dashboard_by_its_amount (today : datetime)
        (before after : list Transaction) (r : Transaction)
        (fixed : list FixedExpense) :
  let m0 := calculate_dashboard_metrics today (before ++ after) fixed in
  let m := calculate_dashboard_metrics today (before ++ r :: after) fixed in
  let gain := if String.eqb (tx_Type r) "Income" then tx_Amount r else 0 in
  let cost := if String.eqb (tx_Type r) "Expense" then tx_Amount r else 0 in
  income m == income m0 + gain /\
  expense m == expense m0 + cost /\
  balance m == balance m0 + gain - cost /\
  remaining_after_fixed m == remaining_after_fixed m0 + gain - cost /\
  (tx_Type r <> "Income" -> tx_Type r <> "Expense" ->
   income m == income m0 /\ expense m == expense m0 /\
   balance m == balance m0 /\
   remaining_after_fixed m == remaining_after_fixed m0).
Proof.
  cbv zeta.
  destruct (metrics_fields today (before ++ after) fixed)
    as (Hi0 & He0 & Hb0 & Hr0).
  destruct (metrics_fields today (before ++ r :: after) fixed)
    as (Hi & He & Hb & Hr).
  cbv zeta in *.
  assert (Hsum : forall kind,
             sum_of_kind kind (before ++ r :: after)
             == sum_of_kind kind (before ++ after)
                + (if String.eqb (tx_Type r) kind then tx_Amount r else 0)).
  { intros kind. rewrite !sum_of_kind_app. simpl. ring. }
  rewrite Hi, He, Hb, Hr, Hi0, He0, Hb0, Hr0, !Hsum.
  split; [reflexivity|]. split; [reflexivity|].
  split; [ring|]. split; [ring|].
  intros Hni Hne.
  apply String.eqb_neq in Hni. apply String.eqb_neq in Hne.
  rewrite Hni, Hne. repeat split; ring.
Qed.

Lemma entry_moves_dashboard_by_its_amount_witness :
  let today := mk_date 2024 3 10 in
  let salary := mk_transaction None "Income" "Income" 900 "" in
  let transfer := mk_transaction None "Transfer" "Others" 400 "" in
  balance (calculate_dashboard_metrics today [salary; transfer] [])
  == balance (calculate_dashboard_metrics today [salary] []).
Proof.
  cbv zeta.
  destruct (entry_moves_dashboard_by_its_amount (mk_date 2024 3 10)
              [mk_transaction None "Income" "Income" 900 ""] []
              (mk_transaction None "Transfer" "Others" 400 "") [])
    as (_ & _ & _ & _ & H).
  destruct H as (_ & _ & Hb & _); [discriminate|discriminate|].
  exact Hb.
Defined.

Lemma update_payment_status_monotone_witness :
  let month := mk_date 2024 3 1 in
  let today := mk_datetime 2024 3 25 14 0 0 0 in
  let paid := mk_plan_item month "Expense" "Rent" 8000 "Fixed Expense" true
                           (Some (mk_date 2024 3 25)) in
  let open := mk_plan_item month "Expense" "Gym" 900 "Others" false None in
  let ticked := [mk_actionable_row "Gym" 900 "อื่นๆ" true] in
  exists it' : MonthlyPlanItem,
    nth_error
      (ps_plans (state_of (update_payment_status today today ticked
                             (mk_pay_state [paid; open] [] [])))) 0
    = Some it' /\ IsPaid it' = true.
Proof.
  cbv zeta.
  destruct (update_payment_status_monotone
              (mk_datetime 2024 3 25 14 0 0 0) (mk_datetime 2024 3 25 14 0 0 0)
              [mk_actionable_row "Gym" 900 "อื่นๆ" true]
              (mk_pay_state
                 [mk_plan_item (mk_date 2024 3 1) "Expense" "Rent" 8000
                               "Fixed Expense" true (Some (mk_date 2024 3 25));
                  mk_plan_item (mk_date 2024 3 1) "Expense" "Gym" 900
                               "Others" false None] [] [])
              0%nat
              (mk_plan_item (mk_date 2024 3 1) "Expense" "Rent" 8000
                            "Fixed Expense" true (Some (mk_date 2024 3 25)))
              eq_refl)
    as (it' & Hnth & _ & _ & _ & Hpaid & _).
  exists it'. split; [exact Hnth|]. apply Hpaid. reflexivity.
Defined.
